(** * Interview Helper: the structured-output fallback of [app.py]

    A shallow embedding of [app.py] (the two-stage prompt-chaining CLI) and
    of the parts of Python it rests on, followed by the properties its
    specification states about the parser, the repair escalation and the
    orchestrator, and by further properties of the prompts, the parser, the
    repair and [main] that the code shows.

    Conventions of the embedding.
    - A Python [str] is a Rocq [string] holding its UTF-8 encoding, a lone
      surrogate being held as the three bytes its code point would take.
      The characters the program looks for (braces, quotes, JSON
      punctuation and whitespace) are ASCII, and an ASCII byte never occurs
      inside a longer UTF-8 sequence, so searching and slicing on bytes
      cuts the text where Python cuts it.  Offsets reported in messages
      count code points.
    - Python's [None] and JSON's [null] are one value, [JNull].
    - [json.loads], [json.dumps] and [json.dump] follow CPython 3.11, with
      the limits of the interpreter as it starts.  [int] refuses a numeral
      of more than 4300 digits with a [ValueError].  The scanner raises
      [RecursionError] when the stack has no room for the next call; how
      much room there is where the program calls the decoder is a parameter
      of the world.  Neither is a [JSONDecodeError], so neither is caught
      by the parser.  The encoders need no more room than the decoder had,
      and print every integer the decoder accepted.  A [float] is kept as
      the decimal it was read from; how Python prints one is a parameter of
      the encoder.
    - A run of [main] is a function of the world around it: the
      environment, the command line once parsed, the lines typed at the
      console (a finite list, then end of file) and the generation service,
      which answers each request with a text or raises.  The run yields
      what [main] returns or the exception that escapes it, and the list of
      what it printed, requested, decoded and wrote.
    - Both files are opened with [encoding="utf-8"]: a text that holds a
      lone surrogate cannot be written, the write raises
      [UnicodeEncodeError] and the file keeps what was written before.
      Opening a file succeeds, and standard output takes every text, so
      that [print] does not raise. *)

From Stdlib Require Import Strings.String Strings.Ascii List ZArith Lia Bool.
From Stdlib Require Import Numbers.DecimalString.
Import ListNotations.

Set Warnings "-register-all".

Open Scope string_scope.
Open Scope bool_scope.

(** ** Python [str] operations *)

Module PyStr.

(** [c in s] for a one-character [c]. *)
Fixpoint contains (c : ascii) (s : string) : bool :=
  match s with
  | EmptyString => false
  | String a r => if Ascii.eqb a c then true else contains c r
  end.

(** [s.find(c)]: the least index of [c], or [-1]. *)
Fixpoint find (c : ascii) (s : string) : Z :=
  match s with
  | EmptyString => (-1)%Z
  | String a r =>
      if Ascii.eqb a c then 0%Z
      else match find c r with
           | Zneg _ => (-1)%Z
           | i => (i + 1)%Z
           end
  end.

(** [s.rfind(c)]: the greatest index of [c], or [-1]. *)
Fixpoint rfind (c : ascii) (s : string) : Z :=
  match s with
  | EmptyString => (-1)%Z
  | String a r =>
      match rfind c r with
      | Zneg _ => if Ascii.eqb a c then 0%Z else (-1)%Z
      | i => (i + 1)%Z
      end
  end.

Definition len (s : string) : Z := Z.of_nat (String.length s).

(** A slice bound as Python normalises it: a negative bound counts from the
    end, and the result is clamped to [0 .. len s]. *)
Definition clamp (s : string) (i : Z) : Z :=
  let i' := if (i <? 0)%Z then (i + len s)%Z else i in
  Z.max 0 (Z.min i' (len s)).

(** [s[i:j]]. *)
Definition slice (s : string) (i j : Z) : string :=
  let a := clamp s i in
  let b := clamp s j in
  String.substring (Z.to_nat a) (Z.to_nat (b - a)) s.

Fixpoint rev_onto (s acc : string) : string :=
  match s with
  | EmptyString => acc
  | String a r => rev_onto r (String a acc)
  end.

Definition rev (s : string) : string := rev_onto s "".

(** If [p] is a prefix of [s], what follows it. *)
Fixpoint strip_prefix (p s : string) : option string :=
  match p with
  | EmptyString => Some s
  | String a p' =>
      match s with
      | EmptyString => None
      | String b s' => if Ascii.eqb a b then strip_prefix p' s' else None
      end
  end.

Definition startswith (s p : string) : bool :=
  match strip_prefix p s with Some _ => true | None => false end.

(** The characters [str.isspace] accepts, in UTF-8: U+0009..U+000D,
    U+001C..U+0020, U+0085, U+00A0, U+1680, U+2000..U+200A, U+2028, U+2029,
    U+202F, U+205F and U+3000. *)
Definition is_ascii_space (a : ascii) : bool :=
  let n := nat_of_ascii a in
  ((9 <=? n)%nat && (n <=? 13)%nat) || ((28 <=? n)%nat && (n <=? 32)%nat).

Definition byte (n : nat) : ascii := ascii_of_nat n.

Definition wide_spaces : list string :=
  [ String (byte 194) (String (byte 133) "");
    String (byte 194) (String (byte 160) "");
    String (byte 225) (String (byte 154) (String (byte 128) ""));
    String (byte 226) (String (byte 128) (String (byte 128) ""));
    String (byte 226) (String (byte 128) (String (byte 129) ""));
    String (byte 226) (String (byte 128) (String (byte 130) ""));
    String (byte 226) (String (byte 128) (String (byte 131) ""));
    String (byte 226) (String (byte 128) (String (byte 132) ""));
    String (byte 226) (String (byte 128) (String (byte 133) ""));
    String (byte 226) (String (byte 128) (String (byte 134) ""));
    String (byte 226) (String (byte 128) (String (byte 135) ""));
    String (byte 226) (String (byte 128) (String (byte 136) ""));
    String (byte 226) (String (byte 128) (String (byte 137) ""));
    String (byte 226) (String (byte 128) (String (byte 138) ""));
    String (byte 226) (String (byte 128) (String (byte 168) ""));
    String (byte 226) (String (byte 128) (String (byte 169) ""));
    String (byte 226) (String (byte 128) (String (byte 175) ""));
    String (byte 226) (String (byte 129) (String (byte 159) ""));
    String (byte 227) (String (byte 128) (String (byte 128) "")) ].

(** [s.lstrip()].  A whitespace character is at most three bytes long, so
    the recursion on the text looks at most three bytes ahead. *)
Fixpoint lstrip (s : string) : string :=
  match s with
  | EmptyString => ""
  | String a r =>
      if is_ascii_space a then lstrip r
      else
        match r with
        | String a2 r2 =>
            if existsb (String.eqb (String a (String a2 ""))) wide_spaces
            then lstrip r2
            else
              match r2 with
              | String a3 r3 =>
                  if existsb (String.eqb (String a (String a2 (String a3 ""))))
                       wide_spaces
                  then lstrip r3
                  else s
              | EmptyString => s
              end
        | EmptyString => s
        end
  end.

(** The same from the other end: the encodings are matched backwards. *)
Definition rstrip (s : string) : string :=
  let fix go (s : string) : string :=
    match s with
    | EmptyString => ""
    | String a r =>
        if is_ascii_space a then go r
        else
          match r with
          | String a2 r2 =>
              if existsb (String.eqb (String a2 (String a ""))) wide_spaces
              then go r2
              else
                match r2 with
                | String a3 r3 =>
                    if existsb
                         (String.eqb (String a3 (String a2 (String a ""))))
                         wide_spaces
                    then go r3
                    else s
                | EmptyString => s
                end
          | EmptyString => s
          end
    end in
  rev (go (rev s)).

(** [s.strip()]. *)
Definition strip (s : string) : string := rstrip (lstrip s).

(** [sep.join(xs)]. *)
Definition join (sep : string) (xs : list string) : string :=
  String.concat sep xs.

(** [c * n]. *)
Fixpoint repeat (c : ascii) (n : nat) : string :=
  match n with
  | O => ""
  | S k => String c (repeat c k)
  end.

(** A byte that starts a code point (not of the form [10xxxxxx]). *)
Definition starts_code_point (a : ascii) : bool :=
  let n := nat_of_ascii a in (n <? 128)%nat || (192 <=? n)%nat.

(** [len(s)] in code points. *)
Fixpoint code_points (s : string) : nat :=
  match s with
  | EmptyString => 0
  | String a r => (if starts_code_point a then 1 else 0) + code_points r
  end.

(** [str(n)] for a natural number and for an integer. *)
Definition of_nat (n : nat) : string := NilZero.string_of_uint (Nat.to_uint n).
Definition of_Z (z : Z) : string := NilZero.string_of_int (Z.to_int z).

End PyStr.

(** ** Characters and literals *)

Definition dquote : ascii := ascii_of_nat 34.
Definition newline : ascii := ascii_of_nat 10.
Definition nl : string := String newline "".

(** Source literals are written with a backquote where the source has a
    double quote; [lit] puts the double quotes back. *)
Fixpoint lit (s : string) : string :=
  match s with
  | EmptyString => ""
  | String a r => String (if Ascii.eqb a "`"%char then dquote else a) (lit r)
  end.

(** ** Exceptions *)

(** The exceptions that can escape a call in a run: the end of the console
    at [input], what the generation service raises, what [json.loads] lets
    through besides its own [JSONDecodeError], and what writing a text file
    raises on a text that has no UTF-8 encoding.  Each carries its
    message. *)
Inductive Exn : Type :=
| EOFError
| ServiceError (message : string)
| ValueError (message : string)
| RecursionError (message : string)
| UnicodeEncodeError (message : string).

(** [str(e)]. *)
Definition exn_str (e : Exn) : string :=
  match e with
  | EOFError => "EOF when reading a line"
  | ServiceError message => message
  | ValueError message => message
  | RecursionError message => message
  | UnicodeEncodeError message => message
  end.

(** ** Python's [json] module *)

Module Json.

(** A Python [float] read from a JSON text: the rounding to binary64 of
    [(-1)^neg * m * 10^e], or one of the constants [NaN], [Infinity] and
    [-Infinity].  The decimal is kept exact; what the program asks of a
    float is only whether it is zero. *)
Inductive PyFloat : Type :=
| FNan
| FInf (neg : bool)
| FDec (neg : bool) (m : N) (e : Z).

(** What [json.loads] returns.  A [dict] keeps its keys in insertion order,
    so it is an association list without repeated keys. *)
Inductive JValue : Type :=
| JNull
| JBool (v : bool)
| JInt (z : Z)
| JFloat (f : PyFloat)
| JStr (s : string)
| JArr (items : list JValue)
| JObj (pairs : list (string * JValue)).

(** [float(lexeme) == 0.0]: a decimal rounds to zero when it is at most
    half of the least positive binary64, [2^-1074] (ties go to even). *)
Definition float_is_zero (f : PyFloat) : bool :=
  match f with
  | FNan => false
  | FInf _ => false
  | FDec _ m e =>
      if (m =? 0)%N then true
      else if (0 <=? e)%Z then false
      else (Z.of_N m * 2 ^ 1075 <=? 10 ^ (- e))%Z
  end.

(** [bool(v)]: Python's truth value of a decoded value. *)
Definition truthy (v : JValue) : bool :=
  match v with
  | JNull => false
  | JBool v => v
  | JInt z => negb (z =? 0)%Z
  | JFloat f => negb (float_is_zero f)
  | JStr s => negb (String.eqb s "")
  | JArr items => match items with [] => false | _ :: _ => true end
  | JObj pairs => match pairs with [] => false | _ :: _ => true end
  end.

(** [d[k] = v] on an insertion-ordered [dict]. *)
Fixpoint dict_set (k : string) (v : JValue) (d : list (string * JValue))
  : list (string * JValue) :=
  match d with
  | [] => [(k, v)]
  | (k', v') :: d' =>
      if String.eqb k' k then (k, v) :: d' else (k', v') :: dict_set k v d'
  end.

(** [k in d]. *)
Definition has_key (k : string) (d : list (string * JValue)) : bool :=
  existsb (fun kv => String.eqb (fst kv) k) d.

(** *** [JSONDecodeError] *)

Record JSONDecodeError : Type := {
  msg : string;
  doc : string;
  pos : nat;
  lineno : nat;
  colno : nat
}.

Fixpoint count_newlines (s : string) : nat :=
  match s with
  | EmptyString => 0
  | String a r => (if Ascii.eqb a newline then 1 else 0) + count_newlines r
  end.

(** The text after the last newline of [s] (all of [s] if it has none). *)
Fixpoint last_line (s : string) : string :=
  match s with
  | EmptyString => ""
  | String a r =>
      if PyStr.contains newline s
      then (if Ascii.eqb a newline
            then (if PyStr.contains newline r then last_line r else r)
            else last_line r)
      else s
  end.

(** [JSONDecodeError(msg, doc, pos)], the position given as the text that
    remains from it on: [lineno = doc.count(newline, 0, pos) + 1] and
    [colno = pos - doc.rfind(newline, 0, pos)]. *)
Definition decode_error (m d remaining : string) : JSONDecodeError :=
  let before :=
    String.substring 0 (String.length d - String.length remaining) d in
  {| msg := m;
     doc := d;
     pos := PyStr.code_points before;
     lineno := count_newlines before + 1;
     colno := PyStr.code_points (last_line before) + 1 |}.

(** [str(e)]. *)
Definition error_str (e : JSONDecodeError) : string :=
  msg e ++ ": line " ++ PyStr.of_nat (lineno e)
        ++ " column " ++ PyStr.of_nat (colno e)
        ++ " (char " ++ PyStr.of_nat (pos e) ++ ")".

(** *** The scanner *)

(** The outcome of scanning at some position: a value and the text that
    follows it; or [StopIteration] at a position, where no value starts
    (the position is given as the text from there on); or a
    [JSONDecodeError] with its message, at a position; or another
    exception; or the budget of the definition used up (which [loads]
    never meets). *)
Inductive Res (A : Type) : Type :=
| Ok (a : A) (rest : string)
| Stop (remaining : string)
| Fail (m : string) (remaining : string)
| Raise (e : Exn)
| Fuel.

Arguments Ok {A} a rest.
Arguments Stop {A} remaining.
Arguments Fail {A} m remaining.
Arguments Raise {A} e.
Arguments Fuel {A}.

(** [RecursionError], with the words that say where the limit was met. *)
Definition recursion_error (where_ : string) : Exn :=
  RecursionError ("maximum recursion depth exceeded" ++ where_).

Definition calling : string := " while calling a Python object".

(** [raise_errmsg]: the scanner raises a [JSONDecodeError] where it stands.
    The exception is built by Python code, which takes three nested calls:
    the call of the class, its [__init__], and the calls that [__init__]
    makes.  With room for [depth] more calls, the one that does not fit
    raises [RecursionError] instead. *)
Definition raise_errmsg {A : Type} (depth : nat) (m remaining : string)
  : Res A :=
  match depth with
  | 0 => Raise (recursion_error calling)
  | 1 => Raise (recursion_error "")
  | 2 => Raise (recursion_error calling)
  | _ => Fail m remaining
  end.

Definition is_ws (a : ascii) : bool :=
  Ascii.eqb a " "%char || Ascii.eqb a (ascii_of_nat 9)
  || Ascii.eqb a newline || Ascii.eqb a (ascii_of_nat 13).

Fixpoint skip_ws (s : string) : string :=
  match s with
  | EmptyString => ""
  | String a r => if is_ws a then skip_ws r else s
  end.

Definition is_digit (a : ascii) : bool :=
  let n := nat_of_ascii a in (48 <=? n)%nat && (n <=? 57)%nat.

Definition hex_value (a : ascii) : option N :=
  let n := nat_of_ascii a in
  if (48 <=? n)%nat && (n <=? 57)%nat then Some (N.of_nat (n - 48))
  else if (97 <=? n)%nat && (n <=? 102)%nat then Some (N.of_nat (n - 87))
  else if (65 <=? n)%nat && (n <=? 70)%nat then Some (N.of_nat (n - 55))
  else None.

(** Four hexadecimal digits at the head of [s]: their value and the rest. *)
Definition hex4 (s : string) : option (N * string) :=
  match s with
  | String a1 (String a2 (String a3 (String a4 r))) =>
      match hex_value a1, hex_value a2, hex_value a3, hex_value a4 with
      | Some d1, Some d2, Some d3, Some d4 =>
          Some (((d1 * 16 + d2) * 16 + d3) * 16 + d4, r)%N
      | _, _, _, _ => None
      end
  | _ => None
  end.

Definition byte (n : N) : ascii := ascii_of_N n.

(** [chr(cp)], encoded. *)
Definition utf8 (cp : N) : string :=
  if (cp <? 128)%N then String (byte cp) ""
  else if (cp <? 2048)%N then
    String (byte (192 + cp / 64)) (String (byte (128 + cp mod 64)) "")
  else if (cp <? 65536)%N then
    String (byte (224 + cp / 4096))
      (String (byte (128 + (cp / 64) mod 64))
         (String (byte (128 + cp mod 64)) ""))
  else
    String (byte (240 + cp / 262144))
      (String (byte (128 + (cp / 4096) mod 64))
         (String (byte (128 + (cp / 64) mod 64))
            (String (byte (128 + cp mod 64)) ""))).

Definition is_high_surrogate (cp : N) : bool :=
  (55296 <=? cp)%N && (cp <=? 56319)%N.
Definition is_low_surrogate (cp : N) : bool :=
  (56320 <=? cp)%N && (cp <=? 57343)%N.
Definition join_surrogates (hi lo : N) : N :=
  (65536 + ((hi - 55296) * 1024 + (lo - 56320)))%N.

(** The character a one-letter escape stands for. *)
Definition unescape (a : ascii) : option ascii :=
  if Ascii.eqb a dquote then Some dquote
  else if Ascii.eqb a "\"%char then Some "\"%char
  else if Ascii.eqb a "/"%char then Some "/"%char
  else if Ascii.eqb a "b"%char then Some (ascii_of_nat 8)
  else if Ascii.eqb a "f"%char then Some (ascii_of_nat 12)
  else if Ascii.eqb a "n"%char then Some newline
  else if Ascii.eqb a "r"%char then Some (ascii_of_nat 13)
  else if Ascii.eqb a "t"%char then Some (ascii_of_nat 9)
  else None.

Definition prepend (p : string) (r : Res string) : Res string :=
  match r with
  | Ok a rest => Ok (p ++ a) rest
  | Stop remaining => Stop remaining
  | Fail m remaining => Fail m remaining
  | Raise e => Raise e
  | Fuel => Fuel
  end.

(** [scanstring] (strict): [s] is the text after the opening quote and
    [start] the text from the opening quote on. *)
Fixpoint scanstring (fuel : nat) (start s : string) : Res string :=
  match fuel with
  | O => Fuel
  | S fuel' =>
      match s with
      | EmptyString => Fail "Unterminated string starting at" start
      | String c r =>
          if Ascii.eqb c dquote then Ok "" r
          else if Ascii.eqb c "\"%char then
            match r with
            | EmptyString => Fail "Unterminated string starting at" start
            | String e r1 =>
                if Ascii.eqb e "u"%char then
                  if (String.length r1 <=? 4)%nat
                  then Fail "Invalid \uXXXX escape" r
                  else
                    match hex4 r1 with
                    | None => Fail "Invalid \uXXXX escape" r
                    | Some (cp, r2) =>
                        let single :=
                          prepend (utf8 cp) (scanstring fuel' start r2) in
                        if is_high_surrogate cp && (6 <? String.length r2)%nat
                        then
                          match r2 with
                          | String e1 (String e2 r3) =>
                              if Ascii.eqb e1 "\"%char && Ascii.eqb e2 "u"%char
                              then
                                match hex4 r3 with
                                | None =>
                                    Fail "Invalid \uXXXX escape" (String e2 r3)
                                | Some (cp2, r4) =>
                                    if is_low_surrogate cp2
                                    then prepend
                                           (utf8 (join_surrogates cp cp2))
                                           (scanstring fuel' start r4)
                                    else single
                                end
                              else single
                          | _ => single
                          end
                        else single
                    end
                else
                  match unescape e with
                  | Some a => prepend (String a "") (scanstring fuel' start r1)
                  | None => Fail "Invalid \escape" s
                  end
            end
          else if (nat_of_ascii c <=? 31)%nat
          then Fail "Invalid control character at" s
          else prepend (String c "") (scanstring fuel' start r)
      end
  end.

(** The longest run of digits at the head of [s], and the rest. *)
Fixpoint span_digits (s : string) : string * string :=
  match s with
  | EmptyString => ("", "")
  | String a r =>
      if is_digit a
      then let (d, rest) := span_digits r in (String a d, rest)
      else ("", s)
  end.

Fixpoint digits_value (acc : N) (d : string) : N :=
  match d with
  | EmptyString => acc
  | String a r => digits_value (acc * 10 + N.of_nat (nat_of_ascii a - 48))%N r
  end.

(** The integer part of a number: [0], or a nonzero digit and digits. *)
Definition match_integer (s : string) : option (string * string) :=
  match s with
  | String a r =>
      if Ascii.eqb a "0"%char then Some ("0", r)
      else if is_digit a then Some (span_digits s)
      else None
  | EmptyString => None
  end.

(** A fraction: a dot and at least one digit. *)
Definition match_fraction (s : string) : option (string * string) :=
  match s with
  | String a (String a1 r) =>
      if Ascii.eqb a "."%char && is_digit a1
      then Some (span_digits (String a1 r))
      else None
  | _ => None
  end.

(** An exponent: [e] or [E], an optional sign and at least one digit. *)
Definition match_exponent (s : string) : option (Z * string) :=
  match s with
  | String a r =>
      if Ascii.eqb a "e"%char || Ascii.eqb a "E"%char then
        let (negative, r1) :=
          match r with
          | String sg r' =>
              if Ascii.eqb sg "-"%char then (true, r')
              else if Ascii.eqb sg "+"%char then (false, r')
              else (false, r)
          | EmptyString => (false, r)
          end in
        match span_digits r1 with
        | (EmptyString, _) => None
        | (d, rest) =>
            let v := Z.of_N (digits_value 0 d) in
            Some (if negative then (- v)%Z else v, rest)
        end
      else None
  | EmptyString => None
  end.

(** [sys.get_int_max_str_digits()], as the interpreter starts, and what
    [int] raises on a longer run of digits. *)
Definition int_max_str_digits : nat := 4300.

Definition too_many_digits (digits : nat) : Exn :=
  ValueError
    ("Exceeds the limit (4300 digits) for integer string conversion: value has "
       ++ PyStr.of_nat digits
       ++ " digits; use sys.set_int_max_str_digits() to increase the limit").

(** A number at the head of [s]: an optional minus sign, an integer part,
    an optional fraction and an optional exponent.  It is an [int] when it
    has neither fraction nor exponent, else a [float].  The lexeme of an
    [int] goes through [int], which refuses more than
    [int_max_str_digits] digits; that of a [float] goes through [float],
    which has no such limit. *)
Definition match_number (s : string) : Res JValue :=
  let (negative, s1) :=
    match s with
    | String a r => if Ascii.eqb a "-"%char then (true, r) else (false, s)
    | EmptyString => (false, s)
    end in
  match match_integer s1 with
  | None => Stop s
  | Some (int_digits, s2) =>
      let (frac_digits, s3) :=
        match match_fraction s2 with
        | Some (d, rest) => (Some d, rest)
        | None => (None, s2)
        end in
      let (exponent, s4) :=
        match match_exponent s3 with
        | Some (x, rest) => (Some x, rest)
        | None => (None, s3)
        end in
      match frac_digits, exponent with
      | None, None =>
          if (int_max_str_digits <? String.length int_digits)%nat
          then Raise (too_many_digits (String.length int_digits))
          else
            let v := Z.of_N (digits_value 0 int_digits) in
            Ok (JInt (if negative then (- v)%Z else v)) s4
      | _, _ =>
          let fd := match frac_digits with Some d => d | None => "" end in
          let x := match exponent with Some x => x | None => 0%Z end in
          Ok (JFloat (FDec negative (digits_value 0 (int_digits ++ fd))
                        (x - Z.of_nat (String.length fd)))) s4
      end
  end.

(** A constant spelled [word] at the head of [s]. *)
Definition match_word (word : string) (v : JValue) (s : string)
  : option (Res JValue) :=
  match PyStr.strip_prefix word s with
  | Some rest => Some (Ok v rest)
  | None => None
  end.

(** [_parse_constant]: the three constants that are no JSON go through a
    call of [parse_constant], which needs room for one call. *)
Definition parse_constant (depth : nat) (found : Res JValue) : Res JValue :=
  match depth with
  | 0 => Raise (recursion_error calling)
  | S _ => found
  end.

(** What is neither a string nor a container: one of the named constants,
    or else a number. *)
Definition match_scalar (depth : nat) (s : string) : Res JValue :=
  match match_word "null" JNull s with
  | Some found => found
  | None =>
  match match_word "true" (JBool true) s with
  | Some found => found
  | None =>
  match match_word "false" (JBool false) s with
  | Some found => found
  | None =>
  match match_word "NaN" (JFloat FNan) s with
  | Some found => parse_constant depth found
  | None =>
  match match_word "Infinity" (JFloat (FInf false)) s with
  | Some found => parse_constant depth found
  | None =>
  match match_word "-Infinity" (JFloat (FInf true)) s with
  | Some found => parse_constant depth found
  | None => match_number s
  end end end end end end.

(** What the scanner raises when there is no room for one more
    container. *)
Definition too_deep (container : string) : Exn :=
  recursion_error
    (" while decoding a JSON " ++ container ++ " from a unicode string").

(** [scan_once], with the loops of [_parse_array] and [_parse_object]:
    [parse_items] and [parse_members] stand at the first character of an
    element and of a key.  [depth] is the room the interpreter's stack has,
    counted in calls: entering a list or a dict takes one for as long as
    the scanner is inside. *)
Fixpoint scan_once (fuel depth : nat) (s : string) {struct fuel}
  : Res JValue :=
  match fuel with
  | O => Fuel
  | S fuel' =>
      match s with
      | EmptyString => Stop s
      | String c r =>
          if Ascii.eqb c dquote then
            match scanstring (S (String.length r)) s r with
            | Ok str rest => Ok (JStr str) rest
            | Stop remaining => Stop remaining
            | Fail m remaining => raise_errmsg depth m remaining
            | Raise e => Raise e
            | Fuel => Fuel
            end
          else if Ascii.eqb c "{"%char then
            match depth with
            | O => Raise (too_deep "object")
            | S depth' =>
                match skip_ws r with
                | String c1 r1 =>
                    if Ascii.eqb c1 "}"%char then Ok (JObj []) r1
                    else parse_members fuel' depth' (String c1 r1) []
                | EmptyString => parse_members fuel' depth' "" []
                end
            end
          else if Ascii.eqb c "["%char then
            match depth with
            | O => Raise (too_deep "array")
            | S depth' =>
                match skip_ws r with
                | String c1 r1 =>
                    if Ascii.eqb c1 "]"%char then Ok (JArr []) r1
                    else parse_items fuel' depth' (String c1 r1) []
                | EmptyString => parse_items fuel' depth' "" []
                end
            end
          else match_scalar depth s
      end
  end

with parse_items (fuel depth : nat) (s : string) (acc : list JValue)
  {struct fuel} : Res JValue :=
  match fuel with
  | O => Fuel
  | S fuel' =>
      match scan_once fuel' depth s with
      | Ok v rest =>
          match skip_ws rest with
          | String c r =>
              if Ascii.eqb c "]"%char then Ok (JArr (acc ++ [v])) r
              else if Ascii.eqb c ","%char
              then parse_items fuel' depth (skip_ws r) (acc ++ [v])
              else raise_errmsg depth "Expecting ',' delimiter" (String c r)
          | EmptyString => raise_errmsg depth "Expecting ',' delimiter" ""
          end
      | Stop remaining => Stop remaining
      | Fail m remaining => Fail m remaining
      | Raise e => Raise e
      | Fuel => Fuel
      end
  end

with parse_members (fuel depth : nat) (s : string)
  (acc : list (string * JValue)) {struct fuel} : Res JValue :=
  match fuel with
  | O => Fuel
  | S fuel' =>
      match s with
      | EmptyString =>
          raise_errmsg depth
            "Expecting property name enclosed in double quotes" s
      | String c r =>
          if Ascii.eqb c dquote then
            match scanstring (S (String.length r)) s r with
            | Ok key r1 =>
                match skip_ws r1 with
                | String c2 r2 =>
                    if Ascii.eqb c2 ":"%char then
                      match scan_once fuel' depth (skip_ws r2) with
                      | Ok v r3 =>
                          let acc' := dict_set key v acc in
                          match skip_ws r3 with
                          | String c4 r4 =>
                              if Ascii.eqb c4 "}"%char then Ok (JObj acc') r4
                              else if Ascii.eqb c4 ","%char
                              then parse_members fuel' depth (skip_ws r4) acc'
                              else raise_errmsg depth
                                     "Expecting ',' delimiter" (String c4 r4)
                          | EmptyString =>
                              raise_errmsg depth "Expecting ',' delimiter" ""
                          end
                      | Stop remaining => Stop remaining
                      | Fail m remaining => Fail m remaining
                      | Raise e => Raise e
                      | Fuel => Fuel
                      end
                    else raise_errmsg depth
                           "Expecting ':' delimiter" (String c2 r2)
                | EmptyString => raise_errmsg depth "Expecting ':' delimiter" ""
                end
            | Stop remaining => Stop remaining
            | Fail m remaining => raise_errmsg depth m remaining
            | Raise e => Raise e
            | Fuel => Fuel
            end
          else raise_errmsg depth
                 "Expecting property name enclosed in double quotes" s
      end
  end.

(** The UTF-8 encoding of U+FEFF. *)
Definition bom : string :=
  String (ascii_of_nat 239) (String (ascii_of_nat 187)
    (String (ascii_of_nat 191) "")).

(** What [json.loads] raises: its own [JSONDecodeError], which the program
    catches, or an exception of the interpreter, which it does not. *)
Inductive Raised : Type :=
| DecodeError (e : JSONDecodeError)
| Uncaught (e : Exn).

(** [json.loads(s)], called where the scanner has room for [depth] calls:
    the decoded value, or what is raised.  The [StopIteration] of the
    scanner becomes a [JSONDecodeError] in [raw_decode], one call above the
    scanner, and text after the value is reported in [decode], two calls
    above it, so that the three calls that build the exception need a
    [depth] of two and of one. *)
Definition loads (depth : nat) (s : string) : JValue + Raised :=
  if PyStr.startswith s bom
  then inr (DecodeError
              (decode_error "Unexpected UTF-8 BOM (decode using utf-8-sig)"
                 s s))
  else
    match scan_once (S (2 * String.length s)) depth (skip_ws s) with
    | Ok v rest =>
        match skip_ws rest with
        | EmptyString => inl v
        | remaining =>
            match depth with
            | 0 => inr (Uncaught (recursion_error calling))
            | _ => inr (DecodeError (decode_error "Extra data" s remaining))
            end
        end
    | Stop remaining =>
        match depth with
        | 0 => inr (Uncaught (recursion_error ""))
        | 1 => inr (Uncaught (recursion_error calling))
        | _ => inr (DecodeError (decode_error "Expecting value" s remaining))
        end
    | Fail m remaining => inr (DecodeError (decode_error m s remaining))
    | Raise e => inr (Uncaught e)
    | Fuel => inr (DecodeError (decode_error "Expecting value" s ""))
    end.

(** *** The encoder *)

Definition hex_digit (n : nat) : ascii :=
  if (n <? 10)%nat then ascii_of_nat (48 + n) else ascii_of_nat (87 + n).

(** What [encode_basestring] writes for one byte: the quote, the backslash
    and the control characters are escaped, everything else is copied, so a
    character outside ASCII is written as it is ([ensure_ascii=False]). *)
Definition escape_char (a : ascii) : string :=
  let n := nat_of_ascii a in
  if Ascii.eqb a dquote then String "\"%char (String dquote "")
  else if Ascii.eqb a "\"%char then "\\"
  else if Ascii.eqb a newline then "\n"
  else if Ascii.eqb a (ascii_of_nat 13) then "\r"
  else if Ascii.eqb a (ascii_of_nat 9) then "\t"
  else if Ascii.eqb a (ascii_of_nat 8) then "\b"
  else if Ascii.eqb a (ascii_of_nat 12) then "\f"
  else if (n <? 32)%nat
  then "\u00" ++ String (hex_digit (n / 16)) (String (hex_digit (n mod 16)) "")
  else String a "".

Fixpoint escape (s : string) : string :=
  match s with
  | EmptyString => ""
  | String a r => escape_char a ++ escape r
  end.

Definition encode_basestring (s : string) : string :=
  String dquote (escape s ++ String dquote "").

(** [floatstr]: the three constants are spelled the JSON way, any other
    float as [float.__repr__] prints it, which is left to [repr]. *)
Definition floatstr (repr : PyFloat -> string) (f : PyFloat) : string :=
  match f with
  | FNan => "NaN"
  | FInf false => "Infinity"
  | FInf true => "-Infinity"
  | FDec _ _ _ => repr f
  end.

Definition spaces (n : nat) : string := PyStr.repeat " "%char n.

(** The text between the items of a container, after its opening bracket
    and before its closing one, at nesting [level]. *)
Definition item_open (indent : option nat) (level : nat) : string :=
  match indent with
  | Some n => nl ++ spaces (n * S level)
  | None => ""
  end.

Definition item_separator (indent : option nat) (level : nat) : string :=
  match indent with
  | Some n => "," ++ nl ++ spaces (n * S level)
  | None => ", "
  end.

Definition item_close (indent : option nat) (level : nat) : string :=
  match indent with
  | Some n => nl ++ spaces (n * level)
  | None => ""
  end.

(** [JSONEncoder(ensure_ascii=False, indent=indent).encode], at nesting
    [level]; the keys of a [dict] are written in its own order
    ([sort_keys] is off). *)
Fixpoint encode (repr : PyFloat -> string) (indent : option nat)
  (level : nat) (v : JValue) : string :=
  match v with
  | JNull => "null"
  | JBool true => "true"
  | JBool false => "false"
  | JInt z => PyStr.of_Z z
  | JFloat f => floatstr repr f
  | JStr s => encode_basestring s
  | JArr [] => "[]"
  | JArr (x :: xs) =>
      "[" ++ item_open indent level
        ++ encode repr indent (S level) x
        ++ (fix more (l : list JValue) : string :=
              match l with
              | [] => ""
              | y :: l' =>
                  item_separator indent level
                    ++ encode repr indent (S level) y ++ more l'
              end) xs
        ++ item_close indent level ++ "]"
  | JObj [] => "{}"
  | JObj ((k, x) :: xs) =>
      "{" ++ item_open indent level
        ++ encode_basestring k ++ ": " ++ encode repr indent (S level) x
        ++ (fix more (l : list (string * JValue)) : string :=
              match l with
              | [] => ""
              | (k', y) :: l' =>
                  item_separator indent level
                    ++ encode_basestring k' ++ ": "
                    ++ encode repr indent (S level) y ++ more l'
              end) xs
        ++ item_close indent level ++ "}"
  end.

(** [json.dumps(v, indent=indent, ensure_ascii=False)]. *)
Definition dumps (repr : PyFloat -> string) (indent : option nat)
  (v : JValue) : string :=
  encode repr indent 0 v.

(** The same text as [json.dump] hands it to the file, piece by piece
    ([_make_iterencode]).  In a list, the opening bracket or the separator
    comes in one piece with the item that follows when that item is not a
    container, and alone when it is; in a dict, the brace, the
    indentation, the separator, each key, the colon and each value that is
    not a container are pieces of their own. *)
Definition is_container (v : JValue) : bool :=
  match v with
  | JArr _ => true
  | JObj _ => true
  | _ => false
  end.

Definition open_pieces (indent : option nat) (level : nat) : list string :=
  match indent with
  | Some _ => [item_open indent level]
  | None => []
  end.

Definition close_pieces (indent : option nat) (level : nat) (bracket : string)
  : list string :=
  match indent with
  | Some _ => [item_close indent level; bracket]
  | None => [bracket]
  end.

Fixpoint iterencode (repr : PyFloat -> string) (indent : option nat)
  (level : nat) (v : JValue) : list string :=
  match v with
  | JArr [] => ["[]"]
  | JArr (x :: xs) =>
      ((if is_container x
        then ("[" ++ item_open indent level)%string
               :: iterencode repr indent (S level) x
        else [("[" ++ item_open indent level
                 ++ encode repr indent (S level) x)%string])
       ++ (fix more (l : list JValue) : list string :=
             match l with
             | [] => []
             | y :: l' =>
                 ((if is_container y
                   then item_separator indent level
                          :: iterencode repr indent (S level) y
                   else [(item_separator indent level
                            ++ encode repr indent (S level) y)%string])
                  ++ more l')%list
             end) xs
       ++ close_pieces indent level "]")%list
  | JObj [] => ["{}"]
  | JObj ((k, x) :: xs) =>
      ("{" :: open_pieces indent level
       ++ encode_basestring k :: ": " :: iterencode repr indent (S level) x
       ++ (fix more (l : list (string * JValue)) : list string :=
             match l with
             | [] => []
             | (k', y) :: l' =>
                 (item_separator indent level
                    :: encode_basestring k' :: ": "
                    :: iterencode repr indent (S level) y ++ more l')%list
             end) xs
       ++ close_pieces indent level "}")%list
  | _ => [encode repr indent level v]
  end.

End Json.

(** ** Text files *)

(** A [str] has a UTF-8 encoding unless it holds a surrogate code point,
    which the decoder produces for an unpaired [\uD800] to [\uDFFF]
    escape.  In the bytes that stand for the [str] here, a surrogate is the
    byte 237 followed by a byte from 160 to 191. *)
Definition is_surrogate (a b : ascii) : bool :=
  (nat_of_ascii a =? 237)%nat
  && (160 <=? nat_of_ascii b)%nat && (nat_of_ascii b <=? 191)%nat.

Fixpoint encodable (s : string) : bool :=
  match s with
  | String a ((String b _) as r) => negb (is_surrogate a b) && encodable r
  | _ => true
  end.

(** The text before the first surrogate of [s], and the text from it on. *)
Fixpoint split_surrogate (s : string) : string * string :=
  match s with
  | String a ((String b _) as r) =>
      if is_surrogate a b then ("", s)
      else let (before, rest) := split_surrogate r in (String a before, rest)
  | _ => (s, "")
  end.

(** How many surrogates stand in a row at the head of [s]. *)
Fixpoint surrogate_run (fuel : nat) (s : string) : nat :=
  match fuel, s with
  | S fuel', String a (String b (String _ r)) =>
      if is_surrogate a b then S (surrogate_run fuel' r) else 0
  | _, _ => 0
  end.

(** The last three hexadecimal digits of the surrogate that the bytes
    237, [b], [c] stand for (the first one is [d]). *)
Definition surrogate_hex (b c : ascii) : string :=
  String (Json.hex_digit (8 + (nat_of_ascii b - 160) / 4))
    (String (Json.hex_digit
               ((nat_of_ascii b mod 4) * 4 + (nat_of_ascii c - 128) / 16))
       (String (Json.hex_digit (nat_of_ascii c mod 16)) "")).

(** The message of the [UnicodeEncodeError] that encoding [s] raises, [s]
    holding a surrogate: it names the first run of surrogates by its
    position, counted in code points. *)
Definition encode_error (s : string) : Exn :=
  let (before, rest) := split_surrogate s in
  let first := PyStr.code_points before in
  let run := surrogate_run (String.length rest) rest in
  UnicodeEncodeError
    (match rest with
     | String _ (String b (String c _)) =>
         if (run =? 1)%nat
         then "'utf-8' codec can't encode character '\ud"
                ++ surrogate_hex b c
                ++ "' in position " ++ PyStr.of_nat first
                ++ ": surrogates not allowed"
         else "'utf-8' codec can't encode characters in position "
                ++ PyStr.of_nat first ++ "-"
                ++ PyStr.of_nat (first + run - 1)
                ++ ": surrogates not allowed"
     | _ => ""
     end).

(** ** What a run of the program touches *)

(** The request [client.responses.create] sends. *)
Record GenerationRequest : Type := {
  model : string;
  temperature : Json.PyFloat;
  top_p : Json.PyFloat;
  max_output_tokens : Z;
  system : string;
  user : string
}.

(** The generation service behind [client]: what the call made after [n]
    earlier ones answers, either [resp.output_text] or the message of the
    exception it raises. *)
Definition OpenAI : Type := nat -> GenerationRequest -> string + string.

(** The command line, as [argparse] hands it over. *)
Record Args : Type := {
  arg_temperature : Json.PyFloat;
  arg_top_p : Json.PyFloat;
  arg_max_tokens : Z
}.

(** [--temperature 0.7 --top_p 1.0 --max_tokens 1000], the defaults. *)
Definition default_args : Args :=
  {| arg_temperature := Json.FDec false 7 (-1);
     arg_top_p := Json.FDec false 10 (-1);
     arg_max_tokens := 1000 |}.

(** Everything outside [app.py] that a run depends on: the environment
    after [load_dotenv], the command line, the service, how the Python
    runtime prints a float, and how much room the interpreter's stack has:
    [recursion_room] is the nesting of lists and dicts that [json.loads]
    accepts where [attempt_model_repair] has [try_parse_json_once] call it;
    where [main] does, one call higher, it accepts one more.  When [app.py]
    is run as a script under the recursion limit of 1000, these are 992 and
    993. *)
Record World : Type := {
  OPENAI_API_KEY : option string;
  OPENAI_MODEL : option string;
  args : Args;
  service : OpenAI;
  float_repr : Json.PyFloat -> string;
  recursion_room : nat
}.

(** The nesting [json.loads] accepts in the parse [main] asks for, and in
    the one [attempt_model_repair] asks for. *)
Definition room_of_main (w : World) : nat := S (recursion_room w).
Definition room_of_repair (w : World) : nat := recursion_room w.

(** What a run does that can be seen from outside, and the texts it hands
    to [json.loads].  [WriteFile path content]: the file was opened for
    writing and is left with [content]. *)
Inductive Event : Type :=
| Stdout (text : string)
| Request (request : GenerationRequest)
| Decode (text : string)
| WriteFile (path content : string).

(** Where a run stands: the lines the console still holds (after the last
    one, end of file) and how many requests the service has answered. *)
Record State : Type := {
  console : list string;
  calls : nat
}.

Definition start (lines : list string) : State :=
  {| console := lines; calls := 0 |}.

(** A computation: from a state, a value or the exception raised, the
    state reached, and the events along the way, oldest first. *)
Definition Run (A : Type) : Type := State -> (A + Exn) * State * list Event.

Definition ret {A : Type} (a : A) : Run A := fun st => (inl a, st, []).

Definition bind {A B : Type} (c : Run A) (k : A -> Run B) : Run B :=
  fun st =>
    match c st with
    | (inl a, st1, seen) =>
        match k a st1 with
        | (r, st2, seen') => (r, st2, (seen ++ seen')%list)
        end
    | (inr e, st1, seen) => (inr e, st1, seen)
    end.

(** [try: c  except Exception as e: handler e]. *)
Definition try_except {A : Type} (c : Run A) (handler : Exn -> Run A) : Run A :=
  fun st =>
    match c st with
    | (inl a, st1, seen) => (inl a, st1, seen)
    | (inr e, st1, seen) =>
        match handler e st1 with
        | (r, st2, seen') => (r, st2, (seen ++ seen')%list)
        end
    end.

Declare Scope run_scope.
Delimit Scope run_scope with run.
Notation "x <- c ;; k" := (bind c (fun x => k))
  (at level 61, c at next level, right associativity) : run_scope.
Notation "c ;; k" := (bind c (fun _ => k))
  (at level 61, right associativity) : run_scope.
Open Scope run_scope.

Definition emit (e : Event) : Run unit := fun st => (inl tt, st, [e]).

(** [print(text)]; standard output takes every text. *)
Definition print (text : string) : Run unit := emit (Stdout (text ++ nl)).

(** [input(prompt)]. *)
Definition input (prompt : string) : Run string :=
  fun st =>
    match console st with
    | [] => (inr EOFError, st, [Stdout prompt])
    | line :: rest =>
        (inl line, {| console := rest; calls := calls st |}, [Stdout prompt])
    end.

(** What a text file opened with [encoding="utf-8"] holds once closed,
    after [f.write] was called on each of [pieces] in turn, and the
    exception that stopped the writing, if any: a piece is encoded when it
    is written, so a piece that holds a surrogate raises and nothing of it
    reaches the file, while the pieces before it do. *)
Fixpoint write_pieces (pieces : list string) : string * option Exn :=
  match pieces with
  | [] => ("", None)
  | piece :: more =>
      if encodable piece
      then let (written, raised) := write_pieces more in
           (piece ++ written, raised)
      else ("", Some (encode_error piece))
  end.

(** [with open(path, "w", encoding="utf-8") as f:] with one [f.write] for
    each of [pieces] in the body. *)
Definition write_text (path : string) (pieces : list string) : Run unit :=
  fun st =>
    match write_pieces pieces with
    | (written, None) => (inl tt, st, [WriteFile path written])
    | (written, Some e) => (inr e, st, [WriteFile path written])
    end.

(** [with open(path, "w", encoding="utf-8") as f: f.write(content)]. *)
Definition write_file (path content : string) : Run unit :=
  write_text path [content].

(** [with open(path, "w", encoding="utf-8") as f:
       json.dump(v, f, indent=indent, ensure_ascii=False)]. *)
Definition dump_file (repr : Json.PyFloat -> string) (path : string)
  (indent : option nat) (v : Json.JValue) : Run unit :=
  write_text path (Json.iterencode repr indent 0 v).

(** The result and the events of a computation. *)
Definition result_of {A : Type} (x : (A + Exn) * State * list Event) : A + Exn :=
  fst (fst x).
Definition events_of {A : Type} (x : (A + Exn) * State * list Event)
  : list Event := snd x.

(** The requests among the events, in order. *)
Fixpoint requests (l : list Event) : list GenerationRequest :=
  match l with
  | [] => []
  | Request r :: l' => r :: requests l'
  | _ :: l' => requests l'
  end.

(** The files written, in order. *)
Fixpoint files_written (l : list Event) : list (string * string) :=
  match l with
  | [] => []
  | WriteFile path content :: l' => (path, content) :: files_written l'
  | _ :: l' => files_written l'
  end.

(** ** [app.py] *)

(** *** Config *)

Definition default_model : string := "gpt-5-chat-latest".

Definition SYSTEM_PLANNER : string :=
  "You are a precise planning assistant." ++ nl
  ++ "Given the user's inputs for an Interview Helper (job title, interviewer title, job description, resume)," ++ nl
  ++ "produce a compact execution plan in STRICT JSON with EXACTLY these keys:" ++ nl
  ++ "{" ++ nl
  ++ (lit "  `steps`: [`...`, `...`],          // 3–6 short, clear steps") ++ nl
  ++ (lit "  `assumptions`: [`...`, `...`],    // bullet list of assumptions") ++ nl
  ++ (lit "  `success_criteria`: [`...`, `...`]// what success looks like") ++ nl
  ++ "}" ++ nl
  ++ "Rules:" ++ nl
  ++ "- Return STRICT JSON only. No markdown, no commentary." ++ nl
  ++ "- Keep steps actionable and specific to turning inputs into 10 tailored interview questions." ++ nl.

Definition SYSTEM_ANSWERER : string :=
  "You are an interview-prep assistant." ++ nl
  ++ "Using the user's original inputs AND the provided planning JSON, produce a final response in MARKDOWN that:" ++ nl
  ++ "- Includes a brief overview section (who the interviewer is, what the role needs)." ++ nl
  ++ "- Presents EXACTLY **10** tailored interview questions (mix: role/technical, behavioral, resume-based follow-ups)." ++ nl
  ++ "- Uses clear headings and bullet points." ++ nl
  ++ "- Ends with a short **Next Steps** list (3–5 bullets)." ++ nl
  ++ "- Be concise, specific, and avoid duplication." ++ nl.

(** [PLANNER_USER_TEMPLATE.format(...)]. *)
Definition PLANNER_USER_TEMPLATE
  (role interviewer_title job_description resume_text : string) : string :=
  "INPUTS:" ++ nl
  ++ "JOB TITLE: " ++ role ++ nl
  ++ nl
  ++ "INTERVIEWER TITLE: " ++ interviewer_title ++ nl
  ++ nl
  ++ "JOB DESCRIPTION:" ++ nl
  ++ job_description ++ nl
  ++ nl
  ++ "RESUME:" ++ nl
  ++ resume_text ++ nl.

(** [ANSWER_USER_TEMPLATE.format(...)]. *)
Definition ANSWER_USER_TEMPLATE
  (role interviewer_title job_description resume_text plan_json : string)
  : string :=
  "ORIGINAL INPUTS:" ++ nl
  ++ "JOB TITLE: " ++ role ++ nl
  ++ nl
  ++ "INTERVIEWER TITLE: " ++ interviewer_title ++ nl
  ++ nl
  ++ "JOB DESCRIPTION:" ++ nl
  ++ job_description ++ nl
  ++ nl
  ++ "RESUME:" ++ nl
  ++ resume_text ++ nl
  ++ nl
  ++ "PLANNING JSON:" ++ nl
  ++ plan_json ++ nl.

(** *** Helpers *)

(** The loop of [prompt_multiline]: it reads lines until a blank one that
    is not the first, or until the console ends ([EOFError], caught).
    Returns the lines kept and the lines the console still holds. *)
Fixpoint read_lines (pending lines : list string) : list string * list string :=
  match pending with
  | [] => (lines, [])
  | line :: rest =>
      if String.eqb (PyStr.strip line) "" && (0 <? List.length lines)%nat
      then (lines, rest)
      else read_lines rest (lines ++ [line])
  end.

Definition prompt_multiline (label : string) : Run string :=
  print (nl ++ "Enter " ++ label
            ++ ". End with an empty line, then press Ctrl+D (macOS/Linux) to finish:") ;;
  print (PyStr.repeat "-"%char 80) ;;
  lines <- (fun st =>
              let (lines, rest) := read_lines (console st) [] in
              (inl lines, {| console := rest; calls := calls st |}, [])) ;;
  print (PyStr.repeat "-"%char 80) ;;
  ret (PyStr.strip (PyStr.join nl lines)).

(** Calls the Responses API and returns the text output. *)
Definition call_openai_responses (client : OpenAI) (model system user : string)
  (temperature top_p : Json.PyFloat) (max_tokens : Z) : Run string :=
  fun st =>
    let request :=
      {| model := model;
         temperature := temperature;
         top_p := top_p;
         max_output_tokens := max_tokens;
         system := system;
         user := user |} in
    let st' := {| console := console st; calls := S (calls st) |} in
    match client (calls st) request with
    | inl output_text => (inl output_text, st', [Request request])
    | inr message => (inr (ServiceError message), st', [Request request])
    end.

(** Try to parse JSON from model output; if it fails, attempt a quick
    local repair: extract the substring from the first opening brace to the
    last closing brace.  Returns [(data, error_message)], and before them
    the texts handed to [json.loads], in order.  Only [JSONDecodeError] is
    caught: any other exception of [json.loads] escapes.  [room] is the
    nesting that [json.loads] accepts where the function is called. *)
Definition try_parse_json_once (room : nat) (raw_text : string)
  : list string * ((Json.JValue * option string) + Exn) :=
  match Json.loads room raw_text with
  | inl data => ([raw_text], inl (data, None))
  | inr (Json.DecodeError e1) =>
      if PyStr.contains "{"%char raw_text && PyStr.contains "}"%char raw_text
      then
        let candidate :=
          PyStr.slice raw_text (PyStr.find "{"%char raw_text)
                               (PyStr.rfind "}"%char raw_text + 1) in
        match Json.loads room candidate with
        | inl data => ([raw_text; candidate], inl (data, None))
        | inr (Json.DecodeError e2) =>
            ([raw_text; candidate],
             inl (Json.JNull,
                  Some ("JSON parsing failed (initial + substring): "
                          ++ Json.error_str e2)))
        | inr (Json.Uncaught e) => ([raw_text; candidate], inr e)
        end
      else
        ([raw_text],
         inl (Json.JNull,
              Some ("JSON parsing failed: " ++ Json.error_str e1)))
  | inr (Json.Uncaught e) => ([raw_text], inr e)
  end.

(** [try_parse_json_once] inside a run: its calls of [json.loads] are
    recorded. *)
Definition parse_in_run (room : nat) (raw_text : string)
  : Run (Json.JValue * option string) :=
  fun st =>
    let (decoded, result) := try_parse_json_once room raw_text in
    (result, st, map Decode decoded).

Definition repair_system : string := "You repair JSON. Output strict JSON only.".

Definition repair_instruction : string :=
  "The following text was supposed to be STRICT JSON but isn't. "
  ++ "Repair it to valid JSON that matches this schema:" ++ nl
  ++ "{" ++ nl
  ++ (lit "  `steps`: [`...`, `...`],") ++ nl
  ++ (lit "  `assumptions`: [`...`, `...`],") ++ nl
  ++ (lit "  `success_criteria`: [`...`, `...`]") ++ nl
  ++ "}" ++ nl
  ++ "Return STRICT JSON only. No commentary.".

(** One-time repair: ask the model to return valid JSON only.  If it still
    fails, return [None] with error text.  [room] is the nesting that
    [json.loads] accepts in the parse this function asks for. *)
Definition attempt_model_repair (room : nat) (client : OpenAI)
  (model broken_text : string)
  (temperature top_p : Json.PyFloat) (max_tokens : Z)
  : Run (Json.JValue * option string) :=
  let fix_input :=
    repair_instruction ++ nl ++ nl ++ "BROKEN TEXT:" ++ nl ++ broken_text in
  repaired <- call_openai_responses client model repair_system fix_input
                temperature top_p max_tokens ;;
  parsed <- parse_in_run room repaired ;;
  let (data, err) := parsed in
  if Json.truthy data
  then ret (data, None)
  else ret (Json.JNull,
            Some ("Repair attempt failed. Raw repair output:" ++ nl
                    ++ repaired ++ nl ++ nl ++ "Parse error: "
                    ++ match err with Some e => e | None => "None" end)).

(** [bool(s)] for a [str]. *)
Definition nonempty (s : string) : bool := negb (String.eqb s "").

(** *** Main *)

(** The end of [main], from the saving of the plan on: the plan is written
    to [plan.json], the answering call is made, and its answer is printed
    and written to [output.md]. *)
Definition save_and_answer (w : World)
  (role interviewer_title job_description resume_text : string)
  (plan_data : Json.JValue) (repaired : bool) : Run unit :=
  let MODEL :=
    match OPENAI_MODEL w with Some m => m | None => default_model end in
  let client := service w in
  (* Save plan *)
  dump_file (float_repr w) "plan.json" (Some 2) plan_data ;;
  print ("[Chain 1] Plan ready. Saved to plan.json"
           ++ (if repaired then " (repaired)" else "")) ;;
  (* Chain 2: Answer (Markdown) *)
  print "[Chain 2] Generating final Markdown answer..." ;;
  let plan_json_compact := Json.dumps (float_repr w) None plan_data in
  let answer_user :=
    ANSWER_USER_TEMPLATE role interviewer_title job_description
      resume_text plan_json_compact in
  answered <-
    try_except
      (final_md <- call_openai_responses client MODEL
                     SYSTEM_ANSWERER answer_user
                     (arg_temperature (args w))
                     (arg_top_p (args w))
                     (arg_max_tokens (args w)) ;;
       ret (Some final_md))
      (fun e =>
         print ("OpenAI error during answering: " ++ exn_str e) ;;
         ret None) ;;
  match answered with
  | None => ret tt
  | Some final_md =>
      (* Display + Save *)
      print (nl ++ "========== FINAL ANSWER (Markdown) ==========" ++ nl) ;;
      print final_md ;;
      print (nl ++ "=============================================" ++ nl) ;;
      write_file "output.md" final_md ;;
      print "Saved Markdown to output.md"
  end.

(** The two chains of [main], from the planner prompt on, for the four
    inputs collected. *)
Definition chains (w : World)
  (role interviewer_title job_description resume_text : string) : Run unit :=
  let MODEL :=
    match OPENAI_MODEL w with Some m => m | None => default_model end in
  let client := service w in
  (* Chain 1: Planner (JSON) *)
  let planner_user :=
    PLANNER_USER_TEMPLATE role interviewer_title job_description
      resume_text in
  print (nl ++ "[Chain 1] Creating plan...") ;;
  planned <-
    try_except
      (plan_raw <- call_openai_responses client MODEL SYSTEM_PLANNER
                     planner_user (arg_temperature (args w))
                     (arg_top_p (args w)) (arg_max_tokens (args w)) ;;
       ret (Some plan_raw))
      (fun e =>
         print ("OpenAI error during planning: " ++ exn_str e) ;;
         ret None) ;;
  match planned with
  | None => ret tt
  | Some plan_raw =>
      parsed <- parse_in_run (room_of_main w) plan_raw ;;
      let (plan_data, parse_err) := parsed in
      checked <-
        (if negb (Json.truthy plan_data)
         then
           print "[Chain 1] Plan JSON parse failed. Attempting a one-time repair..." ;;
           fixed <- attempt_model_repair (room_of_repair w) client MODEL
                      plan_raw (arg_temperature (args w)) (arg_top_p (args w))
                      (arg_max_tokens (args w)) ;;
           let (plan_data, repair_err) := fixed in
           let repaired :=
             match plan_data with Json.JNull => false | _ => true end in
           if negb (Json.truthy plan_data)
           then
             print "Plan repair failed." ;;
             print (match repair_err with Some e => e | None => "" end) ;;
             print (nl ++ "Raw plan output:" ++ nl ++ " " ++ plan_raw) ;;
             ret None
           else ret (Some (plan_data, repaired))
         else ret (Some (plan_data, false))) ;;
      match checked with
      | None => ret tt
      | Some (plan_data, repaired) =>
          save_and_answer w role interviewer_title job_description
            resume_text plan_data repaired
      end
  end.

Definition missing_key_message : string :=
  "Error: OPENAI_API_KEY not found. Put it in .env (OPENAI_API_KEY=...)".

Definition missing_input_message : string := "Error: All inputs are required.".

Definition main (w : World) : Run unit :=
  if negb (match OPENAI_API_KEY w with
           | Some api_key => nonempty api_key
           | None => false
           end)
  then print missing_key_message
  else
    (* Input collection *)
    print (nl ++ "=== Interview Helper (Two-Stage) ===") ;;
    line1 <- input "Step 1 — Enter Job Title: " ;;
    let role := PyStr.strip line1 in
    line2 <- input "Step 1 — Enter Interviewer Title (Hiring Manager or Recruiter): " ;;
    let interviewer_title := PyStr.strip line2 in
    job_description <- prompt_multiline "Step 2 — Job Description" ;;
    resume_text <- prompt_multiline "Step 3 — Resume" ;;
    if negb (nonempty role && nonempty interviewer_title
             && nonempty job_description && nonempty resume_text)
    then print missing_input_message
    else chains w role interviewer_title job_description resume_text.

(** ** Vocabulary of the properties *)

(** The request [main] builds for a system prompt and a user prompt. *)
Definition request_of (w : World) (system user : string) : GenerationRequest :=
  {| model := match OPENAI_MODEL w with Some m => m | None => default_model end;
     temperature := arg_temperature (args w);
     top_p := arg_top_p (args w);
     max_output_tokens := arg_max_tokens (args w);
     system := system;
     user := user |}.

(** The planning request for the four inputs. *)
Definition planner_request (w : World)
  (role interviewer_title job_description resume_text : string)
  : GenerationRequest :=
  request_of w SYSTEM_PLANNER
    (PLANNER_USER_TEMPLATE role interviewer_title job_description resume_text).

(** The repair request for a broken text. *)
Definition repair_request (w : World) (broken_text : string)
  : GenerationRequest :=
  request_of w repair_system
    (repair_instruction ++ nl ++ nl ++ "BROKEN TEXT:" ++ nl ++ broken_text).

(** The answering request for the four inputs and a plan. *)
Definition answer_request (w : World)
  (role interviewer_title job_description resume_text : string)
  (plan_data : Json.JValue) : GenerationRequest :=
  request_of w SYSTEM_ANSWERER
    (ANSWER_USER_TEMPLATE role interviewer_title job_description resume_text
       (Json.dumps (float_repr w) None plan_data)).

(** A request is a repair request when it carries the repair prompt. *)
Definition is_repair (r : GenerationRequest) : bool :=
  String.eqb (system r) repair_system.

(** How many repair requests a run issued. *)
Definition repairs (l : list Event) : nat :=
  List.length (filter is_repair (requests l)).

(** What [try_parse_json_once] returns or raises where [json.loads]
    accepts a nesting of [room], and the texts it handed to [json.loads]. *)
Definition parse_result (room : nat) (raw_text : string)
  : (Json.JValue * option string) + Exn :=
  snd (try_parse_json_once room raw_text).
Definition decode_attempts (room : nat) (raw_text : string) : list string :=
  fst (try_parse_json_once room raw_text).

(** Whether it returns, and the data and the error message it returns
    (both [None] when it raises instead). *)
Definition returns (room : nat) (raw_text : string) : bool :=
  match parse_result room raw_text with
  | inl _ => true
  | inr _ => false
  end.
Definition parsed_data (room : nat) (raw_text : string) : Json.JValue :=
  match parse_result room raw_text with
  | inl (data, _) => data
  | inr _ => Json.JNull
  end.
Definition parse_error (room : nat) (raw_text : string) : option string :=
  match parse_result room raw_text with
  | inl (_, err) => err
  | inr _ => None
  end.

(** The nesting [json.loads] accepts in the parse [main] asks for when
    [app.py] is run as a script under the recursion limit of 1000. *)
Definition script_room : nat := 993.

(** Prose: a text whose first character that is no JSON whitespace starts
    no JSON value.  It is no quote, brace, bracket, minus sign or digit,
    and the text from it on starts with none of the words [null], [true],
    [false], [NaN] and [Infinity]. *)
Definition json_words : list string :=
  ["null"; "true"; "false"; "NaN"; "Infinity"].

Definition prose (p : string) : bool :=
  match Json.skip_ws p with
  | EmptyString => false
  | String c r =>
      negb (Ascii.eqb c dquote || Ascii.eqb c "{"%char
            || Ascii.eqb c "["%char || Ascii.eqb c "-"%char
            || Json.is_digit c)
      && negb (existsb (PyStr.startswith (String c r)) json_words)
  end.

(** The substring the heuristic extracts. *)
Definition candidate_of (raw_text : string) : string :=
  PyStr.slice raw_text (PyStr.find "{"%char raw_text)
                       (PyStr.rfind "}"%char raw_text + 1).

(** The four inputs [main] collects from the console, when the console
    holds at least the two one-line answers. *)
Definition collected (lines : list string)
  : option (string * string * string * string) :=
  match lines with
  | line1 :: line2 :: rest =>
      let (jd, rest1) := read_lines rest [] in
      let (cv, _) := read_lines rest1 [] in
      Some (PyStr.strip line1, PyStr.strip line2,
            PyStr.strip (PyStr.join nl jd), PyStr.strip (PyStr.join nl cv))
  | _ => None
  end.

(** Values made of strings, booleans, [null], lists and dicts with distinct
    keys: the plan records of the specification are among them. *)
Fixpoint distinct (l : list string) : bool :=
  match l with
  | [] => true
  | k :: l' => negb (existsb (String.eqb k) l') && distinct l'
  end.

Fixpoint textual (v : Json.JValue) : bool :=
  match v with
  | Json.JNull => true
  | Json.JBool _ => true
  | Json.JInt _ => false
  | Json.JFloat _ => false
  | Json.JStr _ => true
  | Json.JArr items =>
      (fix all (l : list Json.JValue) : bool :=
         match l with
         | [] => true
         | x :: l' => textual x && all l'
         end) items
  | Json.JObj pairs =>
      distinct (map fst pairs)
      && (fix all (l : list (string * Json.JValue)) : bool :=
            match l with
            | [] => true
            | (_, x) :: l' => textual x && all l'
            end) pairs
  end.

(** A text the orchestrator cannot use as a plan: the parser returns, and
    what it returns for it is falsy, be it [None] after a failed parse or a
    falsy value. *)
Definition unusable (room : nat) (raw_text : string) : Prop :=
  returns room raw_text = true
  /\ Json.truthy (parsed_data room raw_text) = false.


(** What a text file is left with once the pieces were written to it in
    turn, and the exception that stopped the writing, if any. *)
Definition file_after (pieces : list string) : string :=
  fst (write_pieces pieces).
Definition write_error (pieces : list string) : option Exn :=
  snd (write_pieces pieces).

(** The pieces [json.dump] writes to [plan.json] for a plan, and whether
    all of them can be encoded. *)
Definition plan_pieces (w : World) (plan_data : Json.JValue) : list string :=
  Json.iterencode (float_repr w) (Some 2) 0 plan_data.

Definition dumpable (w : World) (plan_data : Json.JValue) : bool :=
  forallb encodable (plan_pieces w plan_data).

(** The state after [n] more requests. *)
Definition after_calls (n : nat) (st : State) : State :=
  {| console := console st; calls := n + calls st |}.

(** What [main] does with the final answer: it prints it and writes it to
    [output.md], and confirms when the writing succeeded. *)
Definition display_events (final_md : string) : list Event :=
  [ Stdout ((nl ++ "========== FINAL ANSWER (Markdown) ==========" ++ nl) ++ nl);
    Stdout (final_md ++ nl);
    Stdout ((nl ++ "=============================================" ++ nl) ++ nl);
    WriteFile "output.md" (file_after [final_md]) ]
  ++ (if encodable final_md
      then [ Stdout ("Saved Markdown to output.md" ++ nl) ]
      else []).

(** What it does once [plan.json] is written, for the answer of the
    service to the answering request. *)
Definition answering_events (w : World)
  (role interviewer_title job_description resume_text : string)
  (plan_data : Json.JValue) (repaired : bool) (reply : string + string)
  : list Event :=
  [ Stdout (("[Chain 1] Plan ready. Saved to plan.json"
               ++ (if repaired then " (repaired)" else "")) ++ nl);
    Stdout ("[Chain 2] Generating final Markdown answer..." ++ nl);
    Request (answer_request w role interviewer_title job_description
               resume_text plan_data) ]
  ++ match reply with
     | inl final_md => display_events final_md
     | inr message =>
         [ Stdout (("OpenAI error during answering: " ++ message) ++ nl) ]
     end.

(** What [main] does once it holds a plan, as seen from outside: it
    writes [plan.json] and, unless that raised, goes on to the answer. *)
Definition saving_events (w : World)
  (role interviewer_title job_description resume_text : string)
  (plan_data : Json.JValue) (repaired : bool) (reply : string + string)
  : list Event :=
  WriteFile "plan.json" (file_after (plan_pieces w plan_data))
  :: (if dumpable w plan_data
      then answering_events w role interviewer_title job_description
             resume_text plan_data repaired reply
      else []).

(** And what it returns or raises from there on: only the writing of the
    two files can raise. *)
Definition saving_result (w : World) (plan_data : Json.JValue)
  (reply : string + string) : unit + Exn :=
  match write_error (plan_pieces w plan_data) with
  | Some e => inr e
  | None =>
      match reply with
      | inl final_md =>
          match write_error [final_md] with
          | Some e => inr e
          | None => inl tt
          end
      | inr _ => inl tt
      end
  end.

(** What it does before that, up to and including the decoding of the
    planning output. *)
Definition planning_events (w : World)
  (role interviewer_title job_description resume_text plan_raw : string)
  : list Event :=
  [ Stdout ((nl ++ "[Chain 1] Creating plan...") ++ nl);
    Request (planner_request w role interviewer_title job_description
               resume_text) ]
  ++ map Decode (decode_attempts (room_of_main w) plan_raw).

(** And in between when the plan is unusable, up to and including the
    repair request. *)
Definition escalation_events (w : World) (plan_raw : string) : list Event :=
  [ Stdout ("[Chain 1] Plan JSON parse failed. Attempting a one-time repair..." ++ nl);
    Request (repair_request w plan_raw) ].

(** The message [attempt_model_repair] returns when the repair fails. *)
Definition repair_failure (room : nat) (repaired_text : string) : string :=
  "Repair attempt failed. Raw repair output:" ++ nl
    ++ repaired_text ++ nl ++ nl ++ "Parse error: "
    ++ match parse_error room repaired_text with
       | Some e => e
       | None => "None"
       end.

(** What it prints when the repair fails too. *)
Definition failure_events (w : World) (plan_raw repaired_text : string)
  : list Event :=
  [ Stdout ("Plan repair failed." ++ nl);
    Stdout (repair_failure (room_of_repair w) repaired_text ++ nl);
    Stdout ((nl ++ "Raw plan output:" ++ nl ++ " " ++ plan_raw) ++ nl) ].

(** What it prints while it collects the four inputs. *)
Definition collection_events : list Event :=
  [ Stdout ((nl ++ "=== Interview Helper (Two-Stage) ===") ++ nl);
    Stdout "Step 1 — Enter Job Title: ";
    Stdout "Step 1 — Enter Interviewer Title (Hiring Manager or Recruiter): ";
    Stdout ((nl ++ "Enter " ++ "Step 2 — Job Description"
                ++ ". End with an empty line, then press Ctrl+D (macOS/Linux) to finish:")
              ++ nl);
    Stdout (PyStr.repeat "-"%char 80 ++ nl);
    Stdout (PyStr.repeat "-"%char 80 ++ nl);
    Stdout ((nl ++ "Enter " ++ "Step 3 — Resume"
                ++ ". End with an empty line, then press Ctrl+D (macOS/Linux) to finish:")
              ++ nl);
    Stdout (PyStr.repeat "-"%char 80 ++ nl);
    Stdout (PyStr.repeat "-"%char 80 ++ nl) ].

(** The lines the console still holds once the inputs are collected. *)
Definition uncollected (lines : list string) : list string :=
  match lines with
  | _ :: _ :: rest => snd (read_lines (snd (read_lines rest [])) [])
  | _ => []
  end.

(** The run gets past the key check, and past the input check. *)
Definition has_api_key (w : World) : bool :=
  match OPENAI_API_KEY w with
  | Some api_key => nonempty api_key
  | None => false
  end.

(** All four inputs are non-empty. *)
Definition all_given (r i j t : string) : bool :=
  nonempty r && nonempty i && nonempty j && nonempty t.

(** The run collects the inputs [r], [i], [j] and [t], all given, and its
    planning call returns [plan_raw]. *)
Definition plans (w : World) (lines : list string) (r i j t plan_raw : string)
  : Prop :=
  has_api_key w = true
  /\ collected lines = Some (r, i, j, t)
  /\ all_given r i j t = true
  /\ service w 0 (planner_request w r i j t) = inl plan_raw.

(** The repair call for [plan_raw] returns [repaired_text]. *)
Definition repairs_to (w : World) (plan_raw repaired_text : string) : Prop :=
  service w 1 (repair_request w plan_raw) = inl repaired_text.

(** A service that answers from a script, and a world around it (no float
    occurs in the examples). *)
Definition scripted (replies : list (string + string)) : OpenAI :=
  fun n _ => nth n replies (inr "Connection error.").

Definition example_world (replies : list (string + string)) : World :=
  {| OPENAI_API_KEY := Some "sk-example";
     OPENAI_MODEL := None;
     args := default_args;
     service := scripted replies;
     float_repr := fun _ => "0.0";
     recursion_room := 992 |}.

Definition example_console : list string :=
  ["Backend Engineer"; "Hiring Manager"; "Builds APIs."; ""; "Five years of Go."].

(** The flags of [textual] on the items of a list and on the members of a
    dict. *)
Definition textual_items (l : list Json.JValue) : bool := forallb textual l.
Definition textual_members (l : list (string * Json.JValue)) : bool :=
  forallb (fun kv => textual (snd kv)) l.

(** What the encoder writes after the first item of a list, and after the
    first member of a dict. *)
Definition encode_items (repr : Json.PyFloat -> string) (indent : option nat)
  (level : nat) (l : list Json.JValue) : string :=
  (fix more (l : list Json.JValue) : string :=
     match l with
     | [] => ""
     | y :: l' =>
         Json.item_separator indent level
           ++ Json.encode repr indent (S level) y ++ more l'
     end) l.

Definition encode_members (repr : Json.PyFloat -> string)
  (indent : option nat) (level : nat) (l : list (string * Json.JValue))
  : string :=
  (fix more (l : list (string * Json.JValue)) : string :=
     match l with
     | [] => ""
     | (k', y) :: l' =>
         Json.item_separator indent level
           ++ Json.encode_basestring k' ++ ": "
           ++ Json.encode repr indent (S level) y ++ more l'
     end) l.

(** The recursion budget the scanner needs to read a value back: one unit
    for the value and one more for each item of a container. *)
Fixpoint weight (v : Json.JValue) : nat :=
  match v with
  | Json.JArr items =>
      S ((fix sum (l : list Json.JValue) : nat :=
            match l with
            | [] => 0
            | x :: l' => S (weight x) + sum l'
            end) items)
  | Json.JObj pairs =>
      S ((fix sum (l : list (string * Json.JValue)) : nat :=
            match l with
            | [] => 0
            | (_, x) :: l' => S (weight x) + sum l'
            end) pairs)
  | _ => 1
  end.

Definition weight_items (l : list Json.JValue) : nat :=
  fold_right (fun x n => S (weight x) + n) 0 l.
Definition weight_members (l : list (string * Json.JValue)) : nat :=
  fold_right (fun kv n => S (weight (snd kv)) + n) 0 l.

(** How deep the lists and dicts of a value are nested. *)
Fixpoint nesting (v : Json.JValue) : nat :=
  match v with
  | Json.JArr items =>
      S ((fix deepest (l : list Json.JValue) : nat :=
            match l with
            | [] => 0
            | x :: l' => Nat.max (nesting x) (deepest l')
            end) items)
  | Json.JObj pairs =>
      S ((fix deepest (l : list (string * Json.JValue)) : nat :=
            match l with
            | [] => 0
            | (_, x) :: l' => Nat.max (nesting x) (deepest l')
            end) pairs)
  | _ => 0
  end.

Definition nesting_items (l : list Json.JValue) : nat :=
  fold_right (fun x n => Nat.max (nesting x) n) 0 l.
Definition nesting_members (l : list (string * Json.JValue)) : nat :=
  fold_right (fun kv n => Nat.max (nesting (snd kv)) n) 0 l.

(** What reading back an encoded value means, with enough budget and
    enough room for its nesting. *)
Definition reads_back (repr : Json.PyFloat -> string) (indent : option nat)
  (v : Json.JValue) : Prop :=
  textual v = true ->
  forall (level fuel depth : nat) (rest : string),
    weight v <= fuel ->
    nesting v <= depth ->
    Json.scan_once fuel depth (Json.encode repr indent level v ++ rest)
    = Json.Ok v rest.

(** The layout of a plan file, line by line, as one would write it by
    hand.  A value that is no list and no record, and an empty list or
    record, take one line.  Any other list or record opens on a line of its
    own and closes on one; in between come its items or members in the
    order the value holds them, each on lines of its own, set two blanks
    further in, with a comma after each but the last; a member is its key
    between quotes, a colon, a blank and its value.  [line_start] is the
    line break and the blanks that start a line at a nesting level. *)
Definition line_start (level : nat) : string :=
  nl ++ Json.spaces (2 * level).

Fixpoint suffix_last (suffix : string) (lines : list string) : list string :=
  match lines with
  | [] => []
  | [line] => [line ++ suffix]
  | line :: more => line :: suffix_last suffix more
  end.

Definition prefix_first (prefix : string) (lines : list string) : list string :=
  match lines with
  | [] => []
  | line :: more => (prefix ++ line) :: more
  end.

Definition indented (lines : list string) : list string :=
  map (append "  ") lines.

Fixpoint stack (blocks : list (list string)) : list string :=
  match blocks with
  | [] => []
  | [block] => block
  | block :: more => (suffix_last "," block ++ stack more)%list
  end.

Fixpoint layout (repr : Json.PyFloat -> string) (v : Json.JValue)
  : list string :=
  match v with
  | Json.JArr [] => ["[]"]
  | Json.JArr items =>
      ("[" :: indented
                (stack ((fix all (l : list Json.JValue) : list (list string) :=
                           match l with
                           | [] => []
                           | x :: l' => layout repr x :: all l'
                           end) items))
          ++ ["]"])%list
  | Json.JObj [] => ["{}"]
  | Json.JObj pairs =>
      ("{" :: indented
                (stack ((fix all (l : list (string * Json.JValue))
                           : list (list string) :=
                           match l with
                           | [] => []
                           | (k, x) :: l' =>
                               prefix_first (Json.encode_basestring k ++ ": ")
                                 (layout repr x)
                                 :: all l'
                           end) pairs))
          ++ ["}"])%list
  | Json.JNull => ["null"]
  | Json.JBool true => ["true"]
  | Json.JBool false => ["false"]
  | Json.JInt z => [PyStr.of_Z z]
  | Json.JFloat f => [Json.floatstr repr f]
  | Json.JStr s => [Json.encode_basestring s]
  end.

Definition layout_items (repr : Json.PyFloat -> string)
  (l : list Json.JValue) : list (list string) :=
  map (layout repr) l.
Definition layout_members (repr : Json.PyFloat -> string)
  (l : list (string * Json.JValue)) : list (list string) :=
  map (fun kv => prefix_first (Json.encode_basestring (fst kv) ++ ": ")
                   (layout repr (snd kv))) l.

(** The answer of the service to the answering request, if it gives one,
    has a UTF-8 encoding. *)
Definition writable (reply : string + string) : bool :=
  match reply with
  | inl final_md => encodable final_md
  | inr _ => true
  end.

(** What [json.loads] raises besides its own decode error: a
    [ValueError] or a [RecursionError]. *)
Definition is_decoder_exception (e : Exn) : bool :=
  match e with
  | ValueError _ => true
  | RecursionError _ => true
  | _ => false
  end.

(** A text made of decimal digits, and a text at which a numeral ends: it
    is empty or starts with no digit, dot or exponent mark. *)
Fixpoint all_digits (s : string) : bool :=
  match s with
  | EmptyString => true
  | String a r => Json.is_digit a && all_digits r
  end.

Definition ends_numeral (rest : string) : bool :=
  match rest with
  | EmptyString => true
  | String a _ =>
      negb (Json.is_digit a || Ascii.eqb a "."%char
            || Ascii.eqb a "e"%char || Ascii.eqb a "E"%char)
  end.

(** A request is an answering request when it carries the answering
    prompt. *)
Definition is_answer (r : GenerationRequest) : bool :=
  String.eqb (system r) SYSTEM_ANSWERER.

(** A byte the encoder copies, and a text made of such bytes. *)
Definition copied (a : ascii) : bool :=
  (32 <=? nat_of_ascii a)%nat
  && negb (Ascii.eqb a dquote) && negb (Ascii.eqb a "\"%char).

Fixpoint plain (s : string) : bool :=
  match s with
  | EmptyString => true
  | String a r => copied a && plain r
  end.

(** The run obtains [plan_data] as its plan, from the planning output or,
    that one being unusable, from the repaired output. *)
Definition obtains (w : World) (lines : list string) (r i j t : string)
  (plan_data : Json.JValue) : Prop :=
  exists plan_raw,
    plans w lines r i j t plan_raw
    /\ ((Json.truthy (parsed_data (room_of_main w) plan_raw) = true
         /\ plan_data = parsed_data (room_of_main w) plan_raw)
        \/ (unusable (room_of_main w) plan_raw
            /\ exists repaired_text,
                 repairs_to w plan_raw repaired_text
                 /\ Json.truthy (parsed_data (room_of_repair w) repaired_text)
                    = true
                 /\ plan_data = parsed_data (room_of_repair w) repaired_text)).

(** Texts and lines that count as empty, and what the multi-line prompt
    prints. *)

(** A text made of JSON whitespace only (the empty text is one). *)
Fixpoint json_blank (s : string) : bool :=
  match s with
  | EmptyString => true
  | String a r => Json.is_ws a && json_blank r
  end.

(** [line.strip() == ""]. *)
Definition blank (line : string) : bool := String.eqb (PyStr.strip line) "".

(** No line of [l] is blank. *)
Definition no_blank (l : list string) : bool :=
  forallb (fun line => negb (blank line)) l.

(** What [prompt_multiline] prints. *)
Definition multiline_events (label : string) : list Event :=
  [ Stdout ((nl ++ "Enter " ++ label
                ++ ". End with an empty line, then press Ctrl+D (macOS/Linux) to finish:")
              ++ nl);
    Stdout (PyStr.repeat "-"%char 80 ++ nl);
    Stdout (PyStr.repeat "-"%char 80 ++ nl) ].

(** * Properties *)

(** ** Searching and slicing *)

Lemma length_app (s t : string) :
  String.length (s ++ t) = String.length s + String.length t.
Proof.
  induction s as [|a s IH]; simpl; [reflexivity|now rewrite IH].
Qed.

Lemma app_assoc_s (s t u : string) : (s ++ t) ++ u = s ++ t ++ u.
Proof.
  induction s as [|a s IH]; simpl; [reflexivity|now rewrite IH].
Qed.

Lemma app_empty_r (s : string) : s ++ "" = s.
Proof.
  induction s as [|a s IH]; simpl; [reflexivity|now rewrite IH].
Qed.

Section Search.

Variable c : ascii.

Lemma find_range (s : string) :
  (PyStr.find c s = -1 \/ 0 <= PyStr.find c s < PyStr.len s)%Z.
Proof.
  unfold PyStr.len.
  induction s as [|a r IH]; simpl; [now left|].
  destruct (Ascii.eqb a c); [right; lia|].
  destruct IH as [E|[Hlo Hhi]].
  - rewrite E. now left.
  - right. destruct (PyStr.find c r); lia.
Qed.

Lemma rfind_range (s : string) :
  (PyStr.rfind c s = -1 \/ 0 <= PyStr.rfind c s < PyStr.len s)%Z.
Proof.
  unfold PyStr.len.
  induction s as [|a r IH]; simpl; [now left|].
  destruct IH as [E|[Hlo Hhi]].
  - rewrite E. destruct (Ascii.eqb a c); [right; lia|now left].
  - right. destruct (PyStr.rfind c r); lia.
Qed.

Lemma contains_find (s : string) :
  PyStr.contains c s = true <-> (0 <= PyStr.find c s)%Z.
Proof.
  induction s as [|a r IH]; simpl.
  - split; [discriminate|lia].
  - destruct (Ascii.eqb a c); [split; [lia|reflexivity]|].
    rewrite IH. destruct (find_range r) as [E|[Hlo Hhi]].
    + rewrite E. simpl. lia.
    + destruct (PyStr.find c r); lia.
Qed.

Lemma contains_rfind (s : string) :
  PyStr.contains c s = true <-> (0 <= PyStr.rfind c s)%Z.
Proof.
  induction s as [|a r IH]; simpl.
  - split; [discriminate|lia].
  - destruct (rfind_range r) as [E|[Hlo Hhi]].
    + rewrite E. destruct (Ascii.eqb a c); [split; [lia|reflexivity]|].
      rewrite IH, E. lia.
    + destruct (Ascii.eqb a c).
      * split; [destruct (PyStr.rfind c r); lia|reflexivity].
      * rewrite IH. destruct (PyStr.rfind c r); lia.
Qed.

Lemma contains_false_find (s : string) :
  PyStr.contains c s = false <-> PyStr.find c s = (-1)%Z.
Proof.
  destruct (find_range s) as [E|H]; pose proof (contains_find s) as C;
    destruct (PyStr.contains c s); intuition (try lia; try discriminate).
Qed.

Lemma contains_false_rfind (s : string) :
  PyStr.contains c s = false <-> PyStr.rfind c s = (-1)%Z.
Proof.
  destruct (rfind_range s) as [E|H]; pose proof (contains_rfind s) as C;
    destruct (PyStr.contains c s); intuition (try lia; try discriminate).
Qed.

(** The first occurrence, after a prefix that has none. *)
Lemma find_after_prefix (p r : string) :
  PyStr.contains c p = false ->
  PyStr.find c (p ++ String c r) = PyStr.len p.
Proof.
  unfold PyStr.len.
  induction p as [|a p IH]; simpl; intros H.
  - now rewrite Ascii.eqb_refl.
  - destruct (Ascii.eqb a c); [discriminate|].
    rewrite (IH H). destruct (String.length p); simpl; lia.
Qed.

(** The last occurrence, before a suffix that has none. *)
Lemma rfind_before_suffix (p t : string) :
  PyStr.contains c t = false ->
  PyStr.rfind c (p ++ String c t) = PyStr.len p.
Proof.
  unfold PyStr.len.
  intros H. induction p as [|a p IH]; simpl.
  - apply contains_false_rfind in H. rewrite H.
    now rewrite Ascii.eqb_refl.
  - rewrite IH. destruct (String.length p); simpl; lia.
Qed.

End Search.

Lemma len_app (s t : string) : PyStr.len (s ++ t) = (PyStr.len s + PyStr.len t)%Z.
Proof.
  unfold PyStr.len. rewrite length_app. lia.
Qed.

Lemma substring_prefix (m t : string) :
  String.substring 0 (String.length m) (m ++ t) = m.
Proof.
  induction m as [|a m IH]; simpl.
  - now destruct t.
  - now rewrite IH.
Qed.

Lemma substring_skip (p s : string) (n : nat) :
  String.substring (String.length p) n (p ++ s) = String.substring 0 n s.
Proof.
  induction p as [|a p IH]; simpl; [reflexivity|apply IH].
Qed.

(** The slice that cuts a middle part out of a text. *)
Lemma slice_middle (p m t : string) :
  PyStr.slice (p ++ m ++ t) (PyStr.len p) (PyStr.len p + PyStr.len m) = m.
Proof.
  unfold PyStr.slice, PyStr.clamp.
  rewrite !len_app.
  assert (Hp : (0 <= PyStr.len p)%Z) by (unfold PyStr.len; lia).
  assert (Hm : (0 <= PyStr.len m)%Z) by (unfold PyStr.len; lia).
  assert (Ht : (0 <= PyStr.len t)%Z) by (unfold PyStr.len; lia).
  destruct (Z.ltb_spec (PyStr.len p) 0); [lia|].
  destruct (Z.ltb_spec (PyStr.len p + PyStr.len m) 0); [lia|].
  replace (Z.max 0 (Z.min (PyStr.len p)
                      (PyStr.len p + (PyStr.len m + PyStr.len t))))
    with (PyStr.len p) by lia.
  replace (Z.max 0 (Z.min (PyStr.len p + PyStr.len m)
                      (PyStr.len p + (PyStr.len m + PyStr.len t))))
    with (PyStr.len p + PyStr.len m)%Z by lia.
  replace (PyStr.len p + PyStr.len m - PyStr.len p)%Z with (PyStr.len m) by lia.
  unfold PyStr.len. rewrite !Nat2Z.id.
  rewrite substring_skip. apply substring_prefix.
Qed.

(** A slice whose end does not lie after its start is empty. *)
Lemma slice_empty (s : string) (i j : Z) :
  (0 <= j <= i)%Z -> PyStr.slice s i j = "".
Proof.
  intros H. unfold PyStr.slice, PyStr.clamp.
  destruct (Z.ltb_spec i 0); [lia|].
  destruct (Z.ltb_spec j 0); [lia|].
  assert (L : (0 <= PyStr.len s)%Z) by (unfold PyStr.len; lia).
  replace (Z.to_nat (Z.max 0 (Z.min j (PyStr.len s))
                     - Z.max 0 (Z.min i (PyStr.len s)))) with 0%nat by lia.
  generalize (Z.to_nat (Z.max 0 (Z.min i (PyStr.len s)))).
  clear. induction s as [|a s IH]; intros [|n]; simpl; auto.
Qed.

(** ** The structured-output parser *)

(** The ways [try_parse_json_once] can go. *)
Lemma parse_direct (room : nat) (raw : string) (data : Json.JValue) :
  Json.loads room raw = inl data ->
  try_parse_json_once room raw = ([raw], inl (data, None)).
Proof.
  intros H. unfold try_parse_json_once. now rewrite H.
Qed.

Lemma parse_retry (room : nat) (raw : string) (e1 : Json.JSONDecodeError) :
  Json.loads room raw = inr (Json.DecodeError e1) ->
  PyStr.contains "{"%char raw && PyStr.contains "}"%char raw = true ->
  try_parse_json_once room raw =
    ([raw; candidate_of raw],
     match Json.loads room (candidate_of raw) with
     | inl data => inl (data, None)
     | inr (Json.DecodeError e2) =>
         inl (Json.JNull,
              Some ("JSON parsing failed (initial + substring): "
                      ++ Json.error_str e2))
     | inr (Json.Uncaught e) => inr e
     end).
Proof.
  intros H B. unfold try_parse_json_once. rewrite H, B.
  fold (candidate_of raw).
  now destruct (Json.loads room (candidate_of raw)) as [v|[e2|e]].
Qed.

Lemma parse_no_retry (room : nat) (raw : string) (e1 : Json.JSONDecodeError) :
  Json.loads room raw = inr (Json.DecodeError e1) ->
  PyStr.contains "{"%char raw && PyStr.contains "}"%char raw = false ->
  try_parse_json_once room raw =
    ([raw],
     inl (Json.JNull, Some ("JSON parsing failed: " ++ Json.error_str e1))).
Proof.
  intros H B. unfold try_parse_json_once. now rewrite H, B.
Qed.

Lemma parse_escapes (room : nat) (raw : string) (e : Exn) :
  Json.loads room raw = inr (Json.Uncaught e) ->
  try_parse_json_once room raw = ([raw], inr e).
Proof.
  intros H. unfold try_parse_json_once. now rewrite H.
Qed.



Lemma truthy_returns (room : nat) (raw : string) :
  Json.truthy (parsed_data room raw) = true -> returns room raw = true.
Proof.
  unfold parsed_data, returns.
  now destruct (parse_result room raw) as [[d e]|e].
Qed.

(** What the heuristic cuts out of a text that wraps braces in text free
    of them. *)
Lemma candidate_embedded (p body t : string) :
  PyStr.contains "{"%char p = false ->
  PyStr.contains "}"%char t = false ->
  candidate_of (p ++ ("{" ++ body ++ "}") ++ t) = "{" ++ body ++ "}".
Proof.
  intros Hp Ht. unfold candidate_of.
  assert (F : PyStr.find "{"%char (p ++ ("{" ++ body ++ "}") ++ t)
              = PyStr.len p).
  { simpl. now apply find_after_prefix. }
  assert (R : PyStr.rfind "}"%char (p ++ ("{" ++ body ++ "}") ++ t)
              = (PyStr.len p + PyStr.len ("{" ++ body))%Z).
  { replace (p ++ ("{" ++ body ++ "}") ++ t)
      with ((p ++ "{" ++ body) ++ String "}"%char t)
      by (repeat (rewrite ?app_assoc_s; simpl); reflexivity).
    rewrite rfind_before_suffix by assumption. apply len_app. }
  rewrite F, R.
  replace (PyStr.len p + PyStr.len ("{" ++ body) + 1)%Z
    with (PyStr.len p + PyStr.len ("{" ++ body ++ "}"))%Z.
  - apply slice_middle.
  - unfold PyStr.len. simpl. rewrite !length_app. simpl. lia.
Qed.

Lemma contains_app (c : ascii) (s t : string) :
  PyStr.contains c (s ++ t) = PyStr.contains c s || PyStr.contains c t.
Proof.
  induction s as [|a s IH]; simpl; [reflexivity|].
  now destruct (Ascii.eqb a c).
Qed.

(** *** Prose before an object *)

(** A word that is no prefix of a text is no prefix of the text followed
    by a character the word does not hold. *)
Lemma strip_prefix_app_none (word q : string) (b : ascii) (x : string) :
  PyStr.strip_prefix word q = None ->
  PyStr.contains b word = false ->
  PyStr.strip_prefix word (q ++ String b x) = None.
Proof.
  revert q. induction word as [|a word IH]; intros q H C; [discriminate H|].
  simpl in C. destruct (Ascii.eqb a b) eqn:E; [discriminate C|].
  destruct q as [|c q]; simpl.
  - now rewrite E.
  - simpl in H. destruct (Ascii.eqb a c); [|reflexivity].
    now apply IH.
Qed.

Lemma match_word_app_none (word : string) (v : Json.JValue) (q : string)
  (b : ascii) (x : string) :
  PyStr.startswith q word = false ->
  PyStr.contains b word = false ->
  Json.match_word word v (q ++ String b x) = None.
Proof.
  unfold PyStr.startswith, Json.match_word. intros H C.
  destruct (PyStr.strip_prefix word q) eqn:E; [discriminate H|].
  now rewrite (strip_prefix_app_none _ _ _ _ E C).
Qed.

Lemma skip_ws_app (p x : string) (c : ascii) (r : string) :
  Json.skip_ws p = String c r -> Json.skip_ws (p ++ x) = String c (r ++ x).
Proof.
  induction p as [|a p IH]; simpl; [discriminate|].
  destruct (Json.is_ws a); [exact IH|].
  intros E. injection E as -> ->. reflexivity.
Qed.

(** Where prose stands before an opening brace, the scanner finds no
    value. *)
Lemma scan_once_prose (fuel depth : nat) (c : ascii) (r x : string) :
  prose (String c r) = true ->
  Json.is_ws c = false ->
  Json.scan_once (S fuel) depth (String c (r ++ String "{"%char x))
  = Json.Stop (String c (r ++ String "{"%char x)).
Proof.
  intros P W. unfold prose in P. cbn [Json.skip_ws] in P. rewrite W in P.
  apply andb_true_iff in P. destruct P as [P1 P2].
  apply negb_true_iff in P1, P2.
  repeat (apply orb_false_iff in P1; destruct P1 as [P1 ?]).
  unfold json_words in P2. cbn [existsb] in P2.
  repeat (apply orb_false_iff in P2; destruct P2 as [? P2]).
  cbn [Json.scan_once]. rewrite P1.
  match goal with E : Ascii.eqb c "{"%char = false |- _ => rewrite E end.
  match goal with E : Ascii.eqb c "["%char = false |- _ => rewrite E end.
  unfold Json.match_scalar.
  change (String c (r ++ String "{"%char x))
    with (String c r ++ String "{"%char x).
  rewrite !match_word_app_none by (assumption || reflexivity).
  assert (N : Json.match_word "-Infinity" (Json.JFloat (Json.FInf true))
                (String c r ++ String "{"%char x) = None).
  { unfold Json.match_word. cbn [PyStr.strip_prefix append].
    rewrite Ascii.eqb_sym.
    match goal with E : Ascii.eqb c "-"%char = false |- _ => now rewrite E end. }
  rewrite N. unfold Json.match_number. cbn [append].
  match goal with E : Ascii.eqb c "-"%char = false |- _ => rewrite E end.
  unfold Json.match_integer.
  destruct (Ascii.eqb c "0"%char) eqn:Z.
  - apply Ascii.eqb_eq in Z. subst c.
    match goal with E : Json.is_digit _ = false |- _ => discriminate E end.
  - match goal with E : Json.is_digit c = false |- _ => now rewrite E end.
Qed.

(** A text that starts with prose and goes on with an opening brace does
    not decode. *)
Lemma loads_prose (room : nat) (p x : string) :
  prose p = true ->
  2 <= room ->
  exists e1, Json.loads room (p ++ String "{"%char x)
             = inr (Json.DecodeError e1).
Proof.
  intros P R. unfold Json.loads.
  destruct (PyStr.startswith _ Json.bom); [eauto|].
  pose proof P as Q. unfold prose in Q.
  destruct (Json.skip_ws p) as [|c r] eqn:E; [discriminate Q|].
  assert (W : Json.is_ws c = false).
  { clear - E. induction p as [|a p IH]; simpl in E; [discriminate|].
    destruct (Json.is_ws a) eqn:A; [exact (IH E)|].
    injection E as <- _. exact A. }
  assert (P' : prose (String c r) = true).
  { unfold prose. cbn [Json.skip_ws]. now rewrite W. }
  rewrite (skip_ws_app _ _ _ _ E), (scan_once_prose _ _ _ _ _ P' W).
  destruct room as [|[|room]]; [lia|lia|eauto].
Qed.

(** C3, as amended.  A JSON object wrapped in text is recovered by the
    substring heuristic when the text before it holds no opening brace,
    the text after it holds no closing brace, the object alone decodes,
    and the text as a whole fails to decode: the parser decodes the whole
    text, then the text from the first opening brace through the last
    closing brace, which is the object, and returns what it decodes to.
    The text as a whole does fail to decode when the text before the
    object starts with prose and the decoder has room to raise its
    error. *)
Theorem embedded_object_recovered
  (room : nat) (p body t : string) (data : Json.JValue) :
  PyStr.contains "{"%char p = false ->
  PyStr.contains "}"%char t = false ->
  Json.loads room ("{" ++ body ++ "}") = inl data ->
  (forall e1 : Json.JSONDecodeError,
     Json.loads room (p ++ ("{" ++ body ++ "}") ++ t)
     = inr (Json.DecodeError e1) ->
     try_parse_json_once room (p ++ ("{" ++ body ++ "}") ++ t)
     = ([p ++ ("{" ++ body ++ "}") ++ t; "{" ++ body ++ "}"],
        inl (data, None)))
  /\ (prose p = true ->
      2 <= room ->
      (exists e1 : Json.JSONDecodeError,
         Json.loads room (p ++ ("{" ++ body ++ "}") ++ t)
         = inr (Json.DecodeError e1))
      /\ try_parse_json_once room (p ++ ("{" ++ body ++ "}") ++ t)
         = ([p ++ ("{" ++ body ++ "}") ++ t; "{" ++ body ++ "}"],
            inl (data, None))).
Proof.
  intros Hp Ht H2.
  assert (A : forall e1 : Json.JSONDecodeError,
             Json.loads room (p ++ ("{" ++ body ++ "}") ++ t)
             = inr (Json.DecodeError e1) ->
             try_parse_json_once room (p ++ ("{" ++ body ++ "}") ++ t)
             = ([p ++ ("{" ++ body ++ "}") ++ t; "{" ++ body ++ "}"],
                inl (data, None))).
  { intros e1 H1. rewrite (parse_retry _ _ _ H1).
    - rewrite (candidate_embedded _ body _ Hp Ht). now rewrite H2.
    - repeat (rewrite contains_app; simpl).
      now rewrite ?orb_true_r. }
  split; [exact A|].
  intros P R.
  destruct (loads_prose room p ((body ++ "}") ++ t) P R) as [e1 H1].
  split; [exists e1; exact H1|exact (A e1 H1)].
Qed.

Lemma embedded_object_recovered_witness :
  try_parse_json_once script_room
    ("Here is the plan: "
       ++ ("{" ++ lit "`steps`: [`a`], `assumptions`: [], `success_criteria`: [`b`]"
             ++ "}")
       ++ " Good luck!")
  = (["Here is the plan: "
        ++ ("{" ++ lit "`steps`: [`a`], `assumptions`: [], `success_criteria`: [`b`]"
              ++ "}")
        ++ " Good luck!";
      "{" ++ lit "`steps`: [`a`], `assumptions`: [], `success_criteria`: [`b`]"
        ++ "}"],
     inl (Json.JObj [("steps", Json.JArr [Json.JStr "a"]);
                     ("assumptions", Json.JArr []);
                     ("success_criteria", Json.JArr [Json.JStr "b"])],
          None)).
Proof.
  apply (proj2 (@embedded_object_recovered script_room
                  "Here is the plan: "
                  (lit "`steps`: [`a`], `assumptions`: [], `success_criteria`: [`b`]")
                  " Good luck!"
                  (Json.JObj [("steps", Json.JArr [Json.JStr "a"]);
                              ("assumptions", Json.JArr []);
                              ("success_criteria", Json.JArr [Json.JStr "b"])])
                  eq_refl eq_refl ltac:(vm_compute; reflexivity))).
  - reflexivity.
  - unfold script_room. lia.
Defined.

(** C3 fails as stated.  With braces in the prose the heuristic cuts from
    a brace of the prose and the retry fails, although the text holds
    exactly one valid object between a prefix and a suffix; and a text whose
    prefix and suffix are not JSON on their own can decode as a whole, so
    that the direct decode does not fail. *)
Lemma braces_in_prose_defeat_heuristic :
  Json.loads script_room
    (lit "{`steps`: [`a`], `assumptions`: [], `success_criteria`: []}")
  = inl (Json.JObj [("steps", Json.JArr [Json.JStr "a"]);
                    ("assumptions", Json.JArr []);
                    ("success_criteria", Json.JArr [])])
  /\ try_parse_json_once script_room
       ("Use {braces}: "
          ++ lit "{`steps`: [`a`], `assumptions`: [], `success_criteria`: []}"
          ++ " Thanks.")
     = (["Use {braces}: "
           ++ lit "{`steps`: [`a`], `assumptions`: [], `success_criteria`: []}"
           ++ " Thanks.";
         "{braces}: "
           ++ lit "{`steps`: [`a`], `assumptions`: [], `success_criteria`: []}"],
        inl (Json.JNull,
             Some "JSON parsing failed (initial + substring): Expecting property name enclosed in double quotes: line 1 column 2 (char 1)"))
  /\ try_parse_json_once script_room
       (lit "`see: " ++ "{}" ++ lit " (end)`")
     = ([lit "`see: " ++ "{}" ++ lit " (end)`"],
        inl (Json.JStr "see: {} (end)", None)).
Proof.
  repeat split; vm_compute; reflexivity.
Qed.

(** C4, as amended.  When the direct decode fails, the heuristic is tried
    exactly when the text holds an opening brace and a closing brace, in
    whatever order: the parser then decodes once more, and what it decodes
    is the slice from the first opening brace through the last closing
    brace, which is empty when the last closing brace comes first.  When
    one of the two braces is missing there is no second decode. *)
Theorem retry_iff_both_braces
  (room : nat) (raw : string) (e1 : Json.JSONDecodeError) :
  Json.loads room raw = inr (Json.DecodeError e1) ->
  ((0 <= PyStr.find "{"%char raw)%Z /\ (0 <= PyStr.rfind "}"%char raw)%Z ->
   decode_attempts room raw
   = [raw; PyStr.slice raw (PyStr.find "{"%char raw)
                           (PyStr.rfind "}"%char raw + 1)])
  /\ (PyStr.find "{"%char raw = (-1)%Z \/ PyStr.rfind "}"%char raw = (-1)%Z ->
      decode_attempts room raw = [raw])
  /\ ((0 <= PyStr.rfind "}"%char raw < PyStr.find "{"%char raw)%Z ->
      PyStr.slice raw (PyStr.find "{"%char raw)
                      (PyStr.rfind "}"%char raw + 1) = "").
Proof.
  intros H. unfold decode_attempts. repeat split.
  - intros [F R]. apply contains_find in F. apply contains_rfind in R.
    rewrite (parse_retry _ _ _ H) by (now rewrite F, R). reflexivity.
  - intros M.
    rewrite (parse_no_retry _ _ _ H); [reflexivity|].
    destruct M as [M|M];
      [apply contains_false_find in M|apply contains_false_rfind in M];
      rewrite M; [reflexivity|apply andb_false_r].
  - intros O. apply slice_empty. lia.
Qed.

Lemma retry_iff_both_braces_witness :
  decode_attempts script_room (lit "Sure! {`steps`: [1]} Done.")
  = [lit "Sure! {`steps`: [1]} Done."; lit "{`steps`: [1]}"]
  /\ decode_attempts script_room "no braces here" = ["no braces here"]
  /\ decode_attempts script_room "only { one" = ["only { one"]
  /\ decode_attempts script_room "} {" = ["} {"; ""].
Proof.
  split; [|split; [|split]].
  - apply (proj1 (@retry_iff_both_braces script_room
                    (lit "Sure! {`steps`: [1]} Done.")
                    (Json.decode_error "Expecting value"
                       (lit "Sure! {`steps`: [1]} Done.")
                       (lit "Sure! {`steps`: [1]} Done."))
                    eq_refl)).
    vm_compute. split; discriminate.
  - apply (proj1 (proj2 (@retry_iff_both_braces script_room
                    "no braces here"
                    (Json.decode_error "Expecting value"
                       "no braces here" "no braces here")
                    eq_refl))).
    vm_compute. now left.
  - apply (proj1 (proj2 (@retry_iff_both_braces script_room
                    "only { one"
                    (Json.decode_error "Expecting value"
                       "only { one" "only { one")
                    eq_refl))).
    vm_compute. now right.
  - rewrite <- (proj2 (proj2 (@retry_iff_both_braces script_room
                    "} {"
                    (Json.decode_error "Expecting value" "} {" "} {")
                    eq_refl))) by (vm_compute; split; [discriminate|reflexivity]).
    apply (proj1 (@retry_iff_both_braces script_room
                    "} {"
                    (Json.decode_error "Expecting value" "} {" "} {")
                    eq_refl)).
    vm_compute. split; discriminate.
Defined.

(** C4 fails as stated: in this text the first opening brace (index 2)
    does not precede the last closing brace (index 0), and the parser
    still decodes a second time, the empty slice. *)
Lemma retry_without_order :
  PyStr.find "{"%char "} {" = 2%Z
  /\ PyStr.rfind "}"%char "} {" = 0%Z
  /\ try_parse_json_once script_room "} {"
     = (["} {"; ""],
        inl (Json.JNull,
             Some "JSON parsing failed (initial + substring): Expecting value: line 1 column 1 (char 0)")).
Proof.
  repeat split; vm_compute; reflexivity.
Qed.

(** C5, as amended.  The parser checks no shape and no key: it returns
    data without an error message exactly when the text decodes, or when
    the text does not decode, holds both braces, and the slice between them
    decodes; the data is then the decoded value itself, whatever it is. *)
Theorem parse_returns_any_decoded_value
  (room : nat) (raw : string) (data : Json.JValue) :
  parse_result room raw = inl (data, None)
  <-> (Json.loads room raw = inl data
       \/ (exists e1, Json.loads room raw = inr (Json.DecodeError e1))
          /\ PyStr.contains "{"%char raw && PyStr.contains "}"%char raw = true
          /\ Json.loads room (candidate_of raw) = inl data).
Proof.
  unfold parse_result. split.
  - unfold try_parse_json_once. fold (candidate_of raw).
    destruct (Json.loads room raw) as [v|[e1|e]] eqn:H1; simpl.
    + intros E. left. congruence.
    + destruct (_ && _) eqn:B; simpl; [|discriminate].
      destruct (Json.loads room (candidate_of raw)) as [v|[e2|e]] eqn:H2;
        simpl; try discriminate.
      intros E. right. repeat split; eauto. congruence.
    + discriminate.
  - intros [H|[[e1 H1] [B H2]]].
    + now rewrite (parse_direct _ _ _ H).
    + rewrite (parse_retry _ _ _ H1 B). now rewrite H2.
Qed.

(** C5 fails as stated: a list, a record with none of the three keys and
    a number come back as data, with no error. *)
Lemma parse_returns_non_record :
  try_parse_json_once script_room "[1]"
  = (["[1]"], inl (Json.JArr [Json.JInt 1], None))
  /\ try_parse_json_once script_room (lit "{`foo`: `bar`}")
     = ([lit "{`foo`: `bar`}"],
        inl (Json.JObj [("foo", Json.JStr "bar")], None))
  /\ try_parse_json_once script_room "42" = (["42"], inl (Json.JInt 42, None)).
Proof.
  repeat split; vm_compute; reflexivity.
Qed.

(** C8, as amended.  When both decodes fail, the message is a fixed
    prefix followed by the error of the second decode, that of the slice;
    the error of the first decode is not part of it.  When the heuristic is
    not tried, the message is a fixed prefix followed by the error of the
    first decode.  In both cases the data is [None]. *)
Theorem failure_message
  (room : nat) (raw : string) (e1 : Json.JSONDecodeError) :
  Json.loads room raw = inr (Json.DecodeError e1) ->
  (forall e2 : Json.JSONDecodeError,
     PyStr.contains "{"%char raw && PyStr.contains "}"%char raw = true ->
     Json.loads room (candidate_of raw) = inr (Json.DecodeError e2) ->
     try_parse_json_once room raw
     = ([raw; candidate_of raw],
        inl (Json.JNull,
             Some ("JSON parsing failed (initial + substring): "
                     ++ Json.error_str e2))))
  /\ (PyStr.contains "{"%char raw && PyStr.contains "}"%char raw = false ->
      try_parse_json_once room raw
      = ([raw],
         inl (Json.JNull,
              Some ("JSON parsing failed: " ++ Json.error_str e1)))).
Proof.
  intros H. split.
  - intros e2 B H2. rewrite (parse_retry _ _ _ H B). now rewrite H2.
  - apply parse_no_retry, H.
Qed.

Lemma failure_message_witness :
  try_parse_json_once script_room "plan {x}"
  = (["plan {x}"; "{x}"],
     inl (Json.JNull,
          Some ("JSON parsing failed (initial + substring): "
                  ++ "Expecting property name enclosed in double quotes: line 1 column 2 (char 1)")))
  /\ try_parse_json_once script_room "no plan"
     = (["no plan"],
        inl (Json.JNull,
             Some ("JSON parsing failed: "
                     ++ "Expecting value: line 1 column 1 (char 0)"))).
Proof.
  split.
  - apply (proj1 (@failure_message script_room "plan {x}"
                    (Json.decode_error "Expecting value" "plan {x}" "plan {x}")
                    eq_refl)
             (Json.decode_error
                "Expecting property name enclosed in double quotes"
                "{x}" "x}"));
      vm_compute; reflexivity.
  - apply (proj2 (@failure_message script_room "no plan"
                    (Json.decode_error "Expecting value" "no plan" "no plan")
                    eq_refl)).
    vm_compute; reflexivity.
Defined.

(** C8 fails as stated.  After two failed decodes the message does not
    hold the error of the first one; and without the heuristic the message
    is not the error of the first decode alone, it starts with a prefix. *)
Lemma failure_drops_original_error :
  Json.loads script_room "plan {x}"
  = inr (Json.DecodeError
           (Json.decode_error "Expecting value" "plan {x}" "plan {x}"))
  /\ Json.error_str (Json.decode_error "Expecting value" "plan {x}" "plan {x}")
     = "Expecting value: line 1 column 1 (char 0)"
  /\ parse_error script_room "plan {x}"
     = Some "JSON parsing failed (initial + substring): Expecting property name enclosed in double quotes: line 1 column 2 (char 1)"
  /\ String.index 0 "Expecting value"
       "JSON parsing failed (initial + substring): Expecting property name enclosed in double quotes: line 1 column 2 (char 1)"
     = None
  /\ Json.loads script_room "no plan"
     = inr (Json.DecodeError
              (Json.decode_error "Expecting value" "no plan" "no plan"))
  /\ parse_error script_room "no plan"
     = Some "JSON parsing failed: Expecting value: line 1 column 1 (char 0)".
Proof.
  repeat split; vm_compute; reflexivity.
Qed.

(** ** The orchestrator, path by path *)

Lemma parsed_pair (room : nat) (raw : string) :
  returns room raw = true ->
  try_parse_json_once room raw
  = (decode_attempts room raw,
     inl (parsed_data room raw, parse_error room raw)).
Proof.
  unfold returns, decode_attempts, parsed_data, parse_error, parse_result.
  destruct (try_parse_json_once room raw) as [l [[d e]|e]];
    [reflexivity|discriminate].
Qed.

Lemma parse_raises (room : nat) (raw : string) (e : Exn) :
  parse_result room raw = inr e ->
  try_parse_json_once room raw = (decode_attempts room raw, inr e).
Proof.
  unfold decode_attempts, parse_result.
  destruct (try_parse_json_once room raw) as [l res]. simpl. now intros ->.
Qed.


(** *** Writing the files *)

Lemma write_pieces_error (pieces : list string) :
  forallb encodable pieces
  = match write_error pieces with None => true | Some _ => false end.
Proof.
  unfold write_error.
  induction pieces as [|piece more IH]; [reflexivity|].
  cbn [forallb write_pieces]. destruct (encodable piece); [|reflexivity].
  cbn [andb]. rewrite IH. now destruct (write_pieces more) as [? [?|]].
Qed.

Lemma write_pieces_pair (pieces : list string) :
  write_pieces pieces = (file_after pieces, write_error pieces).
Proof.
  unfold file_after, write_error. now destruct (write_pieces pieces).
Qed.

(** When every piece can be encoded, the file holds all of them. *)
Lemma file_after_encodable (pieces : list string) :
  forallb encodable pieces = true ->
  file_after pieces = String.concat "" pieces.
Proof.
  unfold file_after.
  induction pieces as [|piece more IH]; [reflexivity|].
  cbn [forallb write_pieces]. intros H. apply andb_true_iff in H.
  destruct H as [H1 H2]. rewrite H1. specialize (IH H2).
  destruct (write_pieces more) as [written raised]. simpl in IH. subst.
  simpl. destruct more; [apply app_empty_r|reflexivity].
Qed.

Lemma write_file_run (path content : string) (st : State) :
  write_file path content st
  = (if encodable content then inl tt else inr (encode_error content),
     st,
     [WriteFile path (if encodable content then content else "")]).
Proof.
  unfold write_file, write_text. cbn [write_pieces].
  destruct (encodable content); [|reflexivity].
  now rewrite app_empty_r.
Qed.

Ltac run_simpl :=
  repeat (progress (cbv beta iota zeta;
                    cbn [negb Json.truthy calls console fst snd])).

Ltac trace_norm :=
  repeat first [ rewrite app_nil_r | rewrite <- app_assoc | progress cbn [app] ].

(** The end of [main]: what it returns or raises, and what it does. *)
Lemma save_and_answer_run
  (w : World) (r i j t : string) (plan_data : Json.JValue) (repaired : bool)
  (st : State) :
  save_and_answer w r i j t plan_data repaired st
  = (saving_result w plan_data
       (service w (calls st) (answer_request w r i j t plan_data)),
     (if dumpable w plan_data then after_calls 1 st else st),
     saving_events w r i j t plan_data repaired
       (service w (calls st) (answer_request w r i j t plan_data))).
Proof.
  unfold save_and_answer, dump_file, write_text.
  fold (plan_pieces w plan_data).
  unfold saving_result, saving_events, dumpable.
  rewrite write_pieces_error, write_pieces_pair.
  unfold bind at 1.
  destruct (write_error (plan_pieces w plan_data)) as [e|]; [reflexivity|].
  unfold bind, try_except, call_openai_responses, print, emit, ret.
  fold (request_of w SYSTEM_ANSWERER
          (ANSWER_USER_TEMPLATE r i j t
             (Json.dumps (float_repr w) None plan_data))).
  fold (answer_request w r i j t plan_data).
  unfold answering_events, display_events.
  destruct (service w (calls st) _) as [final_md|message]; run_simpl;
    [|reflexivity].
  rewrite write_file_run. unfold write_error, file_after.
  cbn [write_pieces].
  destruct (encodable final_md); run_simpl; trace_norm;
    rewrite ?app_empty_r; reflexivity.
Qed.

Ltac run_open w r i j t :=
  unfold chains, attempt_model_repair, bind, try_except,
    call_openai_responses, parse_in_run, print, emit, ret;
  fold (request_of w SYSTEM_PLANNER (PLANNER_USER_TEMPLATE r i j t));
  fold (planner_request w r i j t).

(** The planning call raises: the run reports it and ends. *)
Lemma chains_planning_unavailable
  (w : World) (r i j t message : string) (st : State) :
  service w (calls st) (planner_request w r i j t) = inr message ->
  chains w r i j t st
  = (inl tt, after_calls 1 st,
     [ Stdout ((nl ++ "[Chain 1] Creating plan...") ++ nl);
       Request (planner_request w r i j t);
       Stdout (("OpenAI error during planning: " ++ message) ++ nl) ]).
Proof.
  intros H. run_open w r i j t. rewrite H. reflexivity.
Qed.

(** The decoder raises on the planning output something the parser does
    not catch: it escapes [main], and nothing more is done. *)
Lemma chains_plan_escapes
  (w : World) (r i j t plan_raw : string) (st : State) (e : Exn) :
  service w (calls st) (planner_request w r i j t) = inl plan_raw ->
  parse_result (room_of_main w) plan_raw = inr e ->
  chains w r i j t st
  = (inr e, after_calls 1 st, planning_events w r i j t plan_raw).
Proof.
  intros H E. run_open w r i j t. rewrite H, (parse_raises _ _ _ E).
  reflexivity.
Qed.

(** The planning output is usable: no repair, the plan is saved and the
    answering call is made. *)
Lemma chains_plan_usable
  (w : World) (r i j t plan_raw : string) (st : State) :
  service w (calls st) (planner_request w r i j t) = inl plan_raw ->
  Json.truthy (parsed_data (room_of_main w) plan_raw) = true ->
  chains w r i j t st
  = (saving_result w (parsed_data (room_of_main w) plan_raw)
       (service w (S (calls st))
          (answer_request w r i j t (parsed_data (room_of_main w) plan_raw))),
     (if dumpable w (parsed_data (room_of_main w) plan_raw)
      then after_calls 2 st else after_calls 1 st),
     (planning_events w r i j t plan_raw
        ++ saving_events w r i j t (parsed_data (room_of_main w) plan_raw)
             false
             (service w (S (calls st))
                (answer_request w r i j t
                   (parsed_data (room_of_main w) plan_raw))))%list).
Proof.
  intros H U. run_open w r i j t.
  rewrite H, (parsed_pair _ _ (truthy_returns _ _ U)), U.
  run_simpl. rewrite save_and_answer_run. run_simpl.
  unfold planning_events.
  destruct (dumpable w _); trace_norm; reflexivity.
Qed.

Ltac run_fold_repair w plan_raw :=
  fold (request_of w repair_system
          (repair_instruction ++ nl ++ nl ++ "BROKEN TEXT:" ++ nl ++ plan_raw));
  fold (repair_request w plan_raw).

Lemma chains_repair_unavailable
  (w : World) (r i j t plan_raw message : string) (st : State) :
  service w (calls st) (planner_request w r i j t) = inl plan_raw ->
  unusable (room_of_main w) plan_raw ->
  service w (S (calls st)) (repair_request w plan_raw) = inr message ->
  chains w r i j t st
  = (inr (ServiceError message), after_calls 2 st,
     (planning_events w r i j t plan_raw
        ++ escalation_events w plan_raw)%list).
Proof.
  intros H [U1 U2] R. run_open w r i j t. rewrite H, (parsed_pair _ _ U1), U2.
  cbn [negb]. cbv beta iota zeta. cbn [calls console].
  run_fold_repair w plan_raw. rewrite R. reflexivity.
Qed.

(** The decoder raises on the repaired text something the parser does not
    catch: it escapes [main] as well. *)
Lemma chains_repair_escapes
  (w : World) (r i j t plan_raw repaired_text : string) (st : State)
  (e : Exn) :
  service w (calls st) (planner_request w r i j t) = inl plan_raw ->
  unusable (room_of_main w) plan_raw ->
  service w (S (calls st)) (repair_request w plan_raw) = inl repaired_text ->
  parse_result (room_of_repair w) repaired_text = inr e ->
  chains w r i j t st
  = (inr e, after_calls 2 st,
     (planning_events w r i j t plan_raw
        ++ escalation_events w plan_raw
        ++ map Decode (decode_attempts (room_of_repair w) repaired_text))%list).
Proof.
  intros H [U1 U2] R E. run_open w r i j t.
  rewrite H, (parsed_pair _ _ U1), U2.
  run_simpl. run_fold_repair w plan_raw. rewrite R.
  run_simpl. rewrite (parse_raises _ _ _ E). run_simpl.
  unfold planning_events, escalation_events.
  trace_norm. reflexivity.
Qed.

Lemma chains_repair_failed
  (w : World) (r i j t plan_raw repaired_text : string) (st : State) :
  service w (calls st) (planner_request w r i j t) = inl plan_raw ->
  unusable (room_of_main w) plan_raw ->
  service w (S (calls st)) (repair_request w plan_raw) = inl repaired_text ->
  unusable (room_of_repair w) repaired_text ->
  chains w r i j t st
  = (inl tt, after_calls 2 st,
     (planning_events w r i j t plan_raw
        ++ escalation_events w plan_raw
        ++ map Decode (decode_attempts (room_of_repair w) repaired_text)
        ++ failure_events w plan_raw repaired_text)%list).
Proof.
  intros H [U1 U2] R [V1 V2]. run_open w r i j t.
  rewrite H, (parsed_pair _ _ U1), U2.
  run_simpl. run_fold_repair w plan_raw. rewrite R.
  run_simpl. rewrite (parsed_pair _ _ V1), V2. run_simpl.
  unfold planning_events, escalation_events, failure_events, repair_failure.
  trace_norm. reflexivity.
Qed.

Lemma truthy_not_none (data : Json.JValue) :
  Json.truthy data = true ->
  match data with Json.JNull => false | _ => true end = true.
Proof.
  now destruct data.
Qed.

Lemma chains_repair_usable
  (w : World) (r i j t plan_raw repaired_text : string) (st : State) :
  service w (calls st) (planner_request w r i j t) = inl plan_raw ->
  unusable (room_of_main w) plan_raw ->
  service w (S (calls st)) (repair_request w plan_raw) = inl repaired_text ->
  Json.truthy (parsed_data (room_of_repair w) repaired_text) = true ->
  chains w r i j t st
  = (saving_result w (parsed_data (room_of_repair w) repaired_text)
       (service w (S (S (calls st)))
          (answer_request w r i j t
             (parsed_data (room_of_repair w) repaired_text))),
     (if dumpable w (parsed_data (room_of_repair w) repaired_text)
      then after_calls 3 st else after_calls 2 st),
     (planning_events w r i j t plan_raw
        ++ escalation_events w plan_raw
        ++ map Decode (decode_attempts (room_of_repair w) repaired_text)
        ++ saving_events w r i j t
             (parsed_data (room_of_repair w) repaired_text) true
             (service w (S (S (calls st)))
                (answer_request w r i j t
                   (parsed_data (room_of_repair w) repaired_text))))%list).
Proof.
  intros H [U1 U2] R V. run_open w r i j t.
  rewrite H, (parsed_pair _ _ U1), U2.
  run_simpl. run_fold_repair w plan_raw. rewrite R.
  run_simpl. rewrite (parsed_pair _ _ (truthy_returns _ _ V)), V.
  run_simpl. rewrite V. run_simpl.
  rewrite (truthy_not_none _ V), save_and_answer_run. run_simpl.
  unfold planning_events, escalation_events.
  destruct (dumpable w _); trace_norm; reflexivity.
Qed.

(** ** Reading a trace *)

Lemma requests_app (a b : list Event) :
  requests (a ++ b) = (requests a ++ requests b)%list.
Proof.
  induction a as [|e a IH]; simpl; [reflexivity|].
  destruct e; simpl; now rewrite IH.
Qed.

Lemma files_written_app (a b : list Event) :
  files_written (a ++ b) = (files_written a ++ files_written b)%list.
Proof.
  induction a as [|e a IH]; simpl; [reflexivity|].
  destruct e; simpl; now rewrite IH.
Qed.

Lemma requests_decodes (l : list string) : requests (map Decode l) = [].
Proof.
  induction l; simpl; auto.
Qed.

Lemma files_written_decodes (l : list string) :
  files_written (map Decode l) = [].
Proof.
  induction l; simpl; auto.
Qed.

Lemma requests_planning (w : World) (r i j t plan_raw : string) :
  requests (planning_events w r i j t plan_raw) = [planner_request w r i j t].
Proof.
  unfold planning_events. rewrite requests_app, requests_decodes. reflexivity.
Qed.

Lemma files_written_planning (w : World) (r i j t plan_raw : string) :
  files_written (planning_events w r i j t plan_raw) = [].
Proof.
  unfold planning_events.
  rewrite files_written_app, files_written_decodes. reflexivity.
Qed.

(** The answering request is sent when [plan.json] could be written. *)
Lemma requests_saving (w : World) (r i j t : string) (plan_data : Json.JValue)
  (repaired : bool) (reply : string + string) :
  requests (saving_events w r i j t plan_data repaired reply)
  = if dumpable w plan_data then [answer_request w r i j t plan_data] else [].
Proof.
  unfold saving_events, answering_events, display_events.
  destruct (dumpable w plan_data); [|reflexivity].
  destruct reply as [final_md|m]; [|reflexivity].
  now destruct (encodable final_md).
Qed.

Lemma files_written_saving (w : World) (r i j t : string)
  (plan_data : Json.JValue) (repaired : bool) (reply : string + string) :
  files_written (saving_events w r i j t plan_data repaired reply)
  = ("plan.json", file_after (plan_pieces w plan_data))
      :: (if dumpable w plan_data
          then match reply with
               | inl final_md => [("output.md", file_after [final_md])]
               | inr _ => []
               end
          else []).
Proof.
  unfold saving_events, answering_events, display_events.
  destruct (dumpable w plan_data); [|reflexivity].
  destruct reply as [final_md|m]; [|reflexivity].
  now destruct (encodable final_md).
Qed.

Lemma requests_collection : requests collection_events = [].
Proof.
  reflexivity.
Qed.

Lemma files_written_collection : files_written collection_events = [].
Proof.
  reflexivity.
Qed.

Lemma planner_is_not_repair (w : World) (r i j t : string) :
  is_repair (planner_request w r i j t) = false.
Proof.
  reflexivity.
Qed.

Lemma answer_is_not_repair (w : World) (r i j t : string) (d : Json.JValue) :
  is_repair (answer_request w r i j t d) = false.
Proof.
  reflexivity.
Qed.


(** The parser raises, or returns usable data, or returns unusable
    data. *)
Lemma parse_result_cases (room : nat) (raw : string) :
  (exists e, parse_result room raw = inr e)
  \/ Json.truthy (parsed_data room raw) = true
  \/ unusable room raw.
Proof.
  unfold unusable, returns, parsed_data.
  destruct (parse_result room raw) as [[d err]|e]; [|eauto].
  destruct (Json.truthy d); auto.
Qed.

(** The seven paths of the two chains: the goal is rewritten with what
    the run is on each. *)
Ltac chains_paths w r i j t st :=
  let plan_raw := fresh "plan_raw" in
  let fixed := fresh "fixed" in
  let m := fresh "message" in
  let e := fresh "e" in
  let H := fresh "H" in
  let E := fresh "E" in
  let U := fresh "U" in
  let R := fresh "R" in
  let V := fresh "V" in
  destruct (service w (calls st) (planner_request w r i j t))
    as [plan_raw|m] eqn:H;
  [ destruct (parse_result_cases (room_of_main w) plan_raw) as [[e E]|[U|U]];
    [ rewrite (chains_plan_escapes w r i j t plan_raw st e H E)
    | rewrite (chains_plan_usable w r i j t plan_raw st H U)
    | destruct (service w (S (calls st)) (repair_request w plan_raw))
        as [fixed|m] eqn:R;
      [ destruct (parse_result_cases (room_of_repair w) fixed)
          as [[e E]|[V|V]];
        [ rewrite (chains_repair_escapes w r i j t plan_raw fixed st e H U R E)
        | rewrite (chains_repair_usable w r i j t plan_raw fixed st H U R V)
        | rewrite (chains_repair_failed w r i j t plan_raw fixed st H U R V) ]
      | rewrite (chains_repair_unavailable w r i j t plan_raw m st H U R) ] ]
  | rewrite (chains_planning_unavailable w r i j t m st H) ].

(** The requests of a run of the two chains: the planning request, then
    possibly one repair request, then possibly the answering request. *)
Lemma chains_requests (w : World) (r i j t : string) (st : State) :
  let sent := requests (events_of (chains w r i j t st)) in
  sent = [planner_request w r i j t]
  \/ (exists d, sent = [planner_request w r i j t; answer_request w r i j t d])
  \/ (exists broken,
        sent = [planner_request w r i j t; repair_request w broken])
  \/ (exists broken d,
        sent = [planner_request w r i j t; repair_request w broken;
                answer_request w r i j t d]).
Proof.
  cbv zeta.
  chains_paths w r i j t st; unfold events_of, snd;
    rewrite ?requests_app, ?requests_planning, ?requests_saving,
      ?requests_decodes;
    try match goal with |- context [dumpable ?w ?d] =>
          destruct (dumpable w d) end;
    cbn [app escalation_events requests];
    first [ left; reflexivity
          | right; left; eexists; reflexivity
          | right; right; left; eexists; reflexivity
          | right; right; right; do 2 eexists; reflexivity ].
Qed.



(** ** [main], up to the two chains *)

Lemma main_without_key (w : World) (st : State) :
  has_api_key w = false ->
  main w st = (inl tt, st, [Stdout (missing_key_message ++ nl)]).
Proof.
  intros K. unfold main. fold (has_api_key w). rewrite K. reflexivity.
Qed.

Lemma main_console_short (w : World) (lines : list string) :
  has_api_key w = true ->
  collected lines = None ->
  result_of (main w (start lines)) = inr EOFError
  /\ requests (events_of (main w (start lines))) = []
  /\ files_written (events_of (main w (start lines))) = [].
Proof.
  intros K C. unfold main. fold (has_api_key w). rewrite K.
  destruct lines as [|l1 [|l2 rest]].
  - repeat split; reflexivity.
  - repeat split; reflexivity.
  - exfalso. unfold collected in C.
    destruct (read_lines rest []) as [jd rest1].
    destruct (read_lines rest1 []). discriminate C.
Qed.

Lemma main_collected (w : World) (lines : list string) (r i j t : string) :
  has_api_key w = true ->
  collected lines = Some (r, i, j, t) ->
  main w (start lines)
  = if all_given r i j t
    then
      match chains w r i j t (start (uncollected lines)) with
      | (res, st, seen) => (res, st, (collection_events ++ seen)%list)
      end
    else
      (inl tt, start (uncollected lines),
       (collection_events ++ [Stdout (missing_input_message ++ nl)])%list).
Proof.
  intros K C. unfold main. fold (has_api_key w). rewrite K.
  destruct lines as [|l1 [|l2 rest]]; try discriminate C.
  unfold collected in C. unfold uncollected.
  destruct (read_lines rest []) as [jd rest1] eqn:R1.
  destruct (read_lines rest1 []) as [cv rest2] eqn:R2.
  injection C as <- <- <- <-.
  unfold prompt_multiline, input, print, emit, ret, bind, start.
  run_simpl. rewrite R1. run_simpl. rewrite R2. run_simpl.
  fold (all_given (PyStr.strip l1) (PyStr.strip l2)
          (PyStr.strip (PyStr.join nl jd)) (PyStr.strip (PyStr.join nl cv))).
  destruct (all_given _ _ _ _); cbn [negb].
  - destruct (chains w _ _ _ _ _) as [[res st] seen]. reflexivity.
  - reflexivity.
Qed.


(** [main] from the planning stage on, for a run that reaches it. *)
Lemma main_plans (w : World) (lines : list string) (r i j t plan_raw : string) :
  plans w lines r i j t plan_raw ->
  main w (start lines)
  = match chains w r i j t (start (uncollected lines)) with
    | (res, st, seen) => (res, st, (collection_events ++ seen)%list)
    end.
Proof.
  intros (K & C & G & _). rewrite (main_collected _ _ _ _ _ _ K C).
  now rewrite G.
Qed.

Lemma main_repair_failed
  (w : World) (lines : list string) (r i j t plan_raw repaired_text : string) :
  plans w lines r i j t plan_raw ->
  unusable (room_of_main w) plan_raw ->
  repairs_to w plan_raw repaired_text ->
  unusable (room_of_repair w) repaired_text ->
  main w (start lines)
  = (inl tt, after_calls 2 (start (uncollected lines)),
     (collection_events
        ++ planning_events w r i j t plan_raw
        ++ escalation_events w plan_raw
        ++ map Decode (decode_attempts (room_of_repair w) repaired_text)
        ++ failure_events w plan_raw repaired_text)%list).
Proof.
  intros P U R V. rewrite (main_plans _ _ _ _ _ _ _ P).
  destruct P as (_ & _ & _ & H).
  now rewrite (chains_repair_failed w r i j t plan_raw _ (start (uncollected lines)) H U R V).
Qed.


Lemma not_usable (room : nat) (raw : string) :
  unusable room raw -> Json.truthy (parsed_data room raw) = true -> False.
Proof.
  intros [_ U] V. congruence.
Qed.

Lemma not_raising (room : nat) (raw : string) (e : Exn) :
  unusable room raw -> parse_result room raw = inr e -> False.
Proof.
  unfold unusable, returns. intros [U _] E. rewrite E in U. discriminate U.
Qed.

Lemma main_escalates
  (w : World) (lines : list string) (r i j t plan_raw : string) :
  plans w lines r i j t plan_raw ->
  unusable (room_of_main w) plan_raw ->
  exists rest,
    events_of (main w (start lines))
    = (collection_events
         ++ planning_events w r i j t plan_raw
         ++ escalation_events w plan_raw ++ rest)%list
    /\ filter is_repair (requests rest) = [].
Proof.
  intros P U. rewrite (main_plans _ _ _ _ _ _ _ P).
  destruct P as (_ & _ & _ & H).
  destruct (service w 1 (repair_request w plan_raw)) as [fixed|m] eqn:R.
  - destruct (parse_result_cases (room_of_repair w) fixed) as [[e E]|[V|V]].
    + rewrite (chains_repair_escapes w r i j t plan_raw _ (start (uncollected lines)) e H U R E).
      eexists. split; [reflexivity|].
      now rewrite requests_decodes.
    + rewrite (chains_repair_usable w r i j t plan_raw _ (start (uncollected lines)) H U R V).
      eexists. split; [reflexivity|].
      rewrite requests_app, requests_decodes, requests_saving.
      now destruct (dumpable w _).
    + rewrite (chains_repair_failed w r i j t plan_raw _ (start (uncollected lines)) H U R V).
      eexists. split; [reflexivity|].
      rewrite requests_app, requests_decodes. reflexivity.
  - rewrite (chains_repair_unavailable w r i j t plan_raw _ (start (uncollected lines)) H U R).
    exists []. split; [|reflexivity].
    unfold events_of, snd. now rewrite !app_nil_r.
Qed.

(** ** The repair escalation *)





Lemma decoded_usable (room : nat) (raw : string) (v : Json.JValue) :
  Json.loads room raw = inl v ->
  decode_attempts room raw = [raw]
  /\ returns room raw = true
  /\ parsed_data room raw = v
  /\ parse_error room raw = None.
Proof.
  intros H.
  unfold decode_attempts, returns, parsed_data, parse_error, parse_result.
  now rewrite (parse_direct _ _ _ H).
Qed.

Lemma attempt_model_repair_failed
  (room : nat) (client : OpenAI) (model broken_text repaired_text : string)
  (temperature top_p : Json.PyFloat) (max_tokens : Z) (st : State) :
  client (calls st)
    {| model := model; temperature := temperature; top_p := top_p;
       max_output_tokens := max_tokens; system := repair_system;
       user := repair_instruction ++ nl ++ nl ++ "BROKEN TEXT:" ++ nl
                 ++ broken_text |}
  = inl repaired_text ->
  unusable room repaired_text ->
  attempt_model_repair room client model broken_text temperature top_p
    max_tokens st
  = (inl (Json.JNull, Some (repair_failure room repaired_text)),
     after_calls 1 st,
     Request
       {| model := model; temperature := temperature; top_p := top_p;
          max_output_tokens := max_tokens; system := repair_system;
          user := repair_instruction ++ nl ++ nl ++ "BROKEN TEXT:" ++ nl
                    ++ broken_text |}
       :: map Decode (decode_attempts room repaired_text)).
Proof.
  intros R [V1 V2].
  unfold attempt_model_repair, bind, call_openai_responses, parse_in_run, ret.
  rewrite R. run_simpl. rewrite (parsed_pair _ _ V1), V2. run_simpl.
  unfold repair_failure. now rewrite !app_nil_r.
Qed.

(** ** Missing inputs *)

(** A text made of blanks is empty once stripped. *)
Lemma strip_blank (s : string) :
  (forall a, PyStr.contains a s = true -> PyStr.is_ascii_space a = true) ->
  PyStr.strip s = "".
Proof.
  intros B. unfold PyStr.strip.
  assert (L : PyStr.lstrip s = "").
  { induction s as [|a s IH]; [reflexivity|].
    simpl. rewrite (B a) by (simpl; now rewrite Ascii.eqb_refl).
    apply IH. intros a' H. apply B. simpl. rewrite H.
    now destruct (Ascii.eqb a a'). }
  now rewrite L.
Qed.

(** C6.  When the four inputs are collected and one of them is empty once
    trimmed, the run prints the missing-input message and ends normally,
    having sent no request. *)
Theorem missing_input_halts
  (w : World) (lines : list string) (r i j t : string) :
  has_api_key w = true ->
  collected lines = Some (r, i, j, t) ->
  r = "" \/ i = "" \/ j = "" \/ t = "" ->
  main w (start lines)
  = (inl tt, start (uncollected lines),
     (collection_events ++ [Stdout (missing_input_message ++ nl)])%list)
  /\ requests (events_of (main w (start lines))) = [].
Proof.
  intros K C E.
  assert (G : all_given r i j t = false).
  { unfold all_given.
    destruct E as [ -> | [ -> | [ -> | -> ] ] ]; simpl;
      rewrite ?andb_false_r; reflexivity. }
  rewrite (main_collected _ _ _ _ _ _ K C), G. split; reflexivity.
Qed.

Lemma missing_input_halts_witness :
  main (example_world [])
    (start ["Backend Engineer"; "   "; "Builds APIs."; ""; "Five years of Go."])
  = (inl tt, start [],
     (collection_events ++ [Stdout (missing_input_message ++ nl)])%list)
  /\ requests
       (events_of
          (main (example_world [])
             (start ["Backend Engineer"; "   "; "Builds APIs."; "";
                     "Five years of Go."]))) = [].
Proof.
  apply (@missing_input_halts (example_world [])
           ["Backend Engineer"; "   "; "Builds APIs."; ""; "Five years of Go."]
           "Backend Engineer" "" "Builds APIs." "Five years of Go.").
  - reflexivity.
  - vm_compute; reflexivity.
  - right; left; reflexivity.
Defined.

(** ** Falsy values *)

(** C10.  What decides is the truth value of the decoded data.  When the
    planning output decodes, without error, to a falsy value, the run goes
    on as after a failed parse: it announces the repair and sends the repair
    request.  When the repaired output decodes to a falsy value too, the
    repair returns no data and a failure message, whose parse error reads
    [None], and the run prints the failure and writes no file. *)
Theorem falsy_value_is_failure
  (w : World) (lines : list string) (r i j t plan_raw : string)
  (v : Json.JValue) :
  plans w lines r i j t plan_raw ->
  Json.loads (room_of_main w) plan_raw = inl v ->
  Json.truthy v = false ->
  (exists rest,
     events_of (main w (start lines))
     = (collection_events
          ++ planning_events w r i j t plan_raw
          ++ escalation_events w plan_raw ++ rest)%list)
  /\ (forall (repaired_text : string) (v' : Json.JValue),
        repairs_to w plan_raw repaired_text ->
        Json.loads (room_of_repair w) repaired_text = inl v' ->
        Json.truthy v' = false ->
        attempt_model_repair (room_of_repair w) (service w)
          (model (repair_request w plan_raw))
          plan_raw (arg_temperature (args w)) (arg_top_p (args w))
          (arg_max_tokens (args w)) (after_calls 1 (start (uncollected lines)))
        = (inl (Json.JNull,
                Some ("Repair attempt failed. Raw repair output:" ++ nl
                        ++ repaired_text ++ nl ++ nl ++ "Parse error: None")),
           after_calls 2 (start (uncollected lines)),
           [Request (repair_request w plan_raw); Decode repaired_text])
        /\ main w (start lines)
           = (inl tt, after_calls 2 (start (uncollected lines)),
              (collection_events
                 ++ planning_events w r i j t plan_raw
                 ++ escalation_events w plan_raw
                 ++ [Decode repaired_text]
                 ++ failure_events w plan_raw repaired_text)%list)
        /\ files_written (events_of (main w (start lines))) = []).
Proof.
  intros P H F.
  destruct (decoded_usable _ _ _ H) as (_ & Q & D & _).
  assert (U : unusable (room_of_main w) plan_raw)
    by (unfold unusable; now rewrite D).
  split.
  - destruct (main_escalates _ _ _ _ _ _ _ P U) as (rest & E & _). eauto.
  - intros repaired_text v' R H' F'.
    destruct (decoded_usable _ _ _ H') as (A' & Q' & D' & E').
    assert (V : unusable (room_of_repair w) repaired_text)
      by (unfold unusable; now rewrite D').
    repeat split.
    + etransitivity;
        [exact (attempt_model_repair_failed (room_of_repair w) (service w) _
                  plan_raw repaired_text _ _ _
                  (after_calls 1 (start (uncollected lines))) R V)|].
      unfold repair_failure. now rewrite A', E'.
    + rewrite (main_repair_failed _ _ _ _ _ _ _ _ P U R V). now rewrite A'.
    + rewrite (main_repair_failed _ _ _ _ _ _ _ _ P U R V).
      unfold events_of, snd.
      rewrite !files_written_app, files_written_planning,
        files_written_decodes.
      reflexivity.
Qed.

Lemma falsy_value_is_failure_witness :
  (exists rest,
     events_of (main (example_world [inl "{}"; inl "[]"]) (start example_console))
     = (collection_events
          ++ planning_events (example_world [inl "{}"; inl "[]"])
               "Backend Engineer" "Hiring Manager" "Builds APIs."
               "Five years of Go." "{}"
          ++ escalation_events (example_world [inl "{}"; inl "[]"]) "{}"
          ++ rest)%list)
  /\ main (example_world [inl "{}"; inl "[]"]) (start example_console)
     = (inl tt, after_calls 2 (start []),
        (collection_events
           ++ planning_events (example_world [inl "{}"; inl "[]"])
                "Backend Engineer" "Hiring Manager" "Builds APIs."
                "Five years of Go." "{}"
           ++ escalation_events (example_world [inl "{}"; inl "[]"]) "{}"
           ++ [Decode "[]"]
           ++ failure_events (example_world [inl "{}"; inl "[]"])
                "{}" "[]")%list).
Proof.
  destruct (@falsy_value_is_failure
              (example_world [inl "{}"; inl "[]"]) example_console
              "Backend Engineer" "Hiring Manager" "Builds APIs."
              "Five years of Go." "{}" (Json.JObj [])
              ltac:(repeat split; reflexivity) eq_refl eq_refl)
    as [A B].
  split; [exact A|].
  exact (proj1 (proj2 (B "[]" (Json.JArr []) eq_refl eq_refl eq_refl))).
Defined.

(** The falsy values a JSON text can decode to. *)
Lemma falsy_texts :
  Forall (fun raw => exists v, Json.loads script_room raw = inl v
                               /\ Json.truthy v = false)
    ["{}"; "[]"; "null"; "0"; "false"; lit "``"; "0.0"; "-0"; "1e-400"].
Proof.
  repeat constructor; eexists; split; vm_compute; reflexivity.
Qed.

(** ** Decoding what the encoder wrote *)

Section Decoding.

Import Json.



Lemma skip_ws_spaces (n : nat) (s : string) :
  skip_ws (spaces n ++ s) = skip_ws s.
Proof.
  induction n as [|n IH]; simpl; auto.
Qed.

Lemma skip_ws_item_open (indent : option nat) (level : nat) (s : string) :
  skip_ws (item_open indent level ++ s) = skip_ws s.
Proof.
  destruct indent as [n|]; [|reflexivity].
  apply (skip_ws_spaces _ s).
Qed.

Lemma skip_ws_item_close (indent : option nat) (level : nat) (s : string) :
  skip_ws (item_close indent level ++ s) = skip_ws s.
Proof.
  destruct indent as [n|]; [|reflexivity].
  apply (skip_ws_spaces _ s).
Qed.

(** One character of a string, as the encoder writes it and the scanner
    reads it back. *)
Lemma scanstring_escape_char
  (a t : ascii) (fuel : nat) (start tail : string) :
  scanstring (S fuel) start (escape_char a ++ String t tail)
  = prepend (String a "") (scanstring fuel start (String t tail)).
Proof.
  destruct a as [[|] [|] [|] [|] [|] [|] [|] [|]]; reflexivity.
Qed.

Lemma escape_char_length (a : ascii) : 1 <= String.length (escape_char a).
Proof.
  destruct a as [[|] [|] [|] [|] [|] [|] [|] [|]]; simpl; lia.
Qed.

Lemma scanstring_escape (s rest start : string) (fuel : nat) :
  String.length s < fuel ->
  scanstring fuel start (escape s ++ String dquote rest) = Ok s rest.
Proof.
  revert fuel. induction s as [|a s IH]; intros fuel L.
  - destruct fuel; [simpl in L; lia|]. reflexivity.
  - destruct fuel; [simpl in L; lia|]. simpl escape.
    rewrite app_assoc_s.
    destruct (escape s ++ String dquote rest) as [|t tail] eqn:E.
    + apply (f_equal String.length) in E. rewrite length_app in E.
      simpl in E. lia.
    + rewrite scanstring_escape_char, IH by (simpl in L; lia).
      reflexivity.
Qed.

(** Induction on a value that reaches into its lists. *)
Lemma JValue_induction (P : JValue -> Prop) :
  P JNull ->
  (forall b, P (JBool b)) ->
  (forall z, P (JInt z)) ->
  (forall f, P (JFloat f)) ->
  (forall s, P (JStr s)) ->
  (forall items, Forall P items -> P (JArr items)) ->
  (forall pairs, Forall (fun kv => P (snd kv)) pairs -> P (JObj pairs)) ->
  forall v, P v.
Proof.
  intros Hnull Hbool Hint Hfloat Hstr Harr Hobj.
  exact
    (fix IH (v : JValue) : P v :=
       match v with
       | JNull => Hnull
       | JBool b => Hbool b
       | JInt z => Hint z
       | JFloat f => Hfloat f
       | JStr s => Hstr s
       | JArr items =>
           Harr items
             ((fix go (l : list JValue) : Forall P l :=
                 match l with
                 | [] => Forall_nil P
                 | x :: l' => Forall_cons x (IH x) (go l')
                 end) items)
       | JObj pairs =>
           Hobj pairs
             ((fix go (l : list (string * JValue))
                 : Forall (fun kv => P (snd kv)) l :=
                 match l with
                 | [] => Forall_nil _
                 | kv :: l' =>
                     @Forall_cons _ (fun kv => P (snd kv)) kv l'
                       (IH (snd kv)) (go l')
                 end) pairs)
       end).
Qed.


Lemma textual_arr (items : list JValue) :
  textual (JArr items) = textual_items items.
Proof.
  induction items as [|x l IH]; [reflexivity|].
  simpl in *. now rewrite IH.
Qed.

Lemma textual_obj (pairs : list (string * JValue)) :
  textual (JObj pairs) = distinct (map fst pairs) && textual_members pairs.
Proof.
  simpl. f_equal.
  induction pairs as [|[k x] l IH]; [reflexivity|].
  simpl. now rewrite IH.
Qed.


Lemma weight_arr (items : list JValue) :
  weight (JArr items) = S (weight_items items).
Proof.
  reflexivity.
Qed.

Lemma nesting_arr (items : list JValue) :
  nesting (JArr items) = S (nesting_items items).
Proof.
  reflexivity.
Qed.

Lemma nesting_obj (pairs : list (string * JValue)) :
  nesting (JObj pairs) = S (nesting_members pairs).
Proof.
  simpl. f_equal. induction pairs as [|[k x] l IH]; simpl; congruence.
Qed.

Lemma weight_obj (pairs : list (string * JValue)) :
  weight (JObj pairs) = S (weight_members pairs).
Proof.
  simpl. f_equal. induction pairs as [|[k x] l IH]; simpl; auto.
Qed.

Section RoundTrip.

Variable repr : PyFloat -> string.
Variable indent : option nat.

Lemma encode_arr (level : nat) (x : JValue) (xs : list JValue) :
  encode repr indent level (JArr (x :: xs))
  = "[" ++ item_open indent level
      ++ encode repr indent (S level) x
      ++ encode_items repr indent level xs
      ++ item_close indent level ++ "]".
Proof.
  reflexivity.
Qed.

Lemma encode_obj (level : nat) (k : string) (x : JValue)
  (xs : list (string * JValue)) :
  encode repr indent level (JObj ((k, x) :: xs))
  = "{" ++ item_open indent level
      ++ encode_basestring k ++ ": " ++ encode repr indent (S level) x
      ++ encode_members repr indent level xs
      ++ item_close indent level ++ "}".
Proof.
  reflexivity.
Qed.

(** The first character of an encoded value starts a JSON value: it is no
    blank, closes no container and is not the first byte of a byte-order
    mark. *)
Lemma encode_head (level : nat) (v : JValue) :
  textual v = true ->
  exists c r,
    encode repr indent level v = String c r
    /\ is_ws c = false
    /\ Ascii.eqb c "]"%char = false
    /\ Ascii.eqb c "}"%char = false
    /\ Ascii.eqb (ascii_of_nat 239) c = false.
Proof.
  intros T.
  destruct v as [|[|]|z|f|s|[|x xs]|[|[k x] xs]]; try discriminate T;
    simpl; do 2 eexists; repeat split; reflexivity.
Qed.

Lemma skip_ws_encode (level : nat) (v : JValue) (s : string) :
  textual v = true ->
  skip_ws (encode repr indent level v ++ s) = encode repr indent level v ++ s.
Proof.
  intros T. destruct (encode_head level v T) as (c & r & -> & W & _).
  simpl. now rewrite W.
Qed.

End RoundTrip.

Lemma distinct_NoDup (l : list string) : distinct l = true <-> NoDup l.
Proof.
  induction l as [|k l IH]; simpl.
  - split; [constructor|reflexivity].
  - rewrite andb_true_iff, negb_true_iff, IH. split.
    + intros [N D]. constructor; [|assumption].
      intros I. assert (E : existsb (String.eqb k) l = true)
        by (apply existsb_exists; exists k; split;
            [assumption|apply String.eqb_refl]).
      congruence.
    + intros D. inversion D as [|? ? N D']; subst. split; [|assumption].
      destruct (existsb (String.eqb k) l) eqn:E; [|reflexivity].
      apply existsb_exists in E. destruct E as (k' & I & E).
      apply String.eqb_eq in E. now subst.
Qed.

Lemma dict_set_fresh (k : string) (v : JValue) (d : list (string * JValue)) :
  ~ In k (map fst d) -> dict_set k v d = (d ++ [(k, v)])%list.
Proof.
  induction d as [|[k' v'] d IH]; simpl; intros N; [reflexivity|].
  destruct (String.eqb_spec k' k) as [->|_]; [tauto|].
  now rewrite IH by tauto.
Qed.

Lemma escape_length (s : string) :
  String.length s <= String.length (escape s).
Proof.
  induction s as [|a s IH]; simpl; [lia|].
  rewrite length_app. pose proof (escape_char_length a). lia.
Qed.

(** One step of the scanner, by the character it stands at. *)
Lemma scan_once_string (fuel depth : nat) (r : string) :
  scan_once (S fuel) depth (String dquote r)
  = match scanstring (S (String.length r)) (String dquote r) r with
    | Ok str rest => Ok (JStr str) rest
    | Stop remaining => Stop remaining
    | Fail m remaining => raise_errmsg depth m remaining
    | Raise e => Raise e
    | Fuel => Fuel
    end.
Proof.
  reflexivity.
Qed.

Lemma scan_once_array (fuel depth : nat) (r : string) :
  scan_once (S fuel) (S depth) (String "["%char r)
  = match skip_ws r with
    | String c1 r1 =>
        if Ascii.eqb c1 "]"%char then Ok (JArr []) r1
        else parse_items fuel depth (String c1 r1) []
    | EmptyString => parse_items fuel depth "" []
    end.
Proof.
  reflexivity.
Qed.

Lemma scan_once_object (fuel depth : nat) (r : string) :
  scan_once (S fuel) (S depth) (String "{"%char r)
  = match skip_ws r with
    | String c1 r1 =>
        if Ascii.eqb c1 "}"%char then Ok (JObj []) r1
        else parse_members fuel depth (String c1 r1) []
    | EmptyString => parse_members fuel depth "" []
    end.
Proof.
  reflexivity.
Qed.

Lemma parse_items_step (fuel depth : nat) (s : string) (acc : list JValue) :
  parse_items (S fuel) depth s acc
  = match scan_once fuel depth s with
    | Ok v rest =>
        match skip_ws rest with
        | String c r =>
            if Ascii.eqb c "]"%char then Ok (JArr (acc ++ [v])) r
            else if Ascii.eqb c ","%char
            then parse_items fuel depth (skip_ws r) (acc ++ [v])
            else raise_errmsg depth "Expecting ',' delimiter" (String c r)
        | EmptyString => raise_errmsg depth "Expecting ',' delimiter" ""
        end
    | Stop remaining => Stop remaining
    | Fail m remaining => Fail m remaining
    | Raise e => Raise e
    | Fuel => Fuel
    end.
Proof.
  reflexivity.
Qed.

Lemma parse_members_step (fuel depth : nat) (r : string)
  (acc : list (string * JValue)) :
  parse_members (S fuel) depth (String dquote r) acc
  = match scanstring (S (String.length r)) (String dquote r) r with
    | Ok key r1 =>
        match skip_ws r1 with
        | String c2 r2 =>
            if Ascii.eqb c2 ":"%char then
              match scan_once fuel depth (skip_ws r2) with
              | Ok v r3 =>
                  match skip_ws r3 with
                  | String c4 r4 =>
                      if Ascii.eqb c4 "}"%char
                      then Ok (JObj (dict_set key v acc)) r4
                      else if Ascii.eqb c4 ","%char
                      then parse_members fuel depth (skip_ws r4)
                             (dict_set key v acc)
                      else raise_errmsg depth
                             "Expecting ',' delimiter" (String c4 r4)
                  | EmptyString =>
                      raise_errmsg depth "Expecting ',' delimiter" ""
                  end
              | Stop remaining => Stop remaining
              | Fail m remaining => Fail m remaining
              | Raise e => Raise e
              | Fuel => Fuel
              end
            else raise_errmsg depth "Expecting ':' delimiter" (String c2 r2)
        | EmptyString => raise_errmsg depth "Expecting ':' delimiter" ""
        end
    | Stop remaining => Stop remaining
    | Fail m remaining => raise_errmsg depth m remaining
    | Raise e => Raise e
    | Fuel => Fuel
    end.
Proof.
  reflexivity.
Qed.

(** An encoded string, read back as a key and as a value. *)
Lemma scanstring_basestring (s rest : string) :
  scanstring (S (String.length (escape s ++ String dquote rest)))
    (encode_basestring s ++ rest) (escape s ++ String dquote rest)
  = Ok s rest.
Proof.
  apply scanstring_escape.
  rewrite length_app. pose proof (escape_length s). simpl. lia.
Qed.

Lemma basestring_app (s rest : string) :
  encode_basestring s ++ rest
  = String dquote (escape s ++ String dquote rest).
Proof.
  unfold encode_basestring. simpl. now rewrite app_assoc_s.
Qed.

Lemma scan_basestring (fuel depth : nat) (s rest : string) :
  scan_once (S fuel) depth (encode_basestring s ++ rest) = Ok (JStr s) rest.
Proof.
  rewrite basestring_app, scan_once_string, <- basestring_app.
  now rewrite scanstring_basestring.
Qed.

Section RoundTrip.

Variable repr : PyFloat -> string.
Variable indent : option nat.


Lemma skip_ws_separator (level : nat) (s : string) :
  exists r,
    item_separator indent level ++ s = String ","%char r
    /\ skip_ws r = skip_ws s.
Proof.
  destruct indent as [n|]; simpl.
  - eexists. split; [reflexivity|]. apply (skip_ws_spaces _ s).
  - eexists. split; reflexivity.
Qed.

Lemma parse_items_encoded (xs : list JValue) :
  Forall (reads_back repr indent) xs ->
  forall (x : JValue) (acc : list JValue) (level fuel depth : nat)
         (rest : string),
    reads_back repr indent x ->
    textual x = true ->
    textual_items xs = true ->
    weight_items (x :: xs) <= fuel ->
    nesting_items (x :: xs) <= depth ->
    parse_items fuel depth
      (encode repr indent (S level) x
         ++ encode_items repr indent level xs
         ++ item_close indent level ++ "]" ++ rest) acc
    = Ok (JArr (acc ++ x :: xs)) rest.
Proof.
  induction 1 as [|y ys Hy Hys IH];
    intros x acc level fuel depth rest Hx Tx Txs W N.
  - destruct fuel as [|fuel]; [simpl in W; lia|].
    rewrite parse_items_step, (Hx Tx) by (simpl in W, N; lia).
    change (encode_items repr indent level []) with "".
    change ("" ++ item_close indent level ++ "]" ++ rest)
      with (item_close indent level ++ "]" ++ rest).
    rewrite skip_ws_item_close. reflexivity.
  - destruct fuel as [|fuel]; [simpl in W; lia|].
    rewrite parse_items_step, (Hx Tx) by (simpl in W, N; lia).
    change (encode_items repr indent level (y :: ys))
      with (item_separator indent level
              ++ encode repr indent (S level) y
              ++ encode_items repr indent level ys).
    rewrite !app_assoc_s.
    destruct (skip_ws_separator level
                (encode repr indent (S level) y
                   ++ encode_items repr indent level ys
                   ++ item_close indent level ++ "]" ++ rest))
      as (r & -> & Hs).
    simpl in Txs. apply andb_true_iff in Txs. destruct Txs as [Ty Tys].
    cbn [skip_ws is_ws]. change (is_ws ","%char) with false.
    cbv iota. change (Ascii.eqb ","%char "]"%char) with false.
    change (Ascii.eqb ","%char ","%char) with true. cbv iota.
    rewrite Hs, skip_ws_encode by assumption.
    rewrite (IH y (acc ++ [x])%list level fuel depth rest Hy Ty Tys)
      by (simpl in W, N |- *; lia).
    now rewrite <- app_assoc.
Qed.

Lemma parse_members_key (fuel depth : nat) (k tail : string)
  (acc : list (string * JValue)) :
  parse_members (S fuel) depth (encode_basestring k ++ ": " ++ tail) acc
  = match scan_once fuel depth (skip_ws tail) with
    | Ok v r3 =>
        match skip_ws r3 with
        | String c4 r4 =>
            if Ascii.eqb c4 "}"%char
            then Ok (JObj (dict_set k v acc)) r4
            else if Ascii.eqb c4 ","%char
            then parse_members fuel depth (skip_ws r4) (dict_set k v acc)
            else raise_errmsg depth "Expecting ',' delimiter" (String c4 r4)
        | EmptyString => raise_errmsg depth "Expecting ',' delimiter" ""
        end
    | Stop remaining => Stop remaining
    | Fail m remaining => Fail m remaining
    | Raise e => Raise e
    | Fuel => Fuel
    end.
Proof.
  rewrite basestring_app, parse_members_step, <- basestring_app.
  rewrite scanstring_basestring. reflexivity.
Qed.

Lemma parse_members_encoded (ps : list (string * JValue)) :
  Forall (fun kv => reads_back repr indent (snd kv)) ps ->
  forall (k : string) (x : JValue) (acc : list (string * JValue))
         (level fuel depth : nat) (rest : string),
    reads_back repr indent x ->
    textual x = true ->
    textual_members ps = true ->
    NoDup (map fst acc ++ k :: map fst ps) ->
    weight_members ((k, x) :: ps) <= fuel ->
    nesting_members ((k, x) :: ps) <= depth ->
    parse_members fuel depth
      (encode_basestring k ++ ": " ++ encode repr indent (S level) x
         ++ encode_members repr indent level ps
         ++ item_close indent level ++ "}" ++ rest) acc
    = Ok (JObj (acc ++ (k, x) :: ps)) rest.
Proof.
  induction 1 as [|[k' y] ys Hy Hys IH];
    intros k x acc level fuel depth rest Hx Tx Txs D W N.
  - destruct fuel as [|fuel]; [simpl in W; lia|].
    rewrite parse_members_key.
    rewrite skip_ws_encode, (Hx Tx) by (assumption || (simpl in W, N; lia)).
    change (encode_members repr indent level []) with "".
    change ("" ++ item_close indent level ++ "}" ++ rest)
      with (item_close indent level ++ "}" ++ rest).
    rewrite skip_ws_item_close.
    rewrite dict_set_fresh; [reflexivity|].
    apply NoDup_remove_2 in D. intros I. apply D, in_or_app. now left.
  - destruct fuel as [|fuel]; [simpl in W; lia|].
    rewrite parse_members_key.
    rewrite skip_ws_encode, (Hx Tx) by (assumption || (simpl in W, N; lia)).
    change (encode_members repr indent level ((k', y) :: ys))
      with (item_separator indent level
              ++ encode_basestring k' ++ ": "
              ++ encode repr indent (S level) y
              ++ encode_members repr indent level ys).
    rewrite !app_assoc_s.
    destruct (skip_ws_separator level
                (encode_basestring k' ++ ": "
                   ++ encode repr indent (S level) y
                   ++ encode_members repr indent level ys
                   ++ item_close indent level ++ "}" ++ rest))
      as (r & -> & Hs).
    simpl in Txs. apply andb_true_iff in Txs. destruct Txs as [Ty Tys].
    change (skip_ws (String ","%char r)) with (String ","%char r).
    cbv iota. change (Ascii.eqb ","%char "}"%char) with false.
    change (Ascii.eqb ","%char ","%char) with true. cbv iota.
    rewrite Hs.
    replace (skip_ws (encode_basestring k' ++ ": "
                        ++ encode repr indent (S level) y
                        ++ encode_members repr indent level ys
                        ++ item_close indent level ++ "}" ++ rest))
      with (encode_basestring k' ++ ": "
              ++ encode repr indent (S level) y
              ++ encode_members repr indent level ys
              ++ item_close indent level ++ "}" ++ rest)
      by (rewrite basestring_app; reflexivity).
    assert (F : ~ In k (map fst acc)).
    { apply NoDup_remove_2 in D. intros I. apply D, in_or_app. now left. }
    rewrite (dict_set_fresh _ _ _ F).
    rewrite (IH k' y (acc ++ [(k, x)])%list level fuel depth rest Hy Ty Tys).
    + now rewrite <- app_assoc.
    + rewrite map_app, <- app_assoc. exact D.
    + simpl in W |- *. lia.
    + simpl in N |- *. lia.
Qed.

(** Every value made of strings, booleans, [null], lists and dicts with
    distinct keys is read back from its encoding. *)
Lemma scan_once_encode (v : JValue) : reads_back repr indent v.
Proof.
  induction v as [|b|z|f|s|items IH|pairs IH] using JValue_induction;
    intros T level fuel depth rest W N; try discriminate T.
  - destruct fuel; [simpl in W; lia|]. reflexivity.
  - destruct fuel; [simpl in W; lia|]. now destruct b.
  - destruct fuel; [simpl in W; lia|]. apply scan_basestring.
  - rewrite weight_arr in W. destruct fuel as [|fuel]; [lia|].
    rewrite nesting_arr in N. destruct depth as [|depth]; [lia|].
    rewrite textual_arr in T.
    destruct items as [|x xs]; [reflexivity|].
    rewrite encode_arr. rewrite !app_assoc_s.
    change ("[" ++ item_open indent level
              ++ encode repr indent (S level) x
              ++ encode_items repr indent level xs
              ++ item_close indent level ++ "]" ++ rest)
      with (String "["%char
              (item_open indent level
                 ++ encode repr indent (S level) x
                 ++ encode_items repr indent level xs
                 ++ item_close indent level ++ "]" ++ rest)).
    rewrite scan_once_array, skip_ws_item_open.
    simpl in T. apply andb_true_iff in T. destruct T as [Tx Txs].
    inversion IH as [|? ? Hx Hxs]; subst.
    rewrite skip_ws_encode by assumption.
    pose proof (parse_items_encoded xs Hxs x [] level fuel depth rest
                  Hx Tx Txs) as R.
    destruct (encode_head repr indent (S level) x Tx)
      as (c & r & E & _ & B & _).
    rewrite E in R |- *. cbn [append]. rewrite B.
    apply R; [simpl in W |- *|simpl in N |- *]; lia.
  - rewrite weight_obj in W. destruct fuel as [|fuel]; [lia|].
    rewrite nesting_obj in N. destruct depth as [|depth]; [lia|].
    rewrite textual_obj in T. apply andb_true_iff in T.
    destruct T as [D T]. apply distinct_NoDup in D.
    destruct pairs as [|[k x] xs]; [reflexivity|].
    rewrite encode_obj. rewrite !app_assoc_s.
    change ("{" ++ item_open indent level
              ++ encode_basestring k ++ ": "
              ++ encode repr indent (S level) x
              ++ encode_members repr indent level xs
              ++ item_close indent level ++ "}" ++ rest)
      with (String "{"%char
              (item_open indent level
                 ++ encode_basestring k ++ ": "
                 ++ encode repr indent (S level) x
                 ++ encode_members repr indent level xs
                 ++ item_close indent level ++ "}" ++ rest)).
    rewrite scan_once_object, skip_ws_item_open.
    simpl in T. apply andb_true_iff in T. destruct T as [Tx Txs].
    inversion IH as [|? ? Hx Hxs]; subst.
    pose proof (parse_members_encoded xs Hxs k x [] level fuel depth rest
                  Hx Tx Txs D) as R.
    rewrite basestring_app in R |- *.
    cbn [skip_ws is_ws]. change (is_ws dquote) with false. cbv iota.
    change (Ascii.eqb dquote "}"%char) with false. cbv iota.
    apply R; [simpl in W |- *|simpl in N |- *]; lia.
Qed.

End RoundTrip.

Section Bound.

Variable repr : PyFloat -> string.
Variable indent : option nat.

Lemma item_separator_length (level : nat) :
  1 <= String.length (item_separator indent level).
Proof.
  destruct indent; simpl; lia.
Qed.

(** The fuel [loads] grants covers the weight of what it reads. *)
Lemma weight_bound (v : JValue) :
  textual v = true ->
  forall level : nat,
    weight v + 1 <= 2 * String.length (encode repr indent level v).
Proof.
  induction v as [|b|z|f|s|items IH|pairs IH] using JValue_induction;
    intros T level; try discriminate T.
  - simpl. lia.
  - destruct b; simpl; lia.
  - simpl. rewrite length_app. simpl. lia.
  - rewrite weight_arr. rewrite textual_arr in T.
    destruct items as [|x xs]; [simpl; lia|].
    rewrite encode_arr. simpl in T. apply andb_true_iff in T.
    destruct T as [Tx Txs]. inversion IH as [|? ? Hx Hxs]; subst.
    specialize (Hx Tx (S level)).
    assert (B : weight_items xs
                <= 2 * String.length (encode_items repr indent level xs)).
    { clear Hx Tx IH. induction Hxs as [|y ys Hy Hys IHys]; [simpl; lia|].
      simpl in Txs. apply andb_true_iff in Txs. destruct Txs as [Ty Tys].
      specialize (Hy Ty (S level)). specialize (IHys Tys).
      change (encode_items repr indent level (y :: ys))
        with (item_separator indent level
                ++ encode repr indent (S level) y
                ++ encode_items repr indent level ys).
      rewrite !length_app. pose proof (item_separator_length level).
      simpl weight_items. lia. }
    rewrite !length_app. simpl String.length at 1. simpl weight_items. lia.
  - rewrite weight_obj. rewrite textual_obj in T. apply andb_true_iff in T.
    destruct T as [_ T].
    destruct pairs as [|[k x] xs]; [simpl; lia|].
    rewrite encode_obj. simpl in T. apply andb_true_iff in T.
    destruct T as [Tx Txs]. inversion IH as [|? ? Hx Hxs]; subst.
    specialize (Hx Tx (S level)).
    assert (B : weight_members xs
                <= 2 * String.length (encode_members repr indent level xs)).
    { clear Hx Tx IH. induction Hxs as [|[k' y] ys Hy Hys IHys]; [simpl; lia|].
      simpl in Txs. apply andb_true_iff in Txs. destruct Txs as [Ty Tys].
      specialize (Hy Ty (S level)). specialize (IHys Tys).
      change (encode_members repr indent level ((k', y) :: ys))
        with (item_separator indent level
                ++ encode_basestring k' ++ ": "
                ++ encode repr indent (S level) y
                ++ encode_members repr indent level ys).
      rewrite !length_app. pose proof (item_separator_length level).
      simpl weight_members. simpl snd in *. lia. }
    rewrite !length_app. simpl String.length at 1. simpl weight_members.
    simpl snd in *. lia.
Qed.

(** What [json.dumps] writes for such a value, [json.loads] reads back as
    the same value, the keys of every dict in the same order, where it has
    room for the nesting of the value. *)
Lemma loads_dumps (depth : nat) (v : JValue) :
  textual v = true ->
  nesting v <= depth ->
  loads depth (dumps repr indent v) = inl v.
Proof.
  intros T N. unfold loads, dumps.
  pose proof (weight_bound v T 0) as B.
  pose proof (scan_once_encode repr indent v T 0
                (S (2 * String.length (encode repr indent 0 v))) depth "") as R.
  rewrite app_empty_r in R.
  destruct (encode_head repr indent 0 v T) as (c & r & E & Hw & _ & _ & Hb).
  rewrite E in *.
  unfold PyStr.startswith, bom. cbn [PyStr.strip_prefix]. rewrite Hb.
  cbn [skip_ws]. rewrite Hw, R by lia. reflexivity.
Qed.

End Bound.

End Decoding.

(** ** The scanner's recursion budget *)

(** Raising an error returns no value and uses up no budget. *)
Lemma raise_errmsg_value (A : Type) (depth : nat) (m remaining : string)
  (a : A) (rest : string) :
  Json.raise_errmsg depth m remaining = Json.Ok a rest -> False.
Proof.
  destruct depth as [|[|[|depth]]]; discriminate.
Qed.

Lemma raise_errmsg_budget (A : Type) (depth : nat) (m remaining : string) :
  @Json.raise_errmsg A depth m remaining <> Json.Fuel.
Proof.
  destruct depth as [|[|[|depth]]]; discriminate.
Qed.

Ltac no_value :=
  let F := fresh "F" in
  intros F; first [ discriminate F | now apply raise_errmsg_value in F ].

Ltac no_fuel := first [ discriminate | apply raise_errmsg_budget ].

Section Budget.

Import Json.

Lemma skip_ws_length (s : string) :
  String.length (skip_ws s) <= String.length s.
Proof.
  induction s as [|a s IH]; simpl; [lia|].
  destruct (is_ws a); simpl; lia.
Qed.

Lemma prepend_ok (p : string) (r : Res string) (a rest : string) :
  prepend p r = Ok a rest -> exists a', r = Ok a' rest.
Proof.
  destruct r; simpl; intros E; try discriminate E.
  injection E as _ <-. eauto.
Qed.

Lemma prepend_fuel (p : string) (r : Res string) :
  prepend p r = Fuel -> r = Fuel.
Proof.
  now destruct r.
Qed.

Lemma hex4_length (s r : string) (n : N) :
  hex4 s = Some (n, r) -> String.length s = 4 + String.length r.
Proof.
  destruct s as [|a1 [|a2 [|a3 [|a4 s]]]]; try discriminate.
  simpl. destruct (hex_value a1), (hex_value a2), (hex_value a3),
    (hex_value a4); try discriminate.
  intros E. injection E as _ <-. reflexivity.
Qed.

(** [scanstring] consumes what it reads, and a budget above the length of
    the text is never used up. *)
Lemma scanstring_rest (fuel : nat) (start s a rest : string) :
  scanstring fuel start s = Ok a rest ->
  String.length rest < String.length s.
Proof.
  revert s a. induction fuel as [|fuel IH]; intros s a; [discriminate|].
  destruct s as [|c r]; [discriminate|]. simpl.
  destruct (Ascii.eqb c dquote).
  { intros E. injection E as _ <-. lia. }
  destruct (Ascii.eqb c "\"%char).
  - destruct r as [|e r1]; [discriminate|].
    destruct (Ascii.eqb e "u"%char).
    + destruct (String.length r1 <=? 4)%nat; [discriminate|].
      destruct (hex4 r1) as [[cp r2]|] eqn:H4; [|discriminate].
      apply hex4_length in H4.
      assert (Single : forall x,
                 prepend (utf8 cp) (scanstring fuel start r2) = Ok x rest ->
                 String.length rest < String.length (String c (String e r1))).
      { intros x E. apply prepend_ok in E. destruct E as [a' E].
        apply IH in E. simpl. lia. }
      destruct (is_high_surrogate cp && (6 <? String.length r2)%nat);
        [|apply Single].
      destruct r2 as [|e1 [|e2 r3]]; try apply Single.
      destruct (Ascii.eqb e1 "\"%char && Ascii.eqb e2 "u"%char);
        [|apply Single].
      destruct (hex4 r3) as [[cp2 r4]|] eqn:H4'; [|discriminate].
      apply hex4_length in H4'.
      destruct (is_low_surrogate cp2); [|apply Single].
      intros E. apply prepend_ok in E. destruct E as [a' E].
      apply IH in E. simpl in *. lia.
    + destruct (unescape e); [|discriminate].
      intros E. apply prepend_ok in E. destruct E as [a' E].
      apply IH in E. simpl. lia.
  - destruct (nat_of_ascii c <=? 31)%nat; [discriminate|].
    intros E. apply prepend_ok in E. destruct E as [a' E].
    apply IH in E. simpl. lia.
Qed.

Lemma scanstring_budget (fuel : nat) (start s : string) :
  String.length s < fuel -> scanstring fuel start s <> Fuel.
Proof.
  revert s. induction fuel as [|fuel IH]; intros s L; [lia|].
  destruct s as [|c r]; [discriminate|]. simpl in L |- *.
  destruct (Ascii.eqb c dquote); [discriminate|].
  destruct (Ascii.eqb c "\"%char).
  - destruct r as [|e r1]; [discriminate|].
    destruct (Ascii.eqb e "u"%char).
    + destruct (String.length r1 <=? 4)%nat; [discriminate|].
      destruct (hex4 r1) as [[cp r2]|] eqn:H4; [|discriminate].
      apply hex4_length in H4.
      assert (Single : prepend (utf8 cp) (scanstring fuel start r2) <> Fuel).
      { intros E. apply prepend_fuel in E. revert E. apply IH.
        simpl in L. lia. }
      destruct (is_high_surrogate cp && (6 <? String.length r2)%nat);
        [|apply Single].
      destruct r2 as [|e1 [|e2 r3]]; try apply Single.
      destruct (Ascii.eqb e1 "\"%char && Ascii.eqb e2 "u"%char);
        [|apply Single].
      destruct (hex4 r3) as [[cp2 r4]|] eqn:H4'; [|discriminate].
      apply hex4_length in H4'.
      destruct (is_low_surrogate cp2); [|apply Single].
      intros E. apply prepend_fuel in E. revert E. apply IH.
      simpl in *. lia.
    + destruct (unescape e); [|discriminate].
      intros E. apply prepend_fuel in E. revert E. apply IH.
      simpl in L. lia.
  - destruct (nat_of_ascii c <=? 31)%nat; [discriminate|].
    intros E. apply prepend_fuel in E. revert E. apply IH. lia.
Qed.


Lemma span_digits_length (s : string) :
  String.length s
  = String.length (fst (span_digits s)) + String.length (snd (span_digits s)).
Proof.
  induction s as [|a s IH]; simpl; [reflexivity|].
  destruct (is_digit a); [|reflexivity].
  destruct (span_digits s) as [d rest]. simpl in *. lia.
Qed.

Lemma match_integer_rest (s d rest : string) :
  match_integer s = Some (d, rest) ->
  String.length rest < String.length s.
Proof.
  destruct s as [|a r]; [discriminate|]. unfold match_integer.
  destruct (Ascii.eqb a "0"%char).
  - intros E. injection E as _ <-. simpl. lia.
  - destruct (is_digit a) eqn:D; [|discriminate].
    intros E. injection E as E. simpl in E. rewrite D in E.
    pose proof (span_digits_length r) as L.
    destruct (span_digits r) as [d' rest'].
    injection E as _ <-. simpl in *. lia.
Qed.

Lemma match_fraction_rest (s d rest : string) :
  match_fraction s = Some (d, rest) ->
  String.length rest <= String.length s.
Proof.
  destruct s as [|a [|a1 r]]; try discriminate. unfold match_fraction.
  pose proof (span_digits_length (String a1 r)) as L.
  destruct (span_digits (String a1 r)) as [d' rest'].
  destruct (_ && _); [|discriminate].
  intros E. injection E as _ <-. simpl in L |- *. lia.
Qed.

Lemma match_exponent_rest (s rest : string) (x : Z) :
  match_exponent s = Some (x, rest) ->
  String.length rest <= String.length s.
Proof.
  destruct s as [|a r]; [discriminate|]. unfold match_exponent.
  destruct (_ || _); [|discriminate].
  assert (G : forall r1,
             String.length r1 <= String.length r ->
             forall negative : bool,
               match span_digits r1 with
               | (EmptyString, _) => None
               | (d, rest0) =>
                   Some (if negative
                         then (- Z.of_N (digits_value 0 d))%Z
                         else Z.of_N (digits_value 0 d), rest0)
               end = Some (x, rest) ->
               String.length rest <= String.length (String a r)).
  { intros r1 L negative.
    pose proof (span_digits_length r1) as S1.
    destruct (span_digits r1) as [[|c d] rest0]; [discriminate|].
    intros E. injection E as _ <-. simpl in *. lia. }
  destruct r as [|sg r'].
  - exact (G "" (le_n _) false).
  - destruct (Ascii.eqb sg "-"%char);
      [exact (G r' ltac:(simpl; lia) true)|].
    destruct (Ascii.eqb sg "+"%char);
      [exact (G r' ltac:(simpl; lia) false)
      |exact (G (String sg r') (le_n _) false)].
Qed.

Lemma match_number_rest (s rest : string) (v : JValue) :
  match_number s = Ok v rest -> String.length rest < String.length s.
Proof.
  unfold match_number.
  assert (Lp : String.length
                 (snd (match s with
                       | String a r =>
                           if Ascii.eqb a "-"%char then (true, r)
                           else (false, s)
                       | EmptyString => (false, s)
                       end)) <= String.length s).
  { destruct s as [|a r]; simpl; [lia|].
    destruct (Ascii.eqb a "-"%char); simpl; lia. }
  destruct (match s with
            | String a r =>
                if Ascii.eqb a "-"%char then (true, r) else (false, s)
            | EmptyString => (false, s)
            end) as [negative s1]. simpl in Lp.
  destruct (match_integer s1) as [[ds s2]|] eqn:I; [|discriminate].
  apply match_integer_rest in I.
  assert (L3 : String.length
                 (snd (match match_fraction s2 with
                       | Some (d, rest) => (Some d, rest)
                       | None => (None, s2)
                       end)) <= String.length s2).
  { destruct (match_fraction s2) as [[d r]|] eqn:F; simpl; [|lia].
    now apply match_fraction_rest in F. }
  destruct (match match_fraction s2 with
            | Some (d, rest) => (Some d, rest)
            | None => (None, s2)
            end) as [fd s3]. simpl in L3.
  assert (L4 : String.length
                 (snd (match match_exponent s3 with
                       | Some (x, rest) => (Some x, rest)
                       | None => (None, s3)
                       end)) <= String.length s3).
  { destruct (match_exponent s3) as [[x r]|] eqn:X; simpl; [|lia].
    now apply match_exponent_rest in X. }
  destruct (match match_exponent s3 with
            | Some (x, rest) => (Some x, rest)
            | None => (None, s3)
            end) as [ex s4]. simpl in L4.
  destruct fd, ex; try (intros E; injection E as _ <-; lia).
  destruct (_ <? _)%nat; [discriminate|].
  intros E; injection E as _ <-; lia.
Qed.

Lemma match_number_budget (s : string) : match_number s <> Fuel.
Proof.
  unfold match_number.
  destruct (match s with
            | String a r =>
                if Ascii.eqb a "-"%char then (true, r) else (false, s)
            | EmptyString => (false, s)
            end) as [negative s1].
  destruct (match_integer s1) as [[ds s2]|]; [|discriminate].
  destruct (match match_fraction s2 with
            | Some (d, rest) => (Some d, rest)
            | None => (None, s2)
            end) as [fd s3].
  destruct (match match_exponent s3 with
            | Some (x, rest) => (Some x, rest)
            | None => (None, s3)
            end) as [ex s4].
  destruct fd, ex; try discriminate.
  destruct (_ <? _)%nat; discriminate.
Qed.

Lemma strip_prefix_length (p s rest : string) :
  PyStr.strip_prefix p s = Some rest ->
  String.length s = String.length p + String.length rest.
Proof.
  revert s. induction p as [|a p IH]; intros s; simpl.
  - intros E. injection E as <-. reflexivity.
  - destruct s as [|c s]; [discriminate|].
    destruct (Ascii.eqb a c); [|discriminate].
    intros E. apply IH in E. simpl. lia.
Qed.


Lemma match_word_ok (word : string) (v : JValue) (s : string)
  (found : Res JValue) :
  match_word word v s = Some found ->
  exists rest,
    found = Ok v rest
    /\ String.length s = String.length word + String.length rest.
Proof.
  unfold match_word.
  destruct (PyStr.strip_prefix word s) as [rest|] eqn:E; [|discriminate].
  intros F. injection F as <-. exists rest. split; [reflexivity|].
  now apply strip_prefix_length.
Qed.

Ltac scalar_word H :=
  match type of H with
  | context [match_word ?w ?v ?s] =>
      let found := fresh "found" in
      let E := fresh "E" in
      destruct (match_word w v s) as [found|] eqn:E;
      [apply match_word_ok in E; destruct E as (? & -> & ?)|]
  end.

Lemma match_scalar_rest (depth : nat) (s rest : string) (v : JValue) :
  match_scalar depth s = Ok v rest -> String.length rest < String.length s.
Proof.
  unfold match_scalar, parse_constant. intros H.
  repeat (scalar_word H;
          [try (destruct depth; [discriminate H|]);
           injection H as _ <-; simpl in *; lia|]).
  now apply match_number_rest in H.
Qed.

Lemma match_scalar_budget (depth : nat) (s : string) :
  match_scalar depth s <> Fuel.
Proof.
  unfold match_scalar, parse_constant. intros H.
  repeat (scalar_word H; [try destruct depth; discriminate H|]).
  now apply match_number_budget in H.
Qed.

(** One step of [scan_once]. *)
Lemma scan_once_step (fuel depth : nat) (c : ascii) (r : string) :
  scan_once (S fuel) depth (String c r)
  = if Ascii.eqb c dquote then
      match scanstring (S (String.length r)) (String c r) r with
      | Ok str rest => Ok (JStr str) rest
      | Stop remaining => Stop remaining
      | Fail m remaining => raise_errmsg depth m remaining
      | Raise e => Raise e
      | Fuel => Fuel
      end
    else if Ascii.eqb c "{"%char then
      match depth with
      | O => Raise (too_deep "object")
      | S depth' =>
          match skip_ws r with
          | String c1 r1 =>
              if Ascii.eqb c1 "}"%char then Ok (JObj []) r1
              else parse_members fuel depth' (String c1 r1) []
          | EmptyString => parse_members fuel depth' "" []
          end
      end
    else if Ascii.eqb c "["%char then
      match depth with
      | O => Raise (too_deep "array")
      | S depth' =>
          match skip_ws r with
          | String c1 r1 =>
              if Ascii.eqb c1 "]"%char then Ok (JArr []) r1
              else parse_items fuel depth' (String c1 r1) []
          | EmptyString => parse_items fuel depth' "" []
          end
      end
    else match_scalar depth (String c r).
Proof.
  reflexivity.
Qed.

Lemma parse_members_unfold (fuel depth : nat) (c : ascii) (r : string)
  (acc : list (string * JValue)) :
  parse_members (S fuel) depth (String c r) acc
  = if Ascii.eqb c dquote then
      match scanstring (S (String.length r)) (String c r) r with
      | Ok key r1 =>
          match skip_ws r1 with
          | String c2 r2 =>
              if Ascii.eqb c2 ":"%char then
                match scan_once fuel depth (skip_ws r2) with
                | Ok v r3 =>
                    match skip_ws r3 with
                    | String c4 r4 =>
                        if Ascii.eqb c4 "}"%char
                        then Ok (JObj (dict_set key v acc)) r4
                        else if Ascii.eqb c4 ","%char
                        then parse_members fuel depth (skip_ws r4)
                               (dict_set key v acc)
                        else raise_errmsg depth
                               "Expecting ',' delimiter" (String c4 r4)
                    | EmptyString =>
                        raise_errmsg depth "Expecting ',' delimiter" ""
                    end
                | Stop remaining => Stop remaining
                | Fail m remaining => Fail m remaining
                | Raise e => Raise e
                | Fuel => Fuel
                end
              else raise_errmsg depth "Expecting ':' delimiter" (String c2 r2)
          | EmptyString => raise_errmsg depth "Expecting ':' delimiter" ""
          end
      | Stop remaining => Stop remaining
      | Fail m remaining => raise_errmsg depth m remaining
      | Raise e => Raise e
      | Fuel => Fuel
      end
    else raise_errmsg depth
           "Expecting property name enclosed in double quotes" (String c r).
Proof.
  reflexivity.
Qed.

Lemma parse_members_empty (fuel depth : nat) (acc : list (string * JValue)) :
  parse_members (S fuel) depth "" acc
  = raise_errmsg depth
      "Expecting property name enclosed in double quotes" "".
Proof.
  reflexivity.
Qed.

(** Whatever the scanner returns as a value, it has consumed some text. *)
Lemma scan_consumes (fuel : nat) :
  (forall depth s v rest,
     scan_once fuel depth s = Ok v rest ->
     String.length rest < String.length s)
  /\ (forall depth s acc v rest,
        parse_items fuel depth s acc = Ok v rest ->
        String.length rest < String.length s)
  /\ (forall depth s acc v rest,
        parse_members fuel depth s acc = Ok v rest ->
        String.length rest < String.length s).
Proof.
  induction fuel as [|fuel (IHs & IHi & IHm)];
    [repeat split; discriminate|].
  repeat split.
  - intros depth [|c r] v rest; [discriminate|]. rewrite scan_once_step.
    destruct (Ascii.eqb c dquote).
    { destruct (scanstring _ _ r) as [str rest'| | | |] eqn:E;
        try no_value.
      apply scanstring_rest in E. intros F. injection F as _ <-.
      simpl. lia. }
    destruct (Ascii.eqb c "{"%char).
    { destruct depth as [|depth]; [discriminate|].
      pose proof (skip_ws_length r) as L.
      destruct (skip_ws r) as [|c1 r1].
      - intros F. apply IHm in F. simpl in F. lia.
      - destruct (Ascii.eqb c1 "}"%char).
        + intros F. injection F as _ <-. simpl in *. lia.
        + intros F. apply IHm in F. simpl in *. lia. }
    destruct (Ascii.eqb c "["%char).
    { destruct depth as [|depth]; [discriminate|].
      pose proof (skip_ws_length r) as L.
      destruct (skip_ws r) as [|c1 r1].
      - intros F. apply IHi in F. simpl in F. lia.
      - destruct (Ascii.eqb c1 "]"%char).
        + intros F. injection F as _ <-. simpl in *. lia.
        + intros F. apply IHi in F. simpl in *. lia. }
    apply match_scalar_rest.
  - intros depth s acc v rest. rewrite parse_items_step.
    destruct (scan_once fuel depth s) as [x r| | | |] eqn:E;
      try discriminate.
    apply IHs in E. pose proof (skip_ws_length r) as L.
    destruct (skip_ws r) as [|c r']; [no_value|].
    destruct (Ascii.eqb c "]"%char).
    + intros F. injection F as _ <-. simpl in *. lia.
    + destruct (Ascii.eqb c ","%char); [|no_value].
      intros F. apply IHi in F. pose proof (skip_ws_length r').
      simpl in *. lia.
  - intros depth [|c r] acc v rest;
      [rewrite parse_members_empty; no_value|].
    rewrite parse_members_unfold.
    destruct (Ascii.eqb c dquote); [|no_value].
    destruct (scanstring _ _ r) as [key r1| | | |] eqn:E; try no_value.
    apply scanstring_rest in E. pose proof (skip_ws_length r1) as L1.
    destruct (skip_ws r1) as [|c2 r2]; [no_value|].
    destruct (Ascii.eqb c2 ":"%char); [|no_value].
    pose proof (skip_ws_length r2) as L2.
    destruct (scan_once fuel depth (skip_ws r2)) as [x r3| | | |] eqn:E3;
      try discriminate.
    apply IHs in E3. pose proof (skip_ws_length r3) as L3.
    destruct (skip_ws r3) as [|c4 r4]; [no_value|].
    destruct (Ascii.eqb c4 "}"%char).
    + intros F. injection F as _ <-. simpl in *. lia.
    + destruct (Ascii.eqb c4 ","%char); [|no_value].
      intros F. apply IHm in F. pose proof (skip_ws_length r4).
      simpl in *. lia.
Qed.

(** With twice the length of the text and one more, the scanner never
    uses up its budget, whatever room it has. *)
Lemma scan_budget (fuel : nat) :
  (forall depth s,
     2 * String.length s < fuel -> scan_once fuel depth s <> Fuel)
  /\ (forall depth s acc,
        2 * String.length s + 1 < fuel ->
        parse_items fuel depth s acc <> Fuel)
  /\ (forall depth s acc,
        2 * String.length s + 1 < fuel ->
        parse_members fuel depth s acc <> Fuel).
Proof.
  induction fuel as [|fuel (IHs & IHi & IHm)]; [repeat split; intros; lia|].
  repeat split.
  - intros depth [|c r] B; [discriminate|]. rewrite scan_once_step.
    simpl in B.
    destruct (Ascii.eqb c dquote).
    { pose proof (scanstring_budget (S (String.length r)) (String c r) r
                    (Nat.lt_succ_diag_r _)) as N.
      destruct (scanstring _ _ r); try congruence; no_fuel. }
    destruct (Ascii.eqb c "{"%char).
    { destruct depth as [|depth]; [discriminate|].
      pose proof (skip_ws_length r) as L.
      destruct (skip_ws r) as [|c1 r1].
      - apply IHm. simpl. lia.
      - destruct (Ascii.eqb c1 "}"%char); [discriminate|].
        apply IHm. simpl in *. lia. }
    destruct (Ascii.eqb c "["%char).
    { destruct depth as [|depth]; [discriminate|].
      pose proof (skip_ws_length r) as L.
      destruct (skip_ws r) as [|c1 r1].
      - apply IHi. simpl. lia.
      - destruct (Ascii.eqb c1 "]"%char); [discriminate|].
        apply IHi. simpl in *. lia. }
    apply match_scalar_budget.
  - intros depth s acc B. rewrite parse_items_step.
    pose proof (IHs depth s ltac:(lia)) as N.
    destruct (scan_once fuel depth s) as [x r| | | |] eqn:E;
      try discriminate; [|contradiction].
    apply (proj1 (scan_consumes fuel)) in E.
    pose proof (skip_ws_length r) as L.
    destruct (skip_ws r) as [|c r']; [no_fuel|].
    destruct (Ascii.eqb c "]"%char); [discriminate|].
    destruct (Ascii.eqb c ","%char); [|no_fuel].
    apply IHi. pose proof (skip_ws_length r'). simpl in *. lia.
  - intros depth [|c r] acc B;
      [rewrite parse_members_empty; no_fuel|].
    rewrite parse_members_unfold.
    destruct (Ascii.eqb c dquote); [|no_fuel].
    pose proof (scanstring_budget (S (String.length r)) (String c r) r
                  (Nat.lt_succ_diag_r _)) as N.
    destruct (scanstring _ _ r) as [key r1| | | |] eqn:E;
      try no_fuel; [|contradiction].
    apply scanstring_rest in E. pose proof (skip_ws_length r1) as L1.
    destruct (skip_ws r1) as [|c2 r2]; [no_fuel|].
    destruct (Ascii.eqb c2 ":"%char); [|no_fuel].
    pose proof (skip_ws_length r2) as L2.
    pose proof (IHs depth (skip_ws r2) ltac:(simpl in *; lia)) as N3.
    destruct (scan_once fuel depth (skip_ws r2)) as [x r3| | | |] eqn:E3;
      try discriminate; [|contradiction].
    apply (proj1 (scan_consumes fuel)) in E3.
    pose proof (skip_ws_length r3) as L3.
    destruct (skip_ws r3) as [|c4 r4]; [no_fuel|].
    destruct (Ascii.eqb c4 "}"%char); [discriminate|].
    destruct (Ascii.eqb c4 ","%char); [|no_fuel].
    apply IHm. pose proof (skip_ws_length r4). simpl in *. lia.
Qed.

(** [loads] never falls back on its last case: its outcome is that of
    the scanner. *)
Lemma loads_budget (depth : nat) (s : string) :
  scan_once (S (2 * String.length s)) depth (skip_ws s) <> Fuel.
Proof.
  apply (proj1 (scan_budget _)).
  pose proof (skip_ws_length s). lia.
Qed.

(** *** What the decoder raises *)

Lemma prepend_raise (p : string) (r : Json.Res string) (e : Exn) :
  Json.prepend p r = Json.Raise e -> r = Json.Raise e.
Proof.
  destruct r; simpl; congruence.
Qed.

Lemma scanstring_no_raise (fuel : nat) :
  forall (start s : string) (e : Exn),
    Json.scanstring fuel start s <> Json.Raise e.
Proof.
  induction fuel as [|fuel IH]; intros start s e; [discriminate|].
  destruct s as [|c r]; [discriminate|]. simpl.
  destruct (Ascii.eqb c dquote); [discriminate|].
  destruct (Ascii.eqb c "\"%char).
  - destruct r as [|e0 r1]; [discriminate|].
    destruct (Ascii.eqb e0 "u"%char).
    + destruct (String.length r1 <=? 4)%nat; [discriminate|].
      destruct (Json.hex4 r1) as [[cp r2]|]; [|discriminate].
      assert (Single : Json.prepend (Json.utf8 cp)
                         (Json.scanstring fuel start r2) <> Json.Raise e).
      { intros E. apply prepend_raise in E. exact (IH _ _ _ E). }
      destruct (Json.is_high_surrogate cp && (6 <? String.length r2)%nat);
        [|apply Single].
      destruct r2 as [|e1 [|e2 r3]]; try apply Single.
      destruct (Ascii.eqb e1 "\"%char && Ascii.eqb e2 "u"%char);
        [|apply Single].
      destruct (Json.hex4 r3) as [[cp2 r4]|]; [|discriminate].
      destruct (Json.is_low_surrogate cp2); [|apply Single].
      intros E. apply prepend_raise in E. exact (IH _ _ _ E).
    + destruct (Json.unescape e0); [|discriminate].
      intros E. apply prepend_raise in E. exact (IH _ _ _ E).
  - destruct (nat_of_ascii c <=? 31)%nat; [discriminate|].
    intros E. apply prepend_raise in E. exact (IH _ _ _ E).
Qed.

Lemma raise_errmsg_raises (A : Type) (depth : nat) (m remaining : string)
  (e : Exn) :
  @Json.raise_errmsg A depth m remaining = Json.Raise e ->
  is_decoder_exception e = true.
Proof.
  destruct depth as [|[|[|depth]]]; intros E; try discriminate E;
    injection E as <-; reflexivity.
Qed.

Lemma match_number_raises (s : string) (e : Exn) :
  Json.match_number s = Json.Raise e -> is_decoder_exception e = true.
Proof.
  unfold Json.match_number.
  destruct (match s with
            | String a r =>
                if Ascii.eqb a "-"%char then (true, r) else (false, s)
            | EmptyString => (false, s)
            end) as [negative s1].
  destruct (Json.match_integer s1) as [[ds s2]|]; [|discriminate].
  destruct (match Json.match_fraction s2 with
            | Some (d, rest) => (Some d, rest)
            | None => (None, s2)
            end) as [fd s3].
  destruct (match Json.match_exponent s3 with
            | Some (x, rest) => (Some x, rest)
            | None => (None, s3)
            end) as [ex s4].
  destruct fd, ex; try discriminate.
  destruct (_ <? _)%nat; [|discriminate].
  intros E. injection E as <-. reflexivity.
Qed.

Lemma match_scalar_raises (depth : nat) (s : string) (e : Exn) :
  Json.match_scalar depth s = Json.Raise e -> is_decoder_exception e = true.
Proof.
  unfold Json.match_scalar, Json.parse_constant. intros H.
  repeat (scalar_word H;
          [try (destruct depth; [injection H as <-; reflexivity|]);
           discriminate H|]).
  now apply match_number_raises in H.
Qed.

(** Besides its own decode error, the decoder raises a [ValueError] or a
    [RecursionError] only. *)
Lemma scan_raises (fuel : nat) :
  (forall depth s e,
     Json.scan_once fuel depth s = Json.Raise e ->
     is_decoder_exception e = true)
  /\ (forall depth s acc e,
        Json.parse_items fuel depth s acc = Json.Raise e ->
        is_decoder_exception e = true)
  /\ (forall depth s acc e,
        Json.parse_members fuel depth s acc = Json.Raise e ->
        is_decoder_exception e = true).
Proof.
  induction fuel as [|fuel (IHs & IHi & IHm)];
    [repeat split; discriminate|].
  assert (R : forall (A : Type) depth m remaining e,
             @Json.raise_errmsg A depth m remaining = Json.Raise e ->
             is_decoder_exception e = true)
    by exact raise_errmsg_raises.
  repeat split.
  - intros depth [|c r] e; [discriminate|]. rewrite scan_once_step.
    destruct (Ascii.eqb c dquote).
    { pose proof (scanstring_no_raise (S (String.length r)) (String c r) r)
        as N.
      destruct (Json.scanstring _ _ r) as [str rest'| | | |];
        try discriminate; [apply R|].
      intros E. exfalso. exact (N _ eq_refl). }
    destruct (Ascii.eqb c "{"%char).
    { destruct depth as [|depth];
        [intros E; injection E as <-; reflexivity|].
      destruct (Json.skip_ws r) as [|c1 r1]; [apply IHm|].
      destruct (Ascii.eqb c1 "}"%char); [discriminate|apply IHm]. }
    destruct (Ascii.eqb c "["%char).
    { destruct depth as [|depth];
        [intros E; injection E as <-; reflexivity|].
      destruct (Json.skip_ws r) as [|c1 r1]; [apply IHi|].
      destruct (Ascii.eqb c1 "]"%char); [discriminate|apply IHi]. }
    apply match_scalar_raises.
  - intros depth s acc e. rewrite parse_items_step.
    destruct (Json.scan_once fuel depth s) as [x r| | |e'|] eqn:E;
      try discriminate.
    + destruct (Json.skip_ws r) as [|c r']; [apply R|].
      destruct (Ascii.eqb c "]"%char); [discriminate|].
      destruct (Ascii.eqb c ","%char); [apply IHi|apply R].
    + intros F. injection F as <-. exact (IHs _ _ _ E).
  - intros depth [|c r] acc e; [rewrite parse_members_empty; apply R|].
    rewrite parse_members_unfold.
    destruct (Ascii.eqb c dquote); [|apply R].
    pose proof (scanstring_no_raise (S (String.length r)) (String c r) r)
      as N.
    destruct (Json.scanstring _ _ r) as [key r1| | | |];
      try discriminate; [|apply R|intros E; exfalso; exact (N _ eq_refl)].
    destruct (Json.skip_ws r1) as [|c2 r2]; [apply R|].
    destruct (Ascii.eqb c2 ":"%char); [|apply R].
    destruct (Json.scan_once fuel depth (Json.skip_ws r2))
      as [x r3| | |e'|] eqn:E3; try discriminate.
    + destruct (Json.skip_ws r3) as [|c4 r4]; [apply R|].
      destruct (Ascii.eqb c4 "}"%char); [discriminate|].
      destruct (Ascii.eqb c4 ","%char); [apply IHm|apply R].
    + intros F. injection F as <-. exact (IHs _ _ _ E3).
Qed.

Lemma loads_raises (room : nat) (s : string) (e : Exn) :
  Json.loads room s = inr (Json.Uncaught e) ->
  is_decoder_exception e = true.
Proof.
  unfold Json.loads.
  destruct (PyStr.startswith s Json.bom); [discriminate|].
  destruct (Json.scan_once _ _ _) as [x rest| | |e'|] eqn:E;
    try discriminate.
  - destruct (Json.skip_ws rest); [discriminate|].
    destruct room; [|discriminate].
    intros F. injection F as <-. reflexivity.
  - destruct room as [|[|room]]; try discriminate;
      intros F; injection F as <-; reflexivity.
  - intros F. injection F as <-.
    exact (proj1 (scan_raises _) _ _ _ E).
Qed.

(** So does the parser. *)
Lemma parse_raises_kind (room : nat) (raw : string) (e : Exn) :
  parse_result room raw = inr e -> is_decoder_exception e = true.
Proof.
  unfold parse_result, try_parse_json_once. fold (candidate_of raw).
  destruct (Json.loads room raw) as [v|[e1|e']] eqn:L; simpl;
    try discriminate.
  - destruct (_ && _); simpl; [|discriminate].
    destruct (Json.loads room (candidate_of raw)) as [v|[e2|e']] eqn:L2;
      simpl; try discriminate.
    intros F. replace e with e' by congruence.
    exact (loads_raises _ _ _ L2).
  - intros F. replace e with e' by congruence.
    exact (loads_raises _ _ _ L).
Qed.

End Budget.


(** ** Plans that parse *)

Lemma has_key_nonempty (k : string) (pairs : list (string * Json.JValue)) :
  Json.has_key k pairs = true -> Json.truthy (Json.JObj pairs) = true.
Proof.
  now destruct pairs.
Qed.

(** C2.  A text that decodes to a record with the three keys is returned
    as decoded after a single decode, that of the text itself, the
    substring heuristic not being tried; and a run whose planning output is
    such a text sends no repair request: it sends the planning request and,
    once [plan.json] is written, the answering request for that record.
    Such a text is what [json.dumps] writes for the record, with any
    indentation, when the record is made of texts, lists and records and
    the decoder has room for its nesting. *)
Theorem valid_plan_first_attempt
  (room : nat) (raw : string) (pairs : list (string * Json.JValue)) :
  Json.loads room raw = inl (Json.JObj pairs) ->
  Json.has_key "steps" pairs = true ->
  Json.has_key "assumptions" pairs = true ->
  Json.has_key "success_criteria" pairs = true ->
  try_parse_json_once room raw = ([raw], inl (Json.JObj pairs, None))
  /\ (forall (w : World) (lines : list string) (r i j t : string),
        room_of_main w = room ->
        plans w lines r i j t raw ->
        repairs (events_of (main w (start lines))) = 0
        /\ requests (events_of (main w (start lines)))
           = planner_request w r i j t
               :: (if dumpable w (Json.JObj pairs)
                   then [answer_request w r i j t (Json.JObj pairs)]
                   else []))
  /\ (forall (repr : Json.PyFloat -> string) (indent : option nat),
        textual (Json.JObj pairs) = true ->
        nesting (Json.JObj pairs) <= room ->
        Json.loads room (Json.dumps repr indent (Json.JObj pairs))
        = inl (Json.JObj pairs)).
Proof.
  intros H K1 _ _. split; [apply parse_direct, H|].
  split; [|intros repr indent T N; now apply loads_dumps].
  intros w lines r i j t <- P.
  destruct (decoded_usable _ _ _ H) as (A & _ & D & _).
  assert (U : Json.truthy (parsed_data (room_of_main w) raw) = true)
    by (rewrite D; apply (has_key_nonempty _ _ K1)).
  rewrite (main_plans _ _ _ _ _ _ _ P).
  destruct P as (_ & _ & _ & Q).
  rewrite (chains_plan_usable w r i j t raw (start (uncollected lines)) Q U).
  unfold repairs, events_of, snd.
  rewrite !requests_app, requests_collection, requests_planning,
    requests_saving, D.
  cbn [app filter]. rewrite planner_is_not_repair.
  destruct (dumpable w (Json.JObj pairs)); cbn [filter];
    rewrite ?answer_is_not_repair; split; reflexivity.
Qed.

Lemma valid_plan_first_attempt_witness :
  try_parse_json_once script_room
    (lit "{`steps`: [`Read the role`], `assumptions`: [], `success_criteria`: [`Ten questions`]}")
  = ([lit "{`steps`: [`Read the role`], `assumptions`: [], `success_criteria`: [`Ten questions`]}"],
     inl (Json.JObj [("steps", Json.JArr [Json.JStr "Read the role"]);
                     ("assumptions", Json.JArr []);
                     ("success_criteria", Json.JArr [Json.JStr "Ten questions"])],
          None))
  /\ repairs
       (events_of
          (main
             (example_world
                [inl (lit "{`steps`: [`Read the role`], `assumptions`: [], `success_criteria`: [`Ten questions`]}");
                 inl "# Questions"])
             (start example_console))) = 0.
Proof.
  destruct (@valid_plan_first_attempt script_room
              (lit "{`steps`: [`Read the role`], `assumptions`: [], `success_criteria`: [`Ten questions`]}")
              [("steps", Json.JArr [Json.JStr "Read the role"]);
               ("assumptions", Json.JArr []);
               ("success_criteria", Json.JArr [Json.JStr "Ten questions"])]
              ltac:(vm_compute; reflexivity) eq_refl eq_refl eq_refl)
    as (A & B & _).
  split; [exact A|].
  apply (B (example_world
              [inl (lit "{`steps`: [`Read the role`], `assumptions`: [], `success_criteria`: [`Ten questions`]}");
               inl "# Questions"])
           example_console "Backend Engineer" "Hiring Manager"
           "Builds APIs." "Five years of Go." eq_refl).
  repeat split; reflexivity.
Defined.

(** ** The layout of the plan file *)

Section Layout.

Variable repr : Json.PyFloat -> string.

Lemma concat_cons (s x y : string) (l : list string) :
  String.concat s (x :: y :: l) = x ++ s ++ String.concat s (y :: l).
Proof.
  reflexivity.
Qed.

Lemma concat_app (s : string) (a b : list string) :
  a <> [] -> b <> [] ->
  String.concat s (a ++ b) = String.concat s a ++ s ++ String.concat s b.
Proof.
  intros A B. induction a as [|x [|y a] IH]; [contradiction| |].
  - destruct b as [|z b]; [contradiction|]. reflexivity.
  - change ((x :: y :: a) ++ b)%list with (x :: y :: (a ++ b))%list.
    rewrite !concat_cons.
    change (y :: (a ++ b))%list with ((y :: a) ++ b)%list.
    rewrite IH by discriminate. now rewrite !app_assoc_s.
Qed.

Lemma suffix_last_nonempty (suffix : string) (lines : list string) :
  lines <> [] -> suffix_last suffix lines <> [].
Proof.
  destruct lines as [|x [|y l]]; [contradiction|discriminate|discriminate].
Qed.

Lemma concat_suffix_last (s suffix : string) (lines : list string) :
  lines <> [] ->
  String.concat s (suffix_last suffix lines)
  = String.concat s lines ++ suffix.
Proof.
  intros N. induction lines as [|x [|y l] IH]; [contradiction|reflexivity|].
  change (suffix_last suffix (x :: y :: l))
    with (x :: suffix_last suffix (y :: l)).
  pose proof (suffix_last_nonempty suffix (y :: l) ltac:(discriminate)) as M.
  destruct (suffix_last suffix (y :: l)) as [|z l'] eqn:E; [contradiction|].
  rewrite !concat_cons, IH by discriminate.
  now rewrite !app_assoc_s.
Qed.

Lemma concat_prefix_first (s prefix : string) (lines : list string) :
  lines <> [] ->
  String.concat s (prefix_first prefix lines)
  = prefix ++ String.concat s lines.
Proof.
  destruct lines as [|x [|y l]]; [contradiction|reflexivity|].
  intros _. unfold prefix_first. rewrite !concat_cons.
  now rewrite app_assoc_s.
Qed.

Lemma spaces_app (n m : nat) :
  Json.spaces n ++ Json.spaces m = Json.spaces (n + m).
Proof.
  induction n as [|n IH]; [reflexivity|].
  unfold Json.spaces in *. simpl. now rewrite IH.
Qed.

Lemma sep_deeper (level : nat) (s : string) :
  line_start level ++ "  " ++ s = line_start (S level) ++ s.
Proof.
  unfold line_start. rewrite !app_assoc_s. f_equal.
  rewrite <- !app_assoc_s. f_equal.
  change "  " with (Json.spaces 2). rewrite spaces_app. f_equal. lia.
Qed.

Lemma concat_indented (level : nat) (lines : list string) :
  lines <> [] ->
  String.concat (line_start level) (indented lines)
  = "  " ++ String.concat (line_start (S level)) lines.
Proof.
  intros N. induction lines as [|x [|y l] IH]; [contradiction|reflexivity|].
  change (indented (x :: y :: l))
    with (("  " ++ x) :: ("  " ++ y) :: indented l).
  rewrite !concat_cons.
  change (("  " ++ y) :: indented l) with (indented (y :: l)).
  rewrite IH by discriminate.
  rewrite sep_deeper. now rewrite !app_assoc_s.
Qed.

Lemma stack_nonempty (block : list string) (more : list (list string)) :
  block <> [] -> stack (block :: more) <> [].
Proof.
  intros N. destruct more as [|b more]; [exact N|].
  change (stack (block :: b :: more))
    with (suffix_last "," block ++ stack (b :: more))%list.
  intros E. apply app_eq_nil in E. destruct E as [E _].
  exact (suffix_last_nonempty _ _ N E).
Qed.

Lemma layout_nonempty (v : Json.JValue) : layout repr v <> [].
Proof.
  destruct v as [|[|]|z|f|s|[|x xs]|[|[k x] xs]]; discriminate.
Qed.

Lemma layout_arr (x : Json.JValue) (xs : list Json.JValue) :
  layout repr (Json.JArr (x :: xs))
  = ("[" :: indented (stack (layout_items repr (x :: xs))) ++ ["]"])%list.
Proof.
  reflexivity.
Qed.

Lemma layout_obj (k : string) (x : Json.JValue)
  (xs : list (string * Json.JValue)) :
  layout repr (Json.JObj ((k, x) :: xs))
  = ("{" :: indented (stack (layout_members repr ((k, x) :: xs)))
       ++ ["}"])%list.
Proof.
  assert (E : forall l : list (string * Json.JValue),
             (fix all (l : list (string * Json.JValue))
                : list (list string) :=
                match l with
                | [] => []
                | (k, x) :: l' =>
                    prefix_first (Json.encode_basestring k ++ ": ")
                      (layout repr x)
                      :: all l'
                end) l
             = layout_members repr l).
  { induction l as [|[k' y] l IH]; [reflexivity|].
    unfold layout_members in *. cbn [map fst snd]. now rewrite <- IH. }
  cbn [layout]. now rewrite E.
Qed.

(** A list or a record that is not empty, once its items or members are
    laid out. *)
Lemma concat_bracketed (level : nat) (opening closing : string)
  (lines : list string) :
  lines <> [] ->
  String.concat (line_start level) (opening :: indented lines ++ [closing])%list
  = opening ++ line_start (S level) ++ String.concat (line_start (S level)) lines
      ++ line_start level ++ closing.
Proof.
  intros N.
  assert (I : indented lines <> [])
    by (destruct lines; [contradiction|discriminate]).
  destruct (indented lines ++ [closing])%list as [|z l] eqn:E.
  - apply app_eq_nil in E. destruct E as [E _]. contradiction.
  - rewrite concat_cons, <- E, concat_app by (assumption || discriminate).
    rewrite concat_indented by assumption.
    cbn [String.concat]. rewrite ?app_assoc_s, sep_deeper.
    now rewrite ?app_assoc_s.
Qed.

(** What the encoder writes with an indentation of two is the layout,
    its lines joined by a line break and the blanks of the nesting. *)
Lemma encode_layout (v : Json.JValue) :
  forall level : nat,
    Json.encode repr (Some 2) level v
    = String.concat (line_start level) (layout repr v).
Proof.
  induction v as [|b|z|f|s|items IH|pairs IH] using JValue_induction;
    intros level; try reflexivity.
  - now destruct b.
  - destruct items as [|x xs]; [reflexivity|].
    rewrite encode_arr, layout_arr.
    rewrite concat_bracketed
      by (apply stack_nonempty, layout_nonempty).
    change (Json.item_open (Some 2) level) with (line_start (S level)).
    change (Json.item_close (Some 2) level) with (line_start level).
    do 2 f_equal. rewrite <- app_assoc_s. f_equal.
    clear - IH. revert x IH.
    induction xs as [|y ys IHys]; intros x IH.
    + inversion IH as [|? ? Hx _]; subst.
      cbn [layout_items map stack encode_items].
      now rewrite app_empty_r.
    + inversion IH as [|? ? Hx Hxs]; subst.
      change (layout_items repr (x :: y :: ys))
        with (layout repr x :: layout_items repr (y :: ys)).
      change (stack (layout repr x :: layout_items repr (y :: ys)))
        with (suffix_last "," (layout repr x)
                ++ stack (layout_items repr (y :: ys)))%list.
      rewrite concat_app
        by (first [ apply suffix_last_nonempty, layout_nonempty
                  | apply stack_nonempty, layout_nonempty ]).
      rewrite concat_suffix_last by apply layout_nonempty.
      rewrite <- Hx, <- (IHys y Hxs).
      change (encode_items repr (Some 2) level (y :: ys))
        with (("," ++ line_start (S level))
                ++ Json.encode repr (Some 2) (S level) y
                ++ encode_items repr (Some 2) level ys).
      now rewrite !app_assoc_s.
  - destruct pairs as [|[k x] xs]; [reflexivity|].
    rewrite encode_obj, layout_obj.
    assert (M : forall (k' : string) (y : Json.JValue),
               prefix_first (Json.encode_basestring k' ++ ": ")
                 (layout repr y) <> []).
    { intros k' y. pose proof (layout_nonempty y).
      destruct (layout repr y); [contradiction|discriminate]. }
    rewrite concat_bracketed by (apply stack_nonempty, M).
    change (Json.item_open (Some 2) level) with (line_start (S level)).
    change (Json.item_close (Some 2) level) with (line_start level).
    assert (G : Json.encode_basestring k ++ ": "
                  ++ Json.encode repr (Some 2) (S level) x
                  ++ encode_members repr (Some 2) level xs
                = String.concat (line_start (S level))
                    (stack (layout_members repr ((k, x) :: xs)))).
    { clear - IH M. revert k x IH.
      induction xs as [|[k' y] ys IHys]; intros k x IH.
      - inversion IH as [|? ? Hx _]; subst. simpl snd in Hx.
        cbn [layout_members map stack encode_members fst snd].
        rewrite concat_prefix_first by apply layout_nonempty.
        now rewrite <- Hx, app_empty_r, !app_assoc_s.
      - inversion IH as [|? ? Hx Hxs]; subst. simpl snd in Hx.
        change (layout_members repr ((k, x) :: (k', y) :: ys))
          with (prefix_first (Json.encode_basestring k ++ ": ")
                  (layout repr x)
                  :: layout_members repr ((k', y) :: ys)).
        change (stack (?b :: layout_members repr ((k', y) :: ys)))
          with (suffix_last "," b
                  ++ stack (layout_members repr ((k', y) :: ys)))%list.
        rewrite concat_app
          by (first [ apply suffix_last_nonempty, M
                    | apply stack_nonempty, M ]).
        rewrite concat_suffix_last by apply M.
        rewrite concat_prefix_first by apply layout_nonempty.
        rewrite <- Hx, <- (IHys k' y Hxs).
        change (encode_members repr (Some 2) level ((k', y) :: ys))
          with (("," ++ line_start (S level))
                  ++ Json.encode_basestring k' ++ ": "
                  ++ Json.encode repr (Some 2) (S level) y
                  ++ encode_members repr (Some 2) level ys).
        now rewrite !app_assoc_s. }
    rewrite <- G. now rewrite !app_assoc_s.
Qed.

End Layout.

(** [json.dumps] with an indentation of two writes the layout, its lines
    joined by line breaks. *)
Lemma dumps_layout (repr : Json.PyFloat -> string) (v : Json.JValue) :
  Json.dumps repr (Some 2) v = PyStr.join nl (layout repr v).
Proof.
  apply (encode_layout repr v 0).
Qed.

(** ** The pieces [json.dump] writes *)

Lemma concat_pieces_cons (x : string) (l : list string) :
  String.concat "" (x :: l) = x ++ String.concat "" l.
Proof.
  destruct l; [symmetry; apply app_empty_r|reflexivity].
Qed.

Lemma concat_pieces_app (a b : list string) :
  String.concat "" (a ++ b) = String.concat "" a ++ String.concat "" b.
Proof.
  induction a as [|x a IH]; [reflexivity|].
  change ((x :: a) ++ b)%list with (x :: (a ++ b))%list.
  now rewrite !concat_pieces_cons, IH, app_assoc_s.
Qed.

Lemma concat_close_pieces (indent : option nat) (level : nat)
  (bracket : string) :
  String.concat "" (Json.close_pieces indent level bracket)
  = Json.item_close indent level ++ bracket.
Proof.
  now destruct indent.
Qed.

Lemma concat_open_pieces (indent : option nat) (level : nat) :
  String.concat "" (Json.open_pieces indent level)
  = Json.item_open indent level.
Proof.
  now destruct indent.
Qed.

(** The pieces, put end to end, are the text [json.dumps] returns. *)
Lemma iterencode_concat (repr : Json.PyFloat -> string) (indent : option nat)
  (v : Json.JValue) :
  forall level : nat,
    String.concat "" (Json.iterencode repr indent level v)
    = Json.encode repr indent level v.
Proof.
  induction v as [|b|z|f|s|items IH|pairs IH] using JValue_induction;
    intros level; try reflexivity.
  - destruct items as [|x xs]; [reflexivity|].
    inversion IH as [|? ? Hx Hxs]; subst.
    rewrite encode_arr. cbn [Json.iterencode].
    rewrite !concat_pieces_app, concat_close_pieces.
    assert (A : String.concat ""
                  (if Json.is_container x
                   then ("[" ++ Json.item_open indent level)
                          :: Json.iterencode repr indent (S level) x
                   else ["[" ++ Json.item_open indent level
                           ++ Json.encode repr indent (S level) x])
                = "[" ++ Json.item_open indent level
                    ++ Json.encode repr indent (S level) x).
    { destruct (Json.is_container x); [|reflexivity].
      now rewrite concat_pieces_cons, Hx, app_assoc_s. }
    rewrite A, !app_assoc_s. do 3 f_equal.
    match goal with
    | |- context [String.concat "" (?more xs)] =>
        assert (B : String.concat "" (more xs)
                    = encode_items repr indent level xs)
    end.
    { clear - Hxs. induction Hxs as [|y ys Hy Hys IHys]; [reflexivity|].
      cbv beta iota. rewrite concat_pieces_app, IHys.
      change (encode_items repr indent level (y :: ys))
        with (Json.item_separator indent level
                ++ Json.encode repr indent (S level) y
                ++ encode_items repr indent level ys).
      rewrite <- app_assoc_s. f_equal.
      destruct (Json.is_container y); [|reflexivity].
      now rewrite concat_pieces_cons, Hy. }
    now rewrite B.
  - destruct pairs as [|[k x] xs]; [reflexivity|].
    inversion IH as [|? ? Hx Hxs]; subst. simpl snd in Hx.
    rewrite encode_obj. cbn [Json.iterencode].
    rewrite concat_pieces_cons, concat_pieces_app, concat_open_pieces.
    rewrite !concat_pieces_cons, !concat_pieces_app, concat_close_pieces.
    rewrite Hx, ?app_assoc_s.
    match goal with
    | |- context [String.concat "" (?more xs)] =>
        assert (B : String.concat "" (more xs)
                    = encode_members repr indent level xs)
    end.
    { clear - Hxs.
      induction Hxs as [|[k' y] ys Hy Hys IHys]; [reflexivity|].
      simpl snd in Hy. cbv beta iota.
      rewrite !concat_pieces_cons, concat_pieces_app, IHys, Hy.
      reflexivity. }
    now rewrite B.
Qed.

(** The file always holds a beginning of the text. *)
Lemma file_after_prefix (pieces : list string) :
  exists tail, String.concat "" pieces = file_after pieces ++ tail.
Proof.
  unfold file_after.
  induction pieces as [|piece more [tail IH]]; [now exists ""|].
  rewrite concat_pieces_cons. cbn [write_pieces].
  destruct (encodable piece).
  - destruct (write_pieces more) as [written raised]. simpl in *.
    exists tail. now rewrite IH, app_assoc_s.
  - eexists. reflexivity.
Qed.

(** What [plan.json] holds when the plan can be encoded, and in any
    case. *)
Lemma plan_file_dumped (w : World) (plan_data : Json.JValue) :
  dumpable w plan_data = true ->
  file_after (plan_pieces w plan_data)
  = Json.dumps (float_repr w) (Some 2) plan_data.
Proof.
  intros D. rewrite (file_after_encodable _ D).
  apply iterencode_concat.
Qed.

Lemma plan_file_prefix (w : World) (plan_data : Json.JValue) :
  exists tail,
    Json.dumps (float_repr w) (Some 2) plan_data
    = file_after (plan_pieces w plan_data) ++ tail.
Proof.
  destruct (file_after_prefix (plan_pieces w plan_data)) as [tail E].
  exists tail. rewrite <- E. symmetry. apply iterencode_concat.
Qed.

Lemma dump_error (w : World) (plan_data : Json.JValue) :
  dumpable w plan_data = false ->
  exists e, write_error (plan_pieces w plan_data) = Some e.
Proof.
  unfold dumpable. rewrite write_pieces_error.
  destruct (write_error _) as [e|]; [eauto|discriminate].
Qed.

Lemma dump_succeeds (w : World) (plan_data : Json.JValue) :
  dumpable w plan_data = true ->
  write_error (plan_pieces w plan_data) = None.
Proof.
  unfold dumpable. rewrite write_pieces_error.
  now destruct (write_error _).
Qed.

(** A run that obtains a plan: what it returns or raises, and what it
    does, up to the service's answer to the answering request. *)
Lemma main_obtains
  (w : World) (lines : list string) (r i j t : string)
  (plan_data : Json.JValue) :
  obtains w lines r i j t plan_data ->
  exists (before : list Event) (n : nat) (repaired : bool),
    result_of (main w (start lines))
    = saving_result w plan_data
        (service w n (answer_request w r i j t plan_data))
    /\ events_of (main w (start lines))
       = (before
            ++ saving_events w r i j t plan_data repaired
                 (service w n (answer_request w r i j t plan_data)))%list
    /\ files_written before = []
    /\ (requests before = [planner_request w r i j t]
        \/ exists plan_raw,
             requests before
             = [planner_request w r i j t; repair_request w plan_raw]).
Proof.
  intros (plan_raw & P & O). rewrite (main_plans _ _ _ _ _ _ _ P).
  pose proof P as (_ & _ & _ & H).
  destruct O as [[U ->]|(U & fixed & R & V & ->)].
  - rewrite (chains_plan_usable w r i j t plan_raw
               (start (uncollected lines)) H U).
    exists (collection_events ++ planning_events w r i j t plan_raw)%list,
      1, false.
    unfold result_of, events_of, fst, snd.
    rewrite <- app_assoc, files_written_app, requests_app,
      files_written_collection, requests_collection,
      files_written_planning, requests_planning.
    repeat split. now left.
  - rewrite (chains_repair_usable w r i j t plan_raw fixed
               (start (uncollected lines)) H U R V).
    exists (collection_events ++ planning_events w r i j t plan_raw
              ++ escalation_events w plan_raw
              ++ map Decode (decode_attempts (room_of_repair w) fixed))%list,
      2, true.
    unfold result_of, events_of, fst, snd.
    rewrite <- !app_assoc, !files_written_app, !requests_app,
      files_written_collection, requests_collection,
      files_written_planning, requests_planning, files_written_decodes,
      requests_decodes.
    repeat split. right. now exists plan_raw.
Qed.

(** ** The plan file *)

Lemma escape_copied (a : ascii) :
  copied a = true -> Json.escape_char a = String a "".
Proof.
  destruct a as [[|] [|] [|] [|] [|] [|] [|] [|]];
    intros C; try discriminate C; reflexivity.
Qed.

Lemma non_ascii_copied (a : ascii) :
  128 <= nat_of_ascii a -> copied a = true.
Proof.
  destruct a as [[|] [|] [|] [|] [|] [|] [|] [|]];
    intros C; try reflexivity; apply Nat.leb_le in C; discriminate C.
Qed.

Lemma escape_plain (s : string) : plain s = true -> Json.escape s = s.
Proof.
  induction s as [|a s IH]; simpl; [reflexivity|].
  intros P. apply andb_true_iff in P. destruct P as [C P].
  now rewrite (escape_copied a C), IH.
Qed.

Lemma escape_app (s t : string) :
  Json.escape (s ++ t) = Json.escape s ++ Json.escape t.
Proof.
  induction s as [|a s IH]; [reflexivity|].
  simpl. now rewrite IH, app_assoc_s.
Qed.

(** C9, as amended.  When a run obtains a plan, from the planning output
    or from the repaired one, the first file it writes is [plan.json].
    When every text of the plan has a UTF-8 encoding, the file holds the
    layout of the plan: a list or a record that is not empty opens and
    closes on lines of its own, its items or members stand in between, in
    the order the decoded value holds them, each on lines of its own, two
    blanks further in for each level of nesting, a comma after each but the
    last.  This is what [json.dumps] returns with an indentation of two; a
    plan made of texts, lists and records is read back from it as the same
    value, key by key in the same order; and every byte of a text other
    than the quote, the backslash and the control characters is written as
    it is, so that no character outside ASCII is escaped.  When a text of
    the plan has no UTF-8 encoding, [plan.json] is left with a beginning of
    the layout, the exception escapes [main], no other file is written and
    no answering request is sent. *)
Theorem plan_file_serialized
  (w : World) (lines : list string) (r i j t : string)
  (plan_data : Json.JValue) :
  obtains w lines r i j t plan_data ->
  (exists rest,
     files_written (events_of (main w (start lines)))
     = ("plan.json", file_after (plan_pieces w plan_data)) :: rest)
  /\ (dumpable w plan_data = true ->
      file_after (plan_pieces w plan_data)
      = PyStr.join nl (layout (float_repr w) plan_data))
  /\ (dumpable w plan_data = false ->
      (exists e,
         write_error (plan_pieces w plan_data) = Some e
         /\ result_of (main w (start lines)) = inr e)
      /\ files_written (events_of (main w (start lines)))
         = [("plan.json", file_after (plan_pieces w plan_data))]
      /\ filter is_answer (requests (events_of (main w (start lines)))) = []
      /\ exists tail,
           PyStr.join nl (layout (float_repr w) plan_data)
           = file_after (plan_pieces w plan_data) ++ tail)
  /\ PyStr.join nl (layout (float_repr w) plan_data)
     = Json.dumps (float_repr w) (Some 2) plan_data
  /\ (forall room : nat,
        textual plan_data = true ->
        nesting plan_data <= room ->
        Json.loads room (Json.dumps (float_repr w) (Some 2) plan_data)
        = inl plan_data)
  /\ (forall s : string,
        plain s = true ->
        Json.encode_basestring s = String dquote (s ++ String dquote ""))
  /\ (forall (a : ascii) (s1 s2 : string),
        128 <= nat_of_ascii a ->
        Json.escape (s1 ++ String a s2)
        = Json.escape s1 ++ String a (Json.escape s2)).
Proof.
  intros O.
  destruct (main_obtains _ _ _ _ _ _ _ O)
    as (before & n & repaired & Hr & He & Hf & Hq).
  split; [|split; [|split; [|split; [|split; [|split]]]]].
  - rewrite He, files_written_app, Hf, files_written_saving.
    eexists. reflexivity.
  - intros D. rewrite (plan_file_dumped _ _ D). apply dumps_layout.
  - intros D. split; [|split; [|split]].
    + destruct (dump_error _ _ D) as [e E]. exists e. split; [exact E|].
      rewrite Hr. unfold saving_result. now rewrite E.
    + rewrite He, files_written_app, Hf, files_written_saving, D.
      reflexivity.
    + rewrite He, requests_app, requests_saving, D, app_nil_r.
      destruct Hq as [->|[plan_raw ->]]; reflexivity.
    + rewrite <- dumps_layout. apply plan_file_prefix.
  - symmetry. apply dumps_layout.
  - intros room T N. now apply loads_dumps.
  - intros s Ps. unfold Json.encode_basestring.
    now rewrite (escape_plain s Ps).
  - intros a s1 s2 A. rewrite escape_app. simpl.
    now rewrite (escape_copied a (non_ascii_copied a A)).
Qed.

Lemma plan_file_serialized_witness :
  (exists rest,
     files_written
       (events_of
          (main
             (example_world
                [inl (lit "{`steps`: [`Lire l'annonce`], `assumptions`: [`Entretien à distance`], `success_criteria`: [`Dix questions`]}");
                 inl "# Questions"])
             (start example_console)))
     = ("plan.json",
        file_after
          (plan_pieces
             (example_world
                [inl (lit "{`steps`: [`Lire l'annonce`], `assumptions`: [`Entretien à distance`], `success_criteria`: [`Dix questions`]}");
                 inl "# Questions"])
             (Json.JObj
                [("steps", Json.JArr [Json.JStr "Lire l'annonce"]);
                 ("assumptions", Json.JArr [Json.JStr "Entretien à distance"]);
                 ("success_criteria", Json.JArr [Json.JStr "Dix questions"])])))
       :: rest)
  /\ file_after
       (plan_pieces
          (example_world
             [inl (lit "{`steps`: [`Lire l'annonce`], `assumptions`: [`Entretien à distance`], `success_criteria`: [`Dix questions`]}");
              inl "# Questions"])
          (Json.JObj
             [("steps", Json.JArr [Json.JStr "Lire l'annonce"]);
              ("assumptions", Json.JArr [Json.JStr "Entretien à distance"]);
              ("success_criteria", Json.JArr [Json.JStr "Dix questions"])]))
     = PyStr.join nl
         ["{";
          lit "  `steps`: [";
          lit "    `Lire l'annonce`";
          "  ],";
          lit "  `assumptions`: [";
          lit "    `Entretien à distance`";
          "  ],";
          lit "  `success_criteria`: [";
          lit "    `Dix questions`";
          "  ]";
          "}"].
Proof.
  assert (O : obtains
                (example_world
                   [inl (lit "{`steps`: [`Lire l'annonce`], `assumptions`: [`Entretien à distance`], `success_criteria`: [`Dix questions`]}");
                    inl "# Questions"])
                example_console "Backend Engineer" "Hiring Manager"
                "Builds APIs." "Five years of Go."
                (Json.JObj
                   [("steps", Json.JArr [Json.JStr "Lire l'annonce"]);
                    ("assumptions",
                     Json.JArr [Json.JStr "Entretien à distance"]);
                    ("success_criteria",
                     Json.JArr [Json.JStr "Dix questions"])])).
  { eexists. split; [repeat split; reflexivity|].
    left. split; vm_compute; reflexivity. }
  destruct (plan_file_serialized _ _ _ _ _ _ _ O) as (A & B & _).
  split; [exact A|apply B; reflexivity].
Defined.

(** C9 fails as stated.  The planning output of the first run lists
    [assumptions] first, and so does the file.  That of the second run
    holds a lone surrogate, which has no UTF-8 encoding: [plan.json] is
    left with its first line and the key of the second, the exception
    escapes [main], and neither the answering request nor [output.md]
    follows. *)
Lemma plan_file_keeps_decoded_order :
  files_written
    (events_of
       (main
          (example_world
             [inl (lit "{`assumptions`: [`Remote role`], `steps`: [`Read the role`], `success_criteria`: []}");
              inl "# Questions"])
          (start example_console)))
  = [("plan.json",
      "{" ++ nl
        ++ lit "  `assumptions`: [" ++ nl
        ++ lit "    `Remote role`" ++ nl
        ++ "  ]," ++ nl
        ++ lit "  `steps`: [" ++ nl
        ++ lit "    `Read the role`" ++ nl
        ++ "  ]," ++ nl
        ++ lit "  `success_criteria`: []" ++ nl
        ++ "}");
     ("output.md", "# Questions")]
  /\ result_of
       (main
          (example_world
             [inl (lit "{`steps`: [`\ud800`], `assumptions`: [], `success_criteria`: []}");
              inl "# Questions"])
          (start example_console))
     = inr (UnicodeEncodeError
              "'utf-8' codec can't encode character '\ud800' in position 7: surrogates not allowed")
  /\ files_written
       (events_of
          (main
             (example_world
                [inl (lit "{`steps`: [`\ud800`], `assumptions`: [], `success_criteria`: []}");
                 inl "# Questions"])
             (start example_console)))
     = [("plan.json", "{" ++ nl ++ lit "  `steps`: ")]
  /\ requests
       (events_of
          (main
             (example_world
                [inl (lit "{`steps`: [`\ud800`], `assumptions`: [], `success_criteria`: []}");
                 inl "# Questions"])
             (start example_console)))
     = [planner_request
          (example_world
             [inl (lit "{`steps`: [`\ud800`], `assumptions`: [], `success_criteria`: []}");
              inl "# Questions"])
          "Backend Engineer" "Hiring Manager" "Builds APIs."
          "Five years of Go."].
Proof.
  repeat split; vm_compute; reflexivity.
Qed.

(** * Further properties of [app.py] *)

(** ** [main] before the chains *)

(** X1.  Without an API key, be it unset or empty, [main] prints the key
    message and returns at once: it reads no line of the console, sends no
    request and writes no file. *)
Theorem missing_key_halts (w : World) (st : State) :
  has_api_key w = false ->
  main w st = (inl tt, st, [Stdout (missing_key_message ++ nl)]).
Proof.
  intros K. unfold main. fold (has_api_key w). now rewrite K.
Qed.

Lemma missing_key_halts_witness :
  main {| OPENAI_API_KEY := Some "";
          OPENAI_MODEL := None;
          args := default_args;
          service := scripted [];
          float_repr := fun _ => "0.0";
          recursion_room := 992 |}
    (start example_console)
  = (inl tt, start example_console, [Stdout (missing_key_message ++ nl)]).
Proof.
  apply (@missing_key_halts
           {| OPENAI_API_KEY := Some "";
              OPENAI_MODEL := None;
              args := default_args;
              service := scripted [];
              float_repr := fun _ => "0.0";
              recursion_room := 992 |}
           (start example_console)).
  reflexivity.
Defined.

(** X2.  The two one-line prompts are not guarded: when the console ends
    before both are answered, [EOFError] escapes [main], after the prompt
    that met the end of the console; nothing was requested or written. *)
Theorem short_console_raises (w : World) (lines : list string) :
  has_api_key w = true ->
  List.length lines < 2 ->
  result_of (main w (start lines)) = inr EOFError
  /\ requests (events_of (main w (start lines))) = []
  /\ files_written (events_of (main w (start lines))) = []
  /\ (exists before prompt,
        events_of (main w (start lines))
        = (before ++ [Stdout prompt])%list
        /\ PyStr.startswith prompt "Step 1" = true).
Proof.
  intros K L. unfold main. fold (has_api_key w). rewrite K.
  destruct lines as [|l1 [|l2 rest]]; [| |simpl in L; lia].
  - repeat split; try reflexivity.
    exists [Stdout ((nl ++ "=== Interview Helper (Two-Stage) ===") ++ nl)].
    eexists. split; reflexivity.
  - repeat split; try reflexivity.
    exists [Stdout ((nl ++ "=== Interview Helper (Two-Stage) ===") ++ nl);
            Stdout "Step 1 — Enter Job Title: "].
    eexists. split; reflexivity.
Qed.

Lemma short_console_raises_witness :
  result_of (main (example_world []) (start ["Backend Engineer"]))
  = inr EOFError
  /\ requests (events_of (main (example_world []) (start ["Backend Engineer"])))
     = []
  /\ files_written
       (events_of (main (example_world []) (start ["Backend Engineer"]))) = []
  /\ (exists before prompt,
        events_of (main (example_world []) (start ["Backend Engineer"]))
        = (before ++ [Stdout prompt])%list
        /\ PyStr.startswith prompt "Step 1" = true).
Proof.
  apply (@short_console_raises (example_world []) ["Backend Engineer"]).
  - reflexivity.
  - simpl. lia.
Defined.

(** ** The paths of [main] through the two chains *)

Lemma main_chains (w : World) (lines : list string) (r i j t : string) :
  has_api_key w = true ->
  collected lines = Some (r, i, j, t) ->
  all_given r i j t = true ->
  main w (start lines)
  = match chains w r i j t (start (uncollected lines)) with
    | (res, st, seen) => (res, st, (collection_events ++ seen)%list)
    end.
Proof.
  intros K C G. rewrite (main_collected _ _ _ _ _ _ K C). now rewrite G.
Qed.

(** X3.  When the planning call raises, [main] catches it, prints the
    error with its message and returns normally: one request was sent,
    nothing was decoded and no file was written. *)
Theorem planning_error_halts
  (w : World) (lines : list string) (r i j t message : string) :
  has_api_key w = true ->
  collected lines = Some (r, i, j, t) ->
  all_given r i j t = true ->
  service w 0 (planner_request w r i j t) = inr message ->
  main w (start lines)
  = (inl tt, after_calls 1 (start (uncollected lines)),
     (collection_events
        ++ [ Stdout ((nl ++ "[Chain 1] Creating plan...") ++ nl);
             Request (planner_request w r i j t);
             Stdout (("OpenAI error during planning: " ++ message) ++ nl) ])%list)
  /\ files_written (events_of (main w (start lines))) = [].
Proof.
  intros K C G H. rewrite (main_chains _ _ _ _ _ _ K C G).
  rewrite (chains_planning_unavailable w r i j t message
             (start (uncollected lines)) H).
  split; reflexivity.
Qed.

Lemma planning_error_halts_witness :
  main (example_world [inr "Rate limit reached."]) (start example_console)
  = (inl tt, after_calls 1 (start []),
     (collection_events
        ++ [ Stdout ((nl ++ "[Chain 1] Creating plan...") ++ nl);
             Request (planner_request (example_world [inr "Rate limit reached."])
                        "Backend Engineer" "Hiring Manager" "Builds APIs."
                        "Five years of Go.");
             Stdout (("OpenAI error during planning: " ++ "Rate limit reached.")
                       ++ nl) ])%list)
  /\ files_written
       (events_of (main (example_world [inr "Rate limit reached."])
                     (start example_console))) = [].
Proof.
  apply (@planning_error_halts (example_world [inr "Rate limit reached."])
           example_console "Backend Engineer" "Hiring Manager"
           "Builds APIs." "Five years of Go." "Rate limit reached.");
    reflexivity.
Defined.

(** X4.  The repair call is not guarded: when it raises, the exception
    escapes [attempt_model_repair] and [main].  The run ends with it right
    after the repair request, without the failure report and without any
    file. *)
Theorem repair_error_escapes
  (w : World) (lines : list string) (r i j t plan_raw message : string) :
  plans w lines r i j t plan_raw ->
  unusable (room_of_main w) plan_raw ->
  service w 1 (repair_request w plan_raw) = inr message ->
  main w (start lines)
  = (inr (ServiceError message), after_calls 2 (start (uncollected lines)),
     (collection_events
        ++ planning_events w r i j t plan_raw
        ++ escalation_events w plan_raw)%list)
  /\ files_written (events_of (main w (start lines))) = []
  /\ requests (events_of (main w (start lines)))
     = [planner_request w r i j t; repair_request w plan_raw].
Proof.
  intros P U R. rewrite (main_plans _ _ _ _ _ _ _ P).
  destruct P as (_ & _ & _ & H).
  rewrite (chains_repair_unavailable w r i j t plan_raw message
             (start (uncollected lines)) H U R).
  unfold events_of, snd. repeat split.
  - rewrite !files_written_app, files_written_collection,
      files_written_planning.
    reflexivity.
  - rewrite !requests_app, requests_collection, requests_planning.
    reflexivity.
Qed.

Lemma repair_error_escapes_witness :
  main (example_world [inl "I cannot help."; inr "Connection reset."])
    (start example_console)
  = (inr (ServiceError "Connection reset."), after_calls 2 (start []),
     (collection_events
        ++ planning_events
             (example_world [inl "I cannot help."; inr "Connection reset."])
             "Backend Engineer" "Hiring Manager" "Builds APIs."
             "Five years of Go." "I cannot help."
        ++ escalation_events
             (example_world [inl "I cannot help."; inr "Connection reset."])
             "I cannot help.")%list)
  /\ files_written
       (events_of
          (main (example_world [inl "I cannot help."; inr "Connection reset."])
             (start example_console))) = []
  /\ requests
       (events_of
          (main (example_world [inl "I cannot help."; inr "Connection reset."])
             (start example_console)))
     = [planner_request
          (example_world [inl "I cannot help."; inr "Connection reset."])
          "Backend Engineer" "Hiring Manager" "Builds APIs." "Five years of Go.";
        repair_request
          (example_world [inl "I cannot help."; inr "Connection reset."])
          "I cannot help."].
Proof.
  apply (@repair_error_escapes
           (example_world [inl "I cannot help."; inr "Connection reset."])
           example_console "Backend Engineer" "Hiring Manager"
           "Builds APIs." "Five years of Go." "I cannot help."
           "Connection reset.").
  - repeat split; reflexivity.
  - vm_compute; split; reflexivity.
  - reflexivity.
Defined.

Lemma write_single (final_md : string) :
  file_after [final_md] = (if encodable final_md then final_md else "")
  /\ write_error [final_md]
     = if encodable final_md then None else Some (encode_error final_md).
Proof.
  unfold file_after, write_error. cbn [write_pieces].
  destruct (encodable final_md); simpl; [|now split].
  now rewrite app_empty_r.
Qed.

(** What [main] does from the saving of the plan on, when the plan and
    the answer can be encoded. *)
Lemma saving_dumped (w : World) (r i j t : string) (plan_data : Json.JValue)
  (repaired : bool) (reply : string + string) :
  dumpable w plan_data = true ->
  writable reply = true ->
  saving_result w plan_data reply = inl tt
  /\ files_written (saving_events w r i j t plan_data repaired reply)
     = ("plan.json", Json.dumps (float_repr w) (Some 2) plan_data)
         :: match reply with
            | inl final_md => [("output.md", final_md)]
            | inr _ => []
            end
  /\ requests (saving_events w r i j t plan_data repaired reply)
     = [answer_request w r i j t plan_data].
Proof.
  intros D W. split; [|split].
  - unfold saving_result. rewrite (dump_succeeds _ _ D).
    destruct reply as [final_md|m]; [|reflexivity].
    simpl in W. now rewrite (proj2 (write_single final_md)), W.
  - rewrite files_written_saving, D, (plan_file_dumped _ _ D).
    destruct reply as [final_md|m]; [|reflexivity].
    simpl in W. now rewrite (proj1 (write_single final_md)), W.
  - now rewrite requests_saving, D.
Qed.

(** X5.  When the planning output is usable and the texts to be written
    have a UTF-8 encoding, [main] sends no repair request, writes
    [plan.json] and makes the answering call.  If that call returns, the
    answer is printed and written to [output.md] as it is, after
    [plan.json]; if it raises, [main] prints the error and returns
    normally, [plan.json] stays written and [output.md] is not written. *)
Theorem answering_outcome
  (w : World) (lines : list string) (r i j t plan_raw : string) :
  plans w lines r i j t plan_raw ->
  Json.truthy (parsed_data (room_of_main w) plan_raw) = true ->
  dumpable w (parsed_data (room_of_main w) plan_raw) = true ->
  writable
    (service w 1
       (answer_request w r i j t (parsed_data (room_of_main w) plan_raw)))
  = true ->
  main w (start lines)
  = (inl tt, after_calls 2 (start (uncollected lines)),
     (collection_events
        ++ planning_events w r i j t plan_raw
        ++ saving_events w r i j t (parsed_data (room_of_main w) plan_raw)
             false
             (service w 1
                (answer_request w r i j t
                   (parsed_data (room_of_main w) plan_raw))))%list)
  /\ files_written (events_of (main w (start lines)))
     = ("plan.json",
        Json.dumps (float_repr w) (Some 2)
          (parsed_data (room_of_main w) plan_raw))
         :: match service w 1
                    (answer_request w r i j t
                       (parsed_data (room_of_main w) plan_raw)) with
            | inl final_md => [("output.md", final_md)]
            | inr _ => []
            end.
Proof.
  intros P U D W. rewrite (main_plans _ _ _ _ _ _ _ P).
  destruct P as (_ & _ & _ & H).
  rewrite (chains_plan_usable w r i j t plan_raw
             (start (uncollected lines)) H U).
  cbn [calls start] in *.
  destruct (saving_dumped w r i j t _ false _ D W) as (A & B & _).
  rewrite A, D. split; [reflexivity|]. unfold events_of, snd.
  rewrite !files_written_app, files_written_collection,
    files_written_planning.
  exact B.
Qed.

Lemma answering_outcome_witness :
  files_written
    (events_of
       (main (example_world
                [inl (lit "{`steps`: [`Read the role`]}");
                 inr "Service unavailable."])
          (start example_console)))
  = [("plan.json",
      Json.dumps (fun _ => "0.0") (Some 2)
        (Json.JObj [("steps", Json.JArr [Json.JStr "Read the role"])]))].
Proof.
  exact (proj2 (@answering_outcome
                  (example_world
                     [inl (lit "{`steps`: [`Read the role`]}");
                      inr "Service unavailable."])
                  example_console "Backend Engineer" "Hiring Manager"
                  "Builds APIs." "Five years of Go."
                  (lit "{`steps`: [`Read the role`]}")
                  ltac:(repeat split; reflexivity)
                  ltac:(vm_compute; reflexivity)
                  ltac:(vm_compute; reflexivity)
                  ltac:(vm_compute; reflexivity))).
Defined.

(** X6.  After a repair that succeeds, the plan [main] goes on with is the
    repaired one: when the texts to be written have a UTF-8 encoding, it is
    the content of [plan.json], it is the plan of the answering request,
    and the message that announces the file ends with [(repaired)].  The
    run sent three requests. *)
Theorem repaired_plan_is_used
  (w : World) (lines : list string) (r i j t plan_raw repaired_text : string) :
  plans w lines r i j t plan_raw ->
  unusable (room_of_main w) plan_raw ->
  repairs_to w plan_raw repaired_text ->
  Json.truthy (parsed_data (room_of_repair w) repaired_text) = true ->
  dumpable w (parsed_data (room_of_repair w) repaired_text) = true ->
  writable
    (service w 2
       (answer_request w r i j t
          (parsed_data (room_of_repair w) repaired_text)))
  = true ->
  result_of (main w (start lines)) = inl tt
  /\ requests (events_of (main w (start lines)))
     = [planner_request w r i j t; repair_request w plan_raw;
        answer_request w r i j t
          (parsed_data (room_of_repair w) repaired_text)]
  /\ files_written (events_of (main w (start lines)))
     = ("plan.json",
        Json.dumps (float_repr w) (Some 2)
          (parsed_data (room_of_repair w) repaired_text))
         :: match service w 2
                    (answer_request w r i j t
                       (parsed_data (room_of_repair w) repaired_text)) with
            | inl final_md => [("output.md", final_md)]
            | inr _ => []
            end
  /\ In (Stdout (("[Chain 1] Plan ready. Saved to plan.json" ++ " (repaired)")
                   ++ nl))
       (events_of (main w (start lines))).
Proof.
  intros P U R V D W. rewrite (main_plans _ _ _ _ _ _ _ P).
  destruct P as (_ & _ & _ & H).
  rewrite (chains_repair_usable w r i j t plan_raw repaired_text
             (start (uncollected lines)) H U R V).
  cbn [calls start] in *.
  destruct (saving_dumped w r i j t _ true _ D W) as (A & B & C).
  unfold events_of, result_of, snd, fst. split; [exact A|].
  split; [|split].
  - rewrite !requests_app, requests_collection, requests_planning,
      requests_decodes, C.
    reflexivity.
  - rewrite !files_written_app, files_written_collection,
      files_written_planning, files_written_decodes.
    exact B.
  - apply in_or_app. right. apply in_or_app. right.
    apply in_or_app. right. apply in_or_app. right.
    unfold saving_events. rewrite D. right.
    unfold answering_events. apply in_or_app. left. simpl. tauto.
Qed.

Lemma repaired_plan_is_used_witness :
  requests
    (events_of
       (main (example_world
                [inl "Here you go!";
                 inl (lit "{`steps`: [`Read the role`]}");
                 inl "# Questions"])
          (start example_console)))
  = [planner_request
       (example_world
          [inl "Here you go!"; inl (lit "{`steps`: [`Read the role`]}");
           inl "# Questions"])
       "Backend Engineer" "Hiring Manager" "Builds APIs." "Five years of Go.";
     repair_request
       (example_world
          [inl "Here you go!"; inl (lit "{`steps`: [`Read the role`]}");
           inl "# Questions"])
       "Here you go!";
     answer_request
       (example_world
          [inl "Here you go!"; inl (lit "{`steps`: [`Read the role`]}");
           inl "# Questions"])
       "Backend Engineer" "Hiring Manager" "Builds APIs." "Five years of Go."
       (Json.JObj [("steps", Json.JArr [Json.JStr "Read the role"])])].
Proof.
  exact (proj1 (proj2 (@repaired_plan_is_used
                  (example_world
                     [inl "Here you go!";
                      inl (lit "{`steps`: [`Read the role`]}");
                      inl "# Questions"])
                  example_console "Backend Engineer" "Hiring Manager"
                  "Builds APIs." "Five years of Go." "Here you go!"
                  (lit "{`steps`: [`Read the role`]}")
                  ltac:(repeat split; reflexivity)
                  ltac:(vm_compute; split; reflexivity)
                  eq_refl
                  ltac:(vm_compute; reflexivity)
                  ltac:(vm_compute; reflexivity)
                  ltac:(vm_compute; reflexivity)))).
Defined.

(** ** What no run does *)

(** A run either stops before the chains, with nothing requested and
    nothing written, or goes through them. *)
Lemma main_events_cases (w : World) (lines : list string) :
  (requests (events_of (main w (start lines))) = []
   /\ files_written (events_of (main w (start lines))) = [])
  \/ (exists r i j t,
        events_of (main w (start lines))
        = (collection_events
             ++ events_of (chains w r i j t (start (uncollected lines))))%list).
Proof.
  destruct (has_api_key w) eqn:K.
  - destruct (collected lines) as [[[[r i] j] t]|] eqn:C.
    + rewrite (main_collected _ _ _ _ _ _ K C).
      destruct (all_given r i j t).
      * right. exists r, i, j, t.
        now destruct (chains w r i j t _) as [[res st] seen].
      * left. split; reflexivity.
    + left. destruct (main_console_short _ _ K C) as (_ & A & B). now split.
  - left. rewrite (main_without_key _ _ K). split; reflexivity.
Qed.

(** The files a run of the chains writes. *)
Lemma chains_files (w : World) (r i j t : string) (st : State) :
  files_written (events_of (chains w r i j t st)) = []
  \/ (exists c, files_written (events_of (chains w r i j t st))
                = [("plan.json", c)])
  \/ (exists c d, files_written (events_of (chains w r i j t st))
                  = [("plan.json", c); ("output.md", d)]).
Proof.
  assert (S : forall d b reply,
             (exists c, files_written (saving_events w r i j t d b reply)
                        = [("plan.json", c)])
             \/ (exists c e, files_written (saving_events w r i j t d b reply)
                             = [("plan.json", c); ("output.md", e)])).
  { intros d b reply. rewrite files_written_saving.
    destruct (dumpable w d); [|left; eexists; reflexivity].
    destruct reply as [final_md|m]; [right|left]; repeat eexists. }
  chains_paths w r i j t st; unfold events_of, snd;
    rewrite ?files_written_app, ?files_written_planning,
      ?files_written_decodes;
    first [ now left | right; apply S ].
Qed.

(** X7.  Whatever the world and the console, a run writes no file, or
    [plan.json] alone, or [plan.json] and then [output.md]: the answer is
    never written without the plan, nor before it, and no file is written
    twice. *)
Theorem files_in_order (w : World) (lines : list string) :
  files_written (events_of (main w (start lines))) = []
  \/ (exists c, files_written (events_of (main w (start lines)))
                = [("plan.json", c)])
  \/ (exists c d, files_written (events_of (main w (start lines)))
                  = [("plan.json", c); ("output.md", d)]).
Proof.
  destruct (main_events_cases w lines) as [[_ F]|(r & i & j & t & E)].
  - now left.
  - rewrite E, files_written_app, files_written_collection.
    apply chains_files.
Qed.

(** X8.  Whatever the world and the console, a run sends at most three
    requests, and each of them carries the model of the environment (or the
    default one) and the three sampling parameters of the command line. *)
Theorem requests_share_settings (w : World) (lines : list string) :
  List.length (requests (events_of (main w (start lines)))) <= 3
  /\ Forall
       (fun q =>
          model q = match OPENAI_MODEL w with
                    | Some m => m
                    | None => default_model
                    end
          /\ temperature q = arg_temperature (args w)
          /\ top_p q = arg_top_p (args w)
          /\ max_output_tokens q = arg_max_tokens (args w))
       (requests (events_of (main w (start lines)))).
Proof.
  destruct (main_events_cases w lines) as [[Q _]|(r & i & j & t & E)].
  - rewrite Q. split; [simpl; lia|constructor].
  - rewrite E, requests_app, requests_collection. cbn [app].
    destruct (chains_requests w r i j t (start (uncollected lines)))
      as [Q|[[d Q]|[[b Q]|[b [d Q]]]]];
      cbv zeta in Q; rewrite Q; split; try (simpl; lia);
      repeat constructor.
Qed.

(** ** What the substring heuristic can return *)

(** A text that holds [c], cut at the first and at the last [c]. *)
Lemma find_split (c : ascii) (s : string) :
  PyStr.contains c s = true ->
  exists p r, s = p ++ String c r /\ PyStr.contains c p = false.
Proof.
  induction s as [|a s IH]; simpl; [discriminate|].
  destruct (Ascii.eqb a c) eqn:E.
  - intros _. apply Ascii.eqb_eq in E. subst a. now exists "", s.
  - intros H. destruct (IH H) as (p & r & -> & Hp).
    exists (String a p), r. simpl. now rewrite E.
Qed.

Lemma rfind_split (c : ascii) (s : string) :
  PyStr.contains c s = true ->
  exists p t, s = p ++ String c t /\ PyStr.contains c t = false.
Proof.
  induction s as [|a s IH]; simpl; [discriminate|].
  destruct (PyStr.contains c s) eqn:C.
  - intros _. destruct (IH eq_refl) as (p & t & -> & Ht).
    now exists (String a p), t.
  - destruct (Ascii.eqb a c) eqn:E; [|discriminate].
    intros _. apply Ascii.eqb_eq in E. subst a. now exists "", s.
Qed.

(** Two ways to cut the same text share the shorter first part. *)
Lemma app_split (s1 s2 t1 t2 : string) :
  s1 ++ s2 = t1 ++ t2 ->
  String.length s1 <= String.length t1 ->
  exists m, t1 = s1 ++ m /\ s2 = m ++ t2.
Proof.
  revert t1. induction s1 as [|a s1 IH]; intros t1 E L.
  - now exists t1.
  - destruct t1 as [|b t1]; [simpl in L; lia|].
    simpl in E. injection E as -> E. simpl in L.
    destruct (IH t1 E ltac:(lia)) as (m & -> & ->). now exists m.
Qed.

(** The members of an object are read into a dict. *)
Lemma parse_members_obj (fuel : nat) :
  forall (depth : nat) (s : string) (acc : list (string * Json.JValue))
         (v : Json.JValue) (rest : string),
    Json.parse_members fuel depth s acc = Json.Ok v rest ->
    exists pairs, v = Json.JObj pairs.
Proof.
  induction fuel as [|fuel IH]; intros depth s acc v rest;
    [discriminate|].
  destruct s as [|c r]; [rewrite parse_members_empty; no_value|].
  rewrite parse_members_unfold.
  destruct (Ascii.eqb c dquote); [|no_value].
  destruct (Json.scanstring _ _ _) as [key r1| | | |]; try no_value.
  destruct (Json.skip_ws r1) as [|c2 r2]; [no_value|].
  destruct (Ascii.eqb c2 ":"%char); [|no_value].
  destruct (Json.scan_once fuel _ _) as [x r3| | | |]; try no_value.
  destruct (Json.skip_ws r3) as [|c4 r4]; [no_value|].
  destruct (Ascii.eqb c4 "}"%char).
  - intros H. injection H as <- _. eauto.
  - destruct (Ascii.eqb c4 ","%char); [|no_value].
    apply IH.
Qed.

(** What [json.loads] returns, the scanner has read. *)
Lemma loads_value (room : nat) (s : string) (v : Json.JValue) :
  Json.loads room s = inl v ->
  exists rest,
    Json.scan_once (S (2 * String.length s)) room (Json.skip_ws s)
    = Json.Ok v rest.
Proof.
  unfold Json.loads.
  destruct (PyStr.startswith s Json.bom); [discriminate|].
  destruct (Json.scan_once _ _ _) as [x rest| | | |];
    try discriminate; [|destruct room as [|[|room]]; discriminate].
  destruct (Json.skip_ws rest); [|destruct room; discriminate].
  intros H. injection H as <-. eauto.
Qed.

(** A text that starts with an opening brace decodes to a dict, if it
    decodes. *)
Lemma loads_brace (room : nat) (r : string) (v : Json.JValue) :
  Json.loads room (String "{"%char r) = inl v ->
  exists pairs, v = Json.JObj pairs.
Proof.
  intros H. apply loads_value in H. destruct H as [rest H].
  change (Json.skip_ws (String "{"%char r)) with (String "{"%char r) in H.
  destruct room as [|room]; [discriminate H|].
  rewrite scan_once_object in H.
  destruct (Json.skip_ws r) as [|c1 r1].
  - exact (parse_members_obj _ _ _ _ _ _ H).
  - destruct (Ascii.eqb c1 "}"%char).
    + injection H as <- _. eauto.
    + exact (parse_members_obj _ _ _ _ _ _ H).
Qed.

(** The heuristic's slice, for a text that holds both braces. *)
Lemma candidate_cases (raw : string) :
  PyStr.contains "{"%char raw = true ->
  PyStr.contains "}"%char raw = true ->
  ((PyStr.rfind "}"%char raw < PyStr.find "{"%char raw)%Z
   /\ candidate_of raw = "")
  \/ (exists p body t,
        raw = p ++ ("{" ++ body ++ "}") ++ t
        /\ PyStr.contains "{"%char p = false
        /\ PyStr.contains "}"%char t = false
        /\ candidate_of raw = "{" ++ body ++ "}").
Proof.
  intros Ho Hc.
  destruct (find_split _ _ Ho) as (p & r & E1 & Hp).
  destruct (rfind_split _ _ Hc) as (q & t & E2 & Ht).
  assert (F : PyStr.find "{"%char raw = PyStr.len p).
  { rewrite E1. now apply find_after_prefix. }
  assert (R : PyStr.rfind "}"%char raw = PyStr.len q).
  { rewrite E2. now apply rfind_before_suffix. }
  destruct (le_lt_dec (String.length p) (String.length q)) as [L|L].
  - right. assert (E : p ++ String "{"%char r = q ++ String "}"%char t)
      by congruence.
    destruct (app_split _ _ _ _ E L) as (m & -> & M).
    destruct m as [|a body]; [discriminate M|].
    simpl in M. injection M as <- ->.
    exists p, body, t.
    assert (W : raw = p ++ ("{" ++ body ++ "}") ++ t).
    { rewrite E1. f_equal. simpl. f_equal. now rewrite app_assoc_s. }
    repeat split; try assumption.
    rewrite W. now apply candidate_embedded.
  - left. split; [rewrite F, R; unfold PyStr.len; lia|].
    unfold candidate_of. rewrite F, R. apply slice_empty.
    unfold PyStr.len. lia.
Qed.

(** X9.  For a text that holds both braces, the slice the heuristic hands
    to the decoder is empty when the last closing brace comes before the
    first opening brace; otherwise it is a piece of the text that starts
    with an opening brace and ends with a closing brace, with no opening
    brace before it and no closing brace after it. *)
Theorem candidate_is_braced_piece (raw : string) :
  PyStr.contains "{"%char raw = true ->
  PyStr.contains "}"%char raw = true ->
  ((PyStr.rfind "}"%char raw < PyStr.find "{"%char raw)%Z
   /\ candidate_of raw = "")
  \/ (exists p body t,
        raw = p ++ ("{" ++ body ++ "}") ++ t
        /\ PyStr.contains "{"%char p = false
        /\ PyStr.contains "}"%char t = false
        /\ candidate_of raw = "{" ++ body ++ "}").
Proof.
  apply candidate_cases.
Qed.

Lemma candidate_is_braced_piece_witness :
  ((PyStr.rfind "}"%char (lit "Plan: {`steps`: []} done")
    < PyStr.find "{"%char (lit "Plan: {`steps`: []} done"))%Z
   /\ candidate_of (lit "Plan: {`steps`: []} done") = "")
  \/ (exists p body t,
        lit "Plan: {`steps`: []} done" = p ++ ("{" ++ body ++ "}") ++ t
        /\ PyStr.contains "{"%char p = false
        /\ PyStr.contains "}"%char t = false
        /\ candidate_of (lit "Plan: {`steps`: []} done")
           = "{" ++ body ++ "}").
Proof.
  apply (@candidate_is_braced_piece (lit "Plan: {`steps`: []} done"));
    reflexivity.
Defined.

(** X10.  What the retry recovers is always a dict: when the text as a
    whole does not decode and the parser still returns data and no error,
    the data is a JSON object.  Lists, texts and numbers can only come from
    the direct decode. *)
Theorem retry_yields_record
  (room : nat) (raw : string) (e1 : Json.JSONDecodeError)
  (data : Json.JValue) :
  Json.loads room raw = inr (Json.DecodeError e1) ->
  parse_result room raw = inl (data, None) ->
  exists pairs, data = Json.JObj pairs.
Proof.
  intros H N. unfold parse_result in N.
  destruct (PyStr.contains "{"%char raw && PyStr.contains "}"%char raw)
    eqn:B.
  - rewrite (parse_retry _ _ _ H B) in N.
    apply andb_true_iff in B. destruct B as [Ho Hc].
    destruct (Json.loads room (candidate_of raw)) as [d|[e2|e]] eqn:L;
      try discriminate N.
    injection N as <-.
    destruct (candidate_cases raw Ho Hc) as [[_ E]|(p & body & t & _ & _ & _ & E)];
      rewrite E in L.
    + exfalso. clear - L. unfold Json.loads in L. simpl in L.
      destruct room as [|[|room]]; discriminate L.
    + exact (loads_brace _ _ _ L).
  - rewrite (parse_no_retry _ _ _ H B) in N. discriminate N.
Qed.

Lemma retry_yields_record_witness :
  exists pairs, Json.JObj [("steps", Json.JArr [])] = Json.JObj pairs.
Proof.
  apply (@retry_yields_record script_room
           (lit "Plan: {`steps`: []} done")
           (Json.decode_error "Expecting value"
              (lit "Plan: {`steps`: []} done")
              (lit "Plan: {`steps`: []} done")));
    vm_compute; reflexivity.
Defined.

(** ** Blank model output *)

Lemma ws_char (a : ascii) :
  Json.is_ws a = true ->
  Ascii.eqb a "{"%char = false
  /\ PyStr.starts_code_point a = true
  /\ Ascii.eqb (ascii_of_nat 239) a = false.
Proof.
  destruct a as [[|] [|] [|] [|] [|] [|] [|] [|]];
    intros H; try discriminate H; repeat split.
Qed.

Lemma json_blank_skip (s : string) :
  json_blank s = true ->
  Json.skip_ws s = ""
  /\ PyStr.contains "{"%char s = false
  /\ PyStr.code_points s = String.length s.
Proof.
  induction s as [|a s IH]; simpl; intros H; [repeat split|].
  apply andb_true_iff in H. destruct H as [W B].
  destruct (IH B) as (I1 & I2 & I3).
  destruct (ws_char a W) as (E1 & E2 & _).
  rewrite W, E1, E2, I3. repeat split; assumption.
Qed.

Lemma json_blank_no_bom (s : string) :
  json_blank s = true -> PyStr.startswith s Json.bom = false.
Proof.
  destruct s as [|a s]; [reflexivity|]. simpl. intros H.
  apply andb_true_iff in H. destruct H as [W _].
  destruct (ws_char a W) as (_ & _ & E).
  unfold PyStr.startswith, Json.bom. cbn [PyStr.strip_prefix].
  now rewrite E.
Qed.

Lemma substring_all (s : string) : String.substring 0 (String.length s) s = s.
Proof.
  induction s as [|a s IH]; simpl; [reflexivity|now rewrite IH].
Qed.

Lemma loads_blank (room : nat) (raw : string) :
  json_blank raw = true ->
  Json.loads room raw
  = match room with
    | 0 => inr (Json.Uncaught (Json.recursion_error ""))
    | 1 => inr (Json.Uncaught (Json.recursion_error Json.calling))
    | _ => inr (Json.DecodeError (Json.decode_error "Expecting value" raw ""))
    end.
Proof.
  intros B. unfold Json.loads.
  rewrite (json_blank_no_bom _ B).
  destruct (json_blank_skip _ B) as (-> & _ & _). reflexivity.
Qed.

(** X11.  A model output that is empty or made of blanks, tabs and line
    breaks only fails to parse after a single decode attempt (it holds no
    brace, so nothing is retried): the data is [None] and the message
    says that a value was expected at the end of the text.  This is so
    where the decoder has room for the two calls that build its error;
    with less, the [RecursionError] that takes its place escapes the
    parser. *)
Theorem blank_output_fails (room : nat) (raw : string) :
  json_blank raw = true ->
  try_parse_json_once room raw
  = ([raw],
     match room with
     | 0 => inr (Json.recursion_error "")
     | 1 => inr (Json.recursion_error Json.calling)
     | _ =>
         inl (Json.JNull,
              Some ("JSON parsing failed: Expecting value: line "
                      ++ PyStr.of_nat (Json.count_newlines raw + 1)
                      ++ " column "
                      ++ PyStr.of_nat
                           (PyStr.code_points (Json.last_line raw) + 1)
                      ++ " (char " ++ PyStr.of_nat (String.length raw)
                      ++ ")"))
     end).
Proof.
  intros B.
  destruct (json_blank_skip _ B) as (_ & C & P).
  pose proof (loads_blank room raw B) as L.
  destruct room as [|[|room]].
  - exact (parse_escapes _ _ _ L).
  - exact (parse_escapes _ _ _ L).
  - rewrite (parse_no_retry _ raw _ L) by (rewrite C; reflexivity).
    unfold Json.error_str, Json.decode_error.
    cbn [Json.msg Json.lineno Json.colno Json.pos String.length].
    rewrite Nat.sub_0_r, substring_all, P. reflexivity.
Qed.

Lemma blank_output_fails_witness :
  try_parse_json_once script_room (" " ++ nl ++ "  ")
  = ([" " ++ nl ++ "  "],
     inl (Json.JNull,
          Some "JSON parsing failed: Expecting value: line 2 column 3 (char 4)")).
Proof.
  apply (@blank_output_fails script_room (" " ++ nl ++ "  ")). reflexivity.
Defined.

(** ** The multi-line prompt *)

Lemma read_lines_kept (more : list string) :
  forall acc : list string,
    acc <> [] ->
    no_blank more = true ->
    read_lines more acc = ((acc ++ more)%list, [])
    /\ (forall b rest,
          blank b = true ->
          read_lines (more ++ b :: rest)%list acc = ((acc ++ more)%list, rest)).
Proof.
  induction more as [|line more IH]; intros acc A N.
  - rewrite app_nil_r. split; [reflexivity|].
    intros b rest Hb. cbn [app read_lines]. unfold blank in Hb. rewrite Hb.
    destruct acc as [|x acc]; [contradiction|reflexivity].
  - simpl in N. apply andb_true_iff in N. destruct N as [L N].
    apply negb_true_iff in L. unfold blank in L.
    assert (A' : (acc ++ [line])%list <> []) by (now destruct acc).
    destruct (IH (acc ++ [line])%list A' N) as [I1 I2].
    rewrite <- app_assoc in I1. cbn [app] in I1.
    split.
    + cbn [read_lines]. rewrite L. cbn [andb]. exact I1.
    + intros b rest Hb. cbn [app read_lines]. rewrite L. cbn [andb].
      rewrite (I2 b rest Hb), <- app_assoc. reflexivity.
Qed.

Lemma prompt_multiline_run (label : string) (lines : list string) (n : nat) :
  prompt_multiline label {| console := lines; calls := n |}
  = (inl (PyStr.strip (PyStr.join nl (fst (read_lines lines [])))),
     {| console := snd (read_lines lines []); calls := n |},
     multiline_events label).
Proof.
  unfold prompt_multiline, print, emit, ret, bind.
  cbv beta iota zeta. cbn [console calls].
  destruct (read_lines lines []) as [kept rest]. reflexivity.
Qed.

(** X12.  The multi-line prompt reads up to the first blank line that is
    not the first line of the answer: that line ends the answer and is
    consumed, the lines after it stay on the console, and the answer is the
    lines before it, joined by line breaks and trimmed.  A blank first line
    does not end the answer. *)
Theorem multiline_stops_at_blank
  (label first b : string) (more rest : list string) (n : nat) :
  no_blank more = true ->
  blank b = true ->
  prompt_multiline label
    {| console := (first :: more ++ b :: rest)%list; calls := n |}
  = (inl (PyStr.strip (PyStr.join nl (first :: more))),
     {| console := rest; calls := n |},
     multiline_events label).
Proof.
  intros N B. rewrite prompt_multiline_run.
  assert (R : read_lines (first :: more ++ b :: rest)%list []
              = (first :: more, rest)).
  { cbn [read_lines List.length Nat.ltb Nat.leb]. rewrite andb_false_r.
    cbn [app].
    exact (proj2 (read_lines_kept more [first] ltac:(discriminate) N)
             b rest B). }
  now rewrite R.
Qed.

Lemma multiline_stops_at_blank_witness :
  prompt_multiline "Step 3 — Resume"
    {| console := ["Five years of Go."; "Two of Rust."; "  "; "left over"];
       calls := 0 |}
  = (inl ("Five years of Go." ++ nl ++ "Two of Rust."),
     {| console := ["left over"]; calls := 0 |},
     multiline_events "Step 3 — Resume").
Proof.
  apply (@multiline_stops_at_blank "Step 3 — Resume" "Five years of Go." "  "
           ["Two of Rust."] ["left over"] 0);
    reflexivity.
Defined.

(** X13.  The end of the console ends the answer too: [EOFError] is caught
    inside the multi-line prompt, which returns the lines read so far,
    joined and trimmed (the empty text when there was none), and still
    prints its closing rule. *)
Theorem multiline_reads_to_end (label : string) (lines : list string) (n : nat) :
  no_blank (tl lines) = true ->
  prompt_multiline label {| console := lines; calls := n |}
  = (inl (PyStr.strip (PyStr.join nl lines)),
     {| console := []; calls := n |},
     multiline_events label).
Proof.
  intros N. rewrite prompt_multiline_run.
  assert (R : read_lines lines [] = (lines, [])).
  { destruct lines as [|first more]; [reflexivity|].
    cbn [read_lines List.length Nat.ltb Nat.leb]. rewrite andb_false_r.
    cbn [app].
    exact (proj1 (read_lines_kept more [first] ltac:(discriminate) N)). }
  now rewrite R.
Qed.

Lemma multiline_reads_to_end_witness :
  prompt_multiline "Step 3 — Resume"
    {| console := [""; "Five years of Go."]; calls := 0 |}
  = (inl "Five years of Go.",
     {| console := []; calls := 0 |},
     multiline_events "Step 3 — Resume").
Proof.
  apply (@multiline_reads_to_end "Step 3 — Resume"
           [""; "Five years of Go."] 0).
  reflexivity.
Defined.

(** ** A job description left out *)

Lemma all_given_third (r i t : string) : all_given r i "" t = false.
Proof.
  unfold all_given. cbn [nonempty String.eqb negb].
  now rewrite andb_false_r.
Qed.

(** X14.  When the console ends right after the two one-line answers, or
    goes on with two blank lines, the job description is empty and [main]
    ends normally with the missing-input message, without any request:
    the end of the console raises nothing here. *)
Theorem absent_description_halts
  (w : World) (line1 line2 : string) (rest : list string) :
  has_api_key w = true ->
  rest = []
  \/ (exists b1 b2 rest',
        rest = (b1 :: b2 :: rest')%list
        /\ blank b1 = true /\ blank b2 = true) ->
  result_of (main w (start (line1 :: line2 :: rest))) = inl tt
  /\ events_of (main w (start (line1 :: line2 :: rest)))
     = (collection_events ++ [Stdout (missing_input_message ++ nl)])%list
  /\ requests (events_of (main w (start (line1 :: line2 :: rest)))) = [].
Proof.
  intros K E.
  assert (C : exists t,
             collected (line1 :: line2 :: rest)
             = Some (PyStr.strip line1, PyStr.strip line2, "", t)).
  { unfold collected.
    destruct E as [ -> | (b1 & b2 & rest' & -> & B1 & B2) ].
    - cbn [read_lines]. eexists. reflexivity.
    - cbn [read_lines List.length Nat.ltb Nat.leb app].
      rewrite andb_false_r. unfold blank in B1, B2. rewrite B2.
      cbn [andb]. destruct (read_lines rest' []) as [cv rest2].
      cbn [PyStr.join String.concat]. apply String.eqb_eq in B1.
      rewrite B1. eexists. reflexivity. }
  destruct C as [t C].
  rewrite (main_collected _ _ _ _ _ _ K C), all_given_third.
  unfold result_of, events_of, fst, snd.
  split; [reflexivity|]. split; [reflexivity|].
  rewrite requests_app, requests_collection. reflexivity.
Qed.

Lemma absent_description_halts_witness :
  result_of (main (example_world [])
               (start ["Backend Engineer"; "Hiring Manager"])) = inl tt
  /\ events_of (main (example_world [])
                  (start ["Backend Engineer"; "Hiring Manager"]))
     = (collection_events ++ [Stdout (missing_input_message ++ nl)])%list
  /\ requests (events_of (main (example_world [])
                            (start ["Backend Engineer"; "Hiring Manager"])))
     = [].
Proof.
  apply (@absent_description_halts (example_world [])
           "Backend Engineer" "Hiring Manager" []).
  - reflexivity.
  - left. reflexivity.
Defined.

(** ** What the repair returns *)

(** X15.  [attempt_model_repair] sends exactly one request, the repair
    request for the broken text.  If the service raises, the exception
    escapes; if the service returns and the decoder raises on the repaired
    text something the parser does not catch, that escapes as well, the
    parse being outside any [try].  Otherwise it returns either data that
    is truthy, with no error, or [None] with the failure message: never
    falsy data, never data together with an error. *)
Theorem repair_result_shape
  (room : nat) (client : OpenAI) (model broken_text : string)
  (temperature top_p : Json.PyFloat) (max_tokens : Z) (st : State) :
  requests
    (events_of
       (attempt_model_repair room client model broken_text temperature top_p
          max_tokens st))
  = [ {| model := model; temperature := temperature; top_p := top_p;
         max_output_tokens := max_tokens; system := repair_system;
         user := repair_instruction ++ nl ++ nl ++ "BROKEN TEXT:" ++ nl
                   ++ broken_text |} ]
  /\ match result_of
             (attempt_model_repair room client model broken_text temperature
                top_p max_tokens st) with
     | inl (data, err) =>
         (Json.truthy data = true /\ err = None)
         \/ (data = Json.JNull
             /\ exists repaired,
                  err = Some (repair_failure room repaired)
                  /\ unusable room repaired)
     | inr e =>
         (exists message, e = ServiceError message)
         \/ (exists repaired,
               parse_result room repaired = inr e
               /\ is_decoder_exception e = true)
     end.
Proof.
  unfold attempt_model_repair, bind, call_openai_responses, parse_in_run, ret.
  destruct (client (calls st) _) as [repaired|message].
  - cbv beta iota zeta.
    destruct (parse_result_cases room repaired) as [[e E]|[V|V]].
    + rewrite (parse_raises _ _ _ E). cbv beta iota zeta.
      unfold events_of, result_of; cbn [fst snd app requests].
      rewrite requests_decodes. split; [reflexivity|]. right.
      exists repaired. split; [exact E|exact (parse_raises_kind _ _ _ E)].
    + rewrite (parsed_pair _ _ (truthy_returns _ _ V)), V.
      cbv beta iota zeta. unfold events_of, result_of;
        cbn [fst snd app requests]; rewrite app_nil_r, requests_decodes.
      split; [reflexivity|]. now left.
    + destruct V as [V1 V2]. rewrite (parsed_pair _ _ V1), V2.
      cbv beta iota zeta. unfold events_of, result_of;
        cbn [fst snd app requests]; rewrite app_nil_r, requests_decodes.
      split; [reflexivity|]. right. split; [reflexivity|].
      exists repaired. split; [reflexivity|now split].
  - split; [reflexivity|]. left. now exists message.
Qed.

(** ** When [main] raises *)

Lemma write_error_piece (pieces : list string) (e : Exn) :
  write_error pieces = Some e ->
  exists piece,
    In piece pieces /\ encodable piece = false /\ e = encode_error piece.
Proof.
  unfold write_error.
  induction pieces as [|piece more IH]; [discriminate|].
  cbn [write_pieces]. destruct (encodable piece) eqn:C.
  - destruct (write_pieces more) as [written raised]. simpl in *.
    intros E. destruct (IH E) as (p & I & N & ->).
    exists p. repeat split; [now right|assumption].
  - simpl. intros E. injection E as <-.
    exists piece. repeat split; [now left|assumption].
Qed.

Lemma saving_raises (w : World) (plan_data : Json.JValue)
  (reply : string + string) (e : Exn) :
  saving_result w plan_data reply = inr e ->
  write_error (plan_pieces w plan_data) = Some e
  \/ (dumpable w plan_data = true
      /\ exists final_md,
           reply = inl final_md
           /\ encodable final_md = false
           /\ e = encode_error final_md).
Proof.
  unfold saving_result, dumpable. rewrite write_pieces_error.
  destruct (write_error (plan_pieces w plan_data)) as [e'|].
  - intros E. injection E as <-. now left.
  - destruct reply as [final_md|m]; [|discriminate].
    rewrite (proj2 (write_single final_md)).
    destruct (encodable final_md) eqn:C; [discriminate|].
    intros E. injection E as <-. right. split; [reflexivity|].
    now exists final_md.
Qed.

(** X16.  Once the command line is parsed, and standard output taking
    every text, [main] raises in these cases only.  It raises [EOFError]
    when the console holds fewer than the two one-line answers.  It raises
    what the decoder raised besides its own decode error, a [ValueError] or
    a [RecursionError], on the planning output or on the repaired output.
    It raises what the service raised when the repair call fails.  It
    raises the [UnicodeEncodeError] of a piece of the plan it obtained, as
    it writes [plan.json], or of the answer, as it writes [output.md].  A
    failure of the planning call or of the answering call never escapes,
    nor does a failed parse. *)
Theorem main_raises_only (w : World) (lines : list string) (e : Exn) :
  result_of (main w (start lines)) = inr e ->
  (e = EOFError /\ List.length lines < 2)
  \/ (exists r i j t plan_raw,
        plans w lines r i j t plan_raw
        /\ ((parse_result (room_of_main w) plan_raw = inr e
             /\ is_decoder_exception e = true)
            \/ (unusable (room_of_main w) plan_raw
                /\ exists message,
                     service w 1 (repair_request w plan_raw) = inr message
                     /\ e = ServiceError message)
            \/ (unusable (room_of_main w) plan_raw
                /\ exists repaired_text,
                     repairs_to w plan_raw repaired_text
                     /\ parse_result (room_of_repair w) repaired_text = inr e
                     /\ is_decoder_exception e = true)
            \/ (exists plan_data,
                  obtains w lines r i j t plan_data
                  /\ ((exists piece,
                         In piece (plan_pieces w plan_data)
                         /\ encodable piece = false
                         /\ e = encode_error piece)
                      \/ (dumpable w plan_data = true
                          /\ exists n final_md,
                               service w n
                                 (answer_request w r i j t plan_data)
                               = inl final_md
                               /\ encodable final_md = false
                               /\ e = encode_error final_md))))).
Proof.
  destruct (has_api_key w) eqn:K.
  - destruct (collected lines) as [[[[r i] j] t]|] eqn:C.
    + rewrite (main_collected _ _ _ _ _ _ K C).
      destruct (all_given r i j t) eqn:G; [|discriminate].
      assert (S : forall plan_data reply,
                 saving_result w plan_data reply = inr e ->
                 forall n,
                   reply = service w n (answer_request w r i j t plan_data) ->
                   (exists piece,
                      In piece (plan_pieces w plan_data)
                      /\ encodable piece = false
                      /\ e = encode_error piece)
                   \/ (dumpable w plan_data = true
                       /\ exists n final_md,
                            service w n (answer_request w r i j t plan_data)
                            = inl final_md
                            /\ encodable final_md = false
                            /\ e = encode_error final_md)).
      { intros d reply E n ->.
        destruct (saving_raises _ _ _ _ E) as [W|(D & final_md & Q & N & ->)].
        - left. exact (write_error_piece _ _ W).
        - right. split; [exact D|]. now exists n, final_md. }
      chains_paths w r i j t (start (uncollected lines));
        unfold result_of, fst; intros F; try discriminate F; right.
      * injection F as F. subst. exists r, i, j, t, plan_raw.
        split; [now repeat split|]. left.
        split; [assumption|]. eapply parse_raises_kind; eassumption.
      * exists r, i, j, t, plan_raw. split; [now repeat split|].
        right; right; right.
        exists (parsed_data (room_of_main w) plan_raw). split.
        -- exists plan_raw. split; [now repeat split|]. left. now split.
        -- exact (S _ _ F 1 eq_refl).
      * injection F as F. subst. exists r, i, j, t, plan_raw.
        split; [now repeat split|]. right; right; left.
        split; [assumption|]. exists fixed. repeat split; try assumption.
        eapply parse_raises_kind; eassumption.
      * exists r, i, j, t, plan_raw. split; [now repeat split|].
        right; right; right.
        exists (parsed_data (room_of_repair w) fixed). split.
        -- exists plan_raw. split; [now repeat split|]. right.
           split; [assumption|]. exists fixed. now repeat split.
        -- exact (S _ _ F 2 eq_refl).
      * injection F as F. subst. exists r, i, j, t, plan_raw.
        split; [now repeat split|]. right; left.
        split; [assumption|]. now exists message.
    + destruct (main_console_short _ _ K C) as (-> & _ & _).
      intros E. injection E as <-. left. split; [reflexivity|].
      destruct lines as [|l1 [|l2 rest]]; simpl; try lia.
      unfold collected in C. destruct (read_lines rest []) as [jd rest1].
      destruct (read_lines rest1 []). discriminate C.
  - rewrite (main_without_key _ _ K). discriminate.
Qed.

Lemma main_raises_only_witness :
  result_of (main (example_world []) (start ["Backend Engineer"]))
  = inr EOFError
  /\ List.length ["Backend Engineer"] < 2.
Proof.
  split; [reflexivity|].
  destruct (@main_raises_only (example_world []) ["Backend Engineer"]
              EOFError eq_refl)
    as [[_ L]|(r & i & j & t & plan_raw & (_ & C & _) & _)].
  - exact L.
  - discriminate C.
Defined.

(** ** The plan in the answering prompt *)

Lemma escape_char_one_line (a : ascii) :
  PyStr.contains newline (Json.escape_char a) = false.
Proof.
  destruct a as [[|] [|] [|] [|] [|] [|] [|] [|]]; reflexivity.
Qed.

Lemma escape_one_line (s : string) :
  PyStr.contains newline (Json.escape s) = false.
Proof.
  induction s as [|a s IH]; [reflexivity|].
  simpl Json.escape. now rewrite contains_app, escape_char_one_line, IH.
Qed.

Lemma basestring_one_line (s : string) :
  PyStr.contains newline (Json.encode_basestring s) = false.
Proof.
  unfold Json.encode_basestring.
  change (String dquote (Json.escape s ++ String dquote ""))
    with (String dquote "" ++ Json.escape s ++ String dquote "").
  now rewrite !contains_app, escape_one_line.
Qed.

(** Without indentation the encoder writes no line break. *)
Lemma encode_one_line (repr : Json.PyFloat -> string) (v : Json.JValue) :
  textual v = true ->
  forall level : nat,
    PyStr.contains newline (Json.encode repr None level v) = false.
Proof.
  induction v as [|b|z|f|s|items IH|pairs IH] using JValue_induction;
    intros T level; try discriminate T.
  - reflexivity.
  - now destruct b.
  - apply basestring_one_line.
  - rewrite textual_arr in T.
    destruct items as [|x xs]; [reflexivity|].
    rewrite encode_arr. simpl in T. apply andb_true_iff in T.
    destruct T as [Tx Txs]. inversion IH as [|? ? Hx Hxs]; subst.
    assert (B : PyStr.contains newline (encode_items repr None level xs)
                = false).
    { clear Hx Tx IH. induction Hxs as [|y ys Hy Hys IHys]; [reflexivity|].
      simpl in Txs. apply andb_true_iff in Txs. destruct Txs as [Ty Tys].
      change (encode_items repr None level (y :: ys))
        with (Json.item_separator None level
                ++ Json.encode repr None (S level) y
                ++ encode_items repr None level ys).
      now rewrite !contains_app, (Hy Ty (S level)), (IHys Tys). }
    now rewrite !contains_app, (Hx Tx (S level)), B.
  - rewrite textual_obj in T. apply andb_true_iff in T.
    destruct T as [_ T].
    destruct pairs as [|[k x] xs]; [reflexivity|].
    rewrite encode_obj. simpl in T. apply andb_true_iff in T.
    destruct T as [Tx Txs]. inversion IH as [|? ? Hx Hxs]; subst.
    assert (B : PyStr.contains newline (encode_members repr None level xs)
                = false).
    { clear Hx Tx IH. induction Hxs as [|[k' y] ys Hy Hys IHys]; [reflexivity|].
      simpl in Txs. apply andb_true_iff in Txs. destruct Txs as [Ty Tys].
      change (encode_members repr None level ((k', y) :: ys))
        with (Json.item_separator None level
                ++ Json.encode_basestring k' ++ ": "
                ++ Json.encode repr None (S level) y
                ++ encode_members repr None level ys).
      simpl snd in Hy.
      now rewrite !contains_app, basestring_one_line, (Hy Ty (S level)),
        (IHys Tys). }
    simpl snd in Hx.
    now rewrite !contains_app, basestring_one_line, (Hx Tx (S level)), B.
Qed.

Lemma obtains_requests
  (w : World) (lines : list string) (r i j t : string)
  (plan_data : Json.JValue) :
  obtains w lines r i j t plan_data ->
  dumpable w plan_data = true ->
  exists before,
    requests (events_of (main w (start lines)))
    = (before ++ [answer_request w r i j t plan_data])%list.
Proof.
  intros O D.
  destruct (main_obtains _ _ _ _ _ _ _ O)
    as (before & n & repaired & _ & He & _ & _).
  exists (requests before).
  now rewrite He, requests_app, requests_saving, D.
Qed.

(** X17.  When a run obtains a plan made of texts, lists and records, all
    of which have a UTF-8 encoding, its last request is the answering
    request, and the plan it carries in its prompt is the compact
    rendition: one line, without any line break, which the parser of the
    program reads back as the same plan at its first decode, where the
    decoder has room for the nesting of the plan. *)
Theorem answer_prompt_carries_plan
  (w : World) (lines : list string) (r i j t : string)
  (plan_data : Json.JValue) :
  obtains w lines r i j t plan_data ->
  textual plan_data = true ->
  dumpable w plan_data = true ->
  (exists before,
     requests (events_of (main w (start lines)))
     = (before ++ [answer_request w r i j t plan_data])%list)
  /\ user (answer_request w r i j t plan_data)
     = ANSWER_USER_TEMPLATE r i j t
         (Json.dumps (float_repr w) None plan_data)
  /\ PyStr.contains newline (Json.dumps (float_repr w) None plan_data) = false
  /\ (forall room : nat,
        nesting plan_data <= room ->
        try_parse_json_once room (Json.dumps (float_repr w) None plan_data)
        = ([Json.dumps (float_repr w) None plan_data],
           inl (plan_data, None))).
Proof.
  intros O T D. split; [exact (obtains_requests _ _ _ _ _ _ _ O D)|].
  split; [reflexivity|]. split.
  - apply encode_one_line, T.
  - intros room N. now apply parse_direct, loads_dumps.
Qed.

Lemma answer_prompt_carries_plan_witness :
  PyStr.contains newline
    (Json.dumps (fun _ => "0.0") None
       (Json.JObj [("steps", Json.JArr [Json.JStr ("Read" ++ nl ++ "twice")])]))
  = false.
Proof.
  assert (O : obtains
                (example_world
                   [inl (lit "{`steps`: [`Read\ntwice`]}"); inl "# Questions"])
                example_console "Backend Engineer" "Hiring Manager"
                "Builds APIs." "Five years of Go."
                (Json.JObj
                   [("steps", Json.JArr [Json.JStr ("Read" ++ nl ++ "twice")])])).
  { eexists. split; [repeat split; reflexivity|].
    left. split; vm_compute; reflexivity. }
  exact (proj1 (proj2 (proj2
           (answer_prompt_carries_plan _ _ _ _ _ _ _ O eq_refl
              ltac:(vm_compute; reflexivity))))).
Defined.

(** ** From the console to the planner *)

Lemma read_lines_first (first : string) (rest : list string) :
  read_lines (first :: rest) [] = read_lines rest [first].
Proof.
  cbn [read_lines List.length Nat.ltb Nat.leb]. now rewrite andb_false_r.
Qed.

(** X18.  The console is read as two one-line answers, then the job
    description up to its first blank line after the first, then the
    resume up to the end of the console: the blank line belongs to neither,
    and the planning request, the first request of the run, is built from
    these four answers, each trimmed. *)
Theorem console_answers_reach_planner
  (w : World) (line1 line2 first b : string) (more cv : list string) :
  has_api_key w = true ->
  no_blank more = true ->
  blank b = true ->
  no_blank (tl cv) = true ->
  all_given (PyStr.strip line1) (PyStr.strip line2)
    (PyStr.strip (PyStr.join nl (first :: more)))
    (PyStr.strip (PyStr.join nl cv)) = true ->
  exists rest,
    requests
      (events_of
         (main w (start (line1 :: line2 :: first :: more ++ b :: cv)%list)))
    = planner_request w (PyStr.strip line1) (PyStr.strip line2)
        (PyStr.strip (PyStr.join nl (first :: more)))
        (PyStr.strip (PyStr.join nl cv))
        :: rest.
Proof.
  intros K N B M G.
  assert (C : collected (line1 :: line2 :: first :: more ++ b :: cv)%list
              = Some (PyStr.strip line1, PyStr.strip line2,
                      PyStr.strip (PyStr.join nl (first :: more)),
                      PyStr.strip (PyStr.join nl cv))).
  { unfold collected. rewrite read_lines_first.
    rewrite (proj2 (read_lines_kept more [first] ltac:(discriminate) N)
               b cv B).
    cbn [app].
    assert (R : read_lines cv [] = (cv, [])).
    { destruct cv as [|c cv']; [reflexivity|].
      rewrite read_lines_first.
      exact (proj1 (read_lines_kept cv' [c] ltac:(discriminate) M)). }
    now rewrite R. }
  rewrite (main_collected _ _ _ _ _ _ K C), G.
  pose proof (chains_requests w (PyStr.strip line1) (PyStr.strip line2)
                (PyStr.strip (PyStr.join nl (first :: more)))
                (PyStr.strip (PyStr.join nl cv))
                (start (uncollected
                          (line1 :: line2 :: first :: more ++ b :: cv)%list)))
    as Q.
  cbv zeta in Q.
  destruct (chains w _ _ _ _ _) as [[res st] seen].
  unfold events_of, snd in *.
  rewrite requests_app, requests_collection. cbn [app].
  destruct Q as [Q|[[d Q]|[[broken Q]|[broken [d Q]]]]]; rewrite Q;
    eexists; reflexivity.
Qed.

Lemma console_answers_reach_planner_witness :
  exists rest,
    requests
      (events_of
         (main (example_world [])
            (start ["  Backend Engineer "; "Hiring Manager"; "Builds APIs.";
                    "Runs them."; ""; "Five years of Go."; "Two of Rust."])))
    = planner_request (example_world []) "Backend Engineer" "Hiring Manager"
        ("Builds APIs." ++ nl ++ "Runs them.")
        ("Five years of Go." ++ nl ++ "Two of Rust.")
        :: rest.
Proof.
  apply (@console_answers_reach_planner (example_world [])
           "  Backend Engineer " "Hiring Manager" "Builds APIs." ""
           ["Runs them."] ["Five years of Go."; "Two of Rust."]);
    reflexivity.
Defined.

(** ** The limits of the interpreter *)

Lemma repeat_length (c : ascii) (n : nat) :
  String.length (PyStr.repeat c n) = n.
Proof.
  induction n as [|n IH]; simpl; congruence.
Qed.

(** One list opened too many. *)
Lemma scan_deep (room : nat) :
  forall (fuel : nat) (rest : string),
    2 * room < fuel ->
    Json.scan_once fuel room (PyStr.repeat "["%char (S room) ++ rest)
    = Json.Raise (Json.too_deep "array").
Proof.
  induction room as [|room IH]; intros fuel rest L.
  - destruct fuel as [|fuel]; [lia|]. reflexivity.
  - destruct fuel as [|[|fuel]]; [lia|lia|].
    change (PyStr.repeat "["%char (S (S room)) ++ rest)
      with (String "["%char (PyStr.repeat "["%char (S room) ++ rest)).
    rewrite scan_once_array.
    change (PyStr.repeat "["%char (S room) ++ rest)
      with (String "["%char (PyStr.repeat "["%char room ++ rest)).
    cbn [Json.skip_ws]. change (Json.is_ws "["%char) with false. cbv iota.
    change (Ascii.eqb "["%char "]"%char) with false. cbv iota.
    rewrite parse_items_step.
    change (String "["%char (PyStr.repeat "["%char room ++ rest))
      with (PyStr.repeat "["%char (S room) ++ rest).
    now rewrite IH by lia.
Qed.

Lemma loads_deep (room : nat) (rest : string) :
  Json.loads room (PyStr.repeat "["%char (S room) ++ rest)
  = inr (Json.Uncaught (Json.too_deep "array")).
Proof.
  unfold Json.loads.
  change (PyStr.repeat "["%char (S room) ++ rest)
    with (String "["%char (PyStr.repeat "["%char room ++ rest)).
  change (PyStr.startswith (String "["%char _) Json.bom) with false.
  cbv iota. cbn [Json.skip_ws]. change (Json.is_ws "["%char) with false.
  cbv iota.
  change (String "["%char (PyStr.repeat "["%char room ++ rest))
    with (PyStr.repeat "["%char (S room) ++ rest).
  rewrite scan_deep; [reflexivity|].
  rewrite length_app, repeat_length. lia.
Qed.

(** X19.  A planning output that opens more lists than the stack has room
    for, whatever follows them, makes [json.loads] raise [RecursionError].
    That is no [JSONDecodeError]: the parser does not catch it and tries no
    substring, and [main], which calls the parser outside any [try], raises
    it in turn.  The run ends right after that one decode, having sent the
    planning request only: no repair, no report, no file. *)
Theorem deep_nesting_escapes
  (w : World) (lines : list string) (r i j t rest : string) :
  plans w lines r i j t
    (PyStr.repeat "["%char (S (room_of_main w)) ++ rest) ->
  main w (start lines)
  = (inr (RecursionError
            "maximum recursion depth exceeded while decoding a JSON array from a unicode string"),
     after_calls 1 (start (uncollected lines)),
     (collection_events
        ++ [ Stdout ((nl ++ "[Chain 1] Creating plan...") ++ nl);
             Request (planner_request w r i j t);
             Decode (PyStr.repeat "["%char (S (room_of_main w)) ++ rest) ])%list)
  /\ requests (events_of (main w (start lines)))
     = [planner_request w r i j t]
  /\ files_written (events_of (main w (start lines))) = [].
Proof.
  intros P. rewrite (main_plans _ _ _ _ _ _ _ P).
  destruct P as (_ & _ & _ & H).
  pose proof (parse_escapes _ _ _ (loads_deep (room_of_main w) rest)) as E.
  assert (Q : parse_result (room_of_main w)
                (PyStr.repeat "["%char (S (room_of_main w)) ++ rest)
              = inr (Json.too_deep "array"))
    by (unfold parse_result; now rewrite E).
  rewrite (chains_plan_escapes w r i j t _ (start (uncollected lines)) _ H Q).
  unfold planning_events, decode_attempts. rewrite E.
  repeat split.
Qed.

Lemma deep_nesting_escapes_witness :
  result_of
    (main (example_world [inl (PyStr.repeat "["%char 994 ++ "1")])
       (start example_console))
  = inr (RecursionError
           "maximum recursion depth exceeded while decoding a JSON array from a unicode string").
Proof.
  exact (f_equal result_of
           (proj1 (@deep_nesting_escapes
                     (example_world [inl (PyStr.repeat "["%char 994 ++ "1")])
                     example_console "Backend Engineer" "Hiring Manager"
                     "Builds APIs." "Five years of Go." "1"
                     ltac:(repeat split; reflexivity)))).
Defined.

(** What a digit is not. *)
Lemma digit_facts (d : ascii) :
  Json.is_digit d = true ->
  Json.is_ws d = false
  /\ Ascii.eqb d dquote = false
  /\ Ascii.eqb d "{"%char = false
  /\ Ascii.eqb d "["%char = false
  /\ Ascii.eqb d "-"%char = false
  /\ Ascii.eqb (ascii_of_nat 239) d = false
  /\ Ascii.eqb "n"%char d = false
  /\ Ascii.eqb "t"%char d = false
  /\ Ascii.eqb "f"%char d = false
  /\ Ascii.eqb "N"%char d = false
  /\ Ascii.eqb "I"%char d = false
  /\ Ascii.eqb "-"%char d = false.
Proof.
  destruct d as [[|] [|] [|] [|] [|] [|] [|] [|]];
    intros H; try discriminate H; repeat split.
Qed.

Lemma span_digits_numeral (ds rest : string) :
  all_digits ds = true ->
  ends_numeral rest = true ->
  Json.span_digits (ds ++ rest) = (ds, rest).
Proof.
  intros D E. induction ds as [|a ds IH].
  - destruct rest as [|a r]; [reflexivity|]. simpl in *.
    apply negb_true_iff in E.
    repeat (apply orb_false_iff in E; destruct E as [E ?]).
    now rewrite E.
  - simpl in D. apply andb_true_iff in D. destruct D as [A D].
    simpl. now rewrite A, (IH D).
Qed.

Lemma numeral_ends (rest : string) :
  ends_numeral rest = true ->
  Json.match_fraction rest = None /\ Json.match_exponent rest = None.
Proof.
  destruct rest as [|a r]; [now split|]. simpl. intros E.
  apply negb_true_iff in E.
  repeat (apply orb_false_iff in E; destruct E as [E ?]).
  split.
  - destruct r as [|a1 r]; [reflexivity|].
    match goal with F : Ascii.eqb a "."%char = false |- _ => now rewrite F end.
  - match goal with
      F : Ascii.eqb a "e"%char = false, G : Ascii.eqb a "E"%char = false |- _ =>
        now rewrite F, G
    end.
Qed.

(** A numeral of more than 4300 digits. *)
Lemma match_number_long (d : ascii) (ds rest : string) :
  Json.is_digit d = true ->
  Ascii.eqb d "0"%char = false ->
  all_digits ds = true ->
  ends_numeral rest = true ->
  Json.int_max_str_digits < String.length (String d ds) ->
  Json.match_number (String d ds ++ rest)
  = Json.Raise (Json.too_many_digits (String.length (String d ds))).
Proof.
  intros D Z A E L.
  destruct (digit_facts d D) as (_ & _ & _ & _ & M & _).
  destruct (numeral_ends rest E) as [F X].
  unfold Json.match_number. cbn [append]. rewrite M.
  unfold Json.match_integer. rewrite Z, D.
  cbn [Json.span_digits]. rewrite D, (span_digits_numeral ds rest A E).
  rewrite F, X. apply Nat.ltb_lt in L. now rewrite L.
Qed.

Lemma loads_long_integer (room : nat) (d : ascii) (ds rest : string) :
  Json.is_digit d = true ->
  Ascii.eqb d "0"%char = false ->
  all_digits ds = true ->
  ends_numeral rest = true ->
  Json.int_max_str_digits < String.length (String d ds) ->
  Json.loads room (String d ds ++ rest)
  = inr (Json.Uncaught (Json.too_many_digits (String.length (String d ds)))).
Proof.
  intros D Z A E L.
  destruct (digit_facts d D)
    as (W & Q & B1 & B2 & _ & B & Wn & Wt & Wf & WN & WI & Wm).
  unfold Json.loads. cbn [append].
  unfold PyStr.startswith, Json.bom. cbn [PyStr.strip_prefix]. rewrite B.
  cbn [Json.skip_ws]. rewrite W. rewrite scan_once_step, Q, B1, B2.
  unfold Json.match_scalar, Json.match_word.
  cbn [PyStr.strip_prefix]. rewrite Wn, Wt, Wf, WN, WI, Wm.
  change (String d (ds ++ rest)) with (String d ds ++ rest).
  now rewrite (match_number_long d ds rest D Z A E L).
Qed.

(** X20.  A numeral of more than 4300 digits makes [json.loads] raise
    [ValueError], whatever room the stack has: the parser does not catch it
    and tries no substring, so the exception escapes
    [try_parse_json_once], after a single decode. *)
Theorem long_integer_escapes
  (room : nat) (d : ascii) (ds rest : string) :
  Json.is_digit d = true ->
  Ascii.eqb d "0"%char = false ->
  all_digits ds = true ->
  ends_numeral rest = true ->
  4300 < String.length (String d ds) ->
  try_parse_json_once room (String d ds ++ rest)
  = ([String d ds ++ rest],
     inr (ValueError
            ("Exceeds the limit (4300 digits) for integer string conversion: value has "
               ++ PyStr.of_nat (String.length (String d ds))
               ++ " digits; use sys.set_int_max_str_digits() to increase the limit"))).
Proof.
  intros D Z A E L.
  exact (parse_escapes _ _ _ (loads_long_integer room d ds rest D Z A E L)).
Qed.

Lemma long_integer_escapes_witness :
  try_parse_json_once script_room
    (String "1"%char (PyStr.repeat "0"%char 4300) ++ " x")
  = ([String "1"%char (PyStr.repeat "0"%char 4300) ++ " x"],
     inr (ValueError
            ("Exceeds the limit (4300 digits) for integer string conversion: value has "
               ++ PyStr.of_nat
                    (String.length
                       (String "1"%char (PyStr.repeat "0"%char 4300)))
               ++ " digits; use sys.set_int_max_str_digits() to increase the limit"))).
Proof.
  apply (@long_integer_escapes script_room "1"%char
           (PyStr.repeat "0"%char 4300) " x");
    vm_compute; reflexivity.
Defined.
